(** * xlsx-filter: the rule / transform engine of [xlsx-filter.js]

    A shallow embedding of the runtime part of the Node-RED node
    (the [input] handler and the helpers it calls), and the properties
    of it that the specification states.

    - JavaScript values are an inductive type; numbers are IEEE binary64
      floats (Rocq's primitive floats), strings are byte strings (the
      UTF-8 encoding of the text).
    - A JavaScript object is an association list in insertion order;
      [own_keys] computes the order [Object.keys] enumerates it in.
    - Everything the node obtains from its host (JSONata evaluation,
      context stores, regular expressions, number parsing and printing,
      and the Unicode-aware string methods [trim] and [toLowerCase]) is a
      field of the class [Host].
    - Asynchronous code is sequential here: every [await] is a bind of the
      state-and-exception monad [M].
    - Rows and messages are data: own properties only.  Members inherited
      from the built-in prototypes (and the [__proto__] accessor) are not
      part of the model. *)

From Stdlib Require Import List String Ascii Bool Arith NArith ZArith Lia.
From Stdlib Require Import DecimalString.
From Stdlib Require Import Floats Uint63.
Import ListNotations.
Local Open Scope string_scope.
Local Open Scope list_scope.
Local Open Scope nat_scope.

Set Implicit Arguments.

(* ------------------------------------------------------------------ *)
(** ** Strings *)

(** [s.startsWith(p)] *)
Definition startsWith (s p : string) : bool := String.prefix p s.

(** [s.includes(t)] *)
Fixpoint includes (s t : string) : bool :=
  String.prefix t s ||
  match s with
  | EmptyString => false
  | String _ s' => includes s' t
  end.

(** [s.split(".").filter(Boolean)]: the non-empty segments between dots. *)
Fixpoint split_dots_aux (cur : string) (s : string) : list string :=
  match s with
  | EmptyString => if String.eqb cur "" then [] else [cur]
  | String c s' =>
      if Ascii.eqb c "."%char
      then (if String.eqb cur "" then [] else [cur]) ++ split_dots_aux "" s'
      else split_dots_aux (cur ++ String c EmptyString)%string s'
  end.

Definition split_dots (s : string) : list string := split_dots_aux "" s.

Fixpoint string_rev_onto (s acc : string) : string :=
  match s with
  | EmptyString => acc
  | String c s' => string_rev_onto s' (String c acc)
  end.

Fixpoint drop_slashes (s : string) : string :=
  match s with
  | String "/"%char s' => drop_slashes s'
  | _ => s
  end.

Fixpoint take_to_slash (s : string) : string :=
  match s with
  | EmptyString => EmptyString
  | String c s' => if Ascii.eqb c "/"%char then EmptyString else String c (take_to_slash s')
  end.

(** [path.basename(p)] (POSIX flavour, no extension argument): trailing
    slashes are ignored and the part after the last remaining slash is
    returned. *)
Definition basename (p : string) : string :=
  string_rev_onto (take_to_slash (drop_slashes (string_rev_onto p ""))) "".

(** The bytes of the characters [sanitizeExpr] removes, in UTF-8:
    U+200B, U+200C, U+200D (E2 80 8B..8D), U+FEFF (EF BB BF) and
    U+2192 (E2 86 92). *)
Definition stripped3 (a b c : ascii) : bool :=
  let x := nat_of_ascii a in
  let y := nat_of_ascii b in
  let z := nat_of_ascii c in
  ((x =? 226) && (y =? 128) && ((139 <=? z) && (z <=? 141)))
  || ((x =? 239) && (y =? 187) && (z =? 191))
  || ((x =? 226) && (y =? 134) && (z =? 146)).

Fixpoint strip_marks (s : string) : string :=
  match s with
  | String a ((String b (String c s'')) as s') =>
      if stripped3 a b c then strip_marks s'' else String a (strip_marks s')
  | String a s' => String a (strip_marks s')
  | EmptyString => EmptyString
  end.

(** Decimal digits of a natural number, as [String(n)] prints an index. *)
Definition string_of_nat (n : nat) : string :=
  NilZero.string_of_uint (Nat.to_uint n).

(* ------------------------------------------------------------------ *)
(** ** Values *)

#[warnings="-register-all"]
Inductive JsVal : Type :=
| VUndef
| VNull
| VBool (b : bool)
| VNum (n : float)
| VStr (s : string)
| VArr (l : list JsVal)
| VObj (o : list (string * JsVal)).

(** An object: its own enumerable data properties, in insertion order. *)
Definition JsObj := list (string * JsVal).

(** The number a count or a length is (exact below 2^53). *)
Definition num_of_nat (n : nat) : float :=
  PrimFloat.of_uint63 (Uint63.of_Z (Z.of_nat n)).

Definition nan : float := PrimFloat.nan.

(** Truthiness ([!!v]). *)
Definition truthy (v : JsVal) : bool :=
  match v with
  | VUndef | VNull => false
  | VBool b => b
  | VNum n => negb (PrimFloat.eqb n 0%float || PrimFloat.is_nan n)
  | VStr s => negb (String.eqb s "")
  | VArr _ | VObj _ => true
  end.

(** [v == null] *)
Definition nullish (v : JsVal) : bool :=
  match v with VUndef | VNull => true | _ => false end.

(** [typeof v === "string"] *)
Definition is_string (v : JsVal) : bool :=
  match v with VStr _ => true | _ => false end.

(** [typeof v === "object"] *)
Definition typeof_object (v : JsVal) : bool :=
  match v with VNull | VArr _ | VObj _ => true | _ => false end.

(** [Array.isArray(v)] *)
Definition isArray (v : JsVal) : bool :=
  match v with VArr _ => true | _ => false end.

(** [a || b] *)
Definition js_or (a b : JsVal) : JsVal := if truthy a then a else b.

(* ------------------------------------------------------------------ *)
(** ** Objects *)

Fixpoint obj_lookup (o : JsObj) (k : string) : option JsVal :=
  match o with
  | [] => None
  | (k', v) :: o' => if String.eqb k' k then Some v else obj_lookup o' k
  end.

(** [Object.prototype.hasOwnProperty.call(o, k)] on an object. *)
Definition has_own (o : JsObj) (k : string) : bool :=
  match obj_lookup o k with Some _ => true | None => false end.

(** [o[k]] for an own property; [undefined] when there is none. *)
Definition obj_get (o : JsObj) (k : string) : JsVal :=
  match obj_lookup o k with Some v => v | None => VUndef end.

(** [o[k] = v]: an existing property keeps its place, a new one is
    added last. *)
Fixpoint obj_set (o : JsObj) (k : string) (v : JsVal) : JsObj :=
  match o with
  | [] => [(k, v)]
  | (k', v') :: o' =>
      if String.eqb k' k then (k', v) :: o' else (k', v') :: obj_set o' k v
  end.

(** [delete o[k]] *)
Definition obj_delete (o : JsObj) (k : string) : JsObj :=
  filter (fun kv => negb (String.eqb (fst kv) k)) o.

Definition is_digit (c : ascii) : bool :=
  let n := nat_of_ascii c in (48 <=? n) && (n <=? 57).

Fixpoint digits_value (s : string) (acc : N) : option N :=
  match s with
  | EmptyString => Some acc
  | String c s' =>
      if is_digit c
      then digits_value s' (acc * 10 + N.of_nat (nat_of_ascii c - 48))%N
      else None
  end.

(** A property name that is an array index: the canonical decimal form
    of an integer below 2^32 - 1.  Such keys are enumerated first, in
    ascending numeric order. *)
Definition array_index (k : string) : option N :=
  match k with
  | EmptyString => None
  | String c rest =>
      if Ascii.eqb c "0"%char && negb (String.eqb rest "") then None
      else match digits_value k 0%N with
           | Some n => if (n <? 4294967295)%N then Some n else None
           | None => None
           end
  end.

Fixpoint insert_index (n : N) (k : string) (l : list (N * string)) : list (N * string) :=
  match l with
  | [] => [(n, k)]
  | (m, k') :: l' =>
      if (n <? m)%N then (n, k) :: l else (m, k') :: insert_index n k l'
  end.

Fixpoint index_keys (ks : list string) : list (N * string) :=
  match ks with
  | [] => []
  | k :: ks' =>
      match array_index k with
      | Some n => insert_index n k (index_keys ks')
      | None => index_keys ks'
      end
  end.

Definition is_index_key (k : string) : bool :=
  match array_index k with Some _ => true | None => false end.

(** [Object.keys(o)]: array-index keys in ascending order, then the other
    keys in insertion order. *)
Definition own_keys (o : JsObj) : list string :=
  map snd (index_keys (map fst o))
  ++ filter (fun k => negb (is_index_key k)) (map fst o).

(** [keys.find(p)] *)
Definition js_find (p : string -> bool) (ks : list string) : option string :=
  List.find p ks.

(** [{ ...base, ...o }] for an object [o]: the properties of [o] are
    defined on the copy in enumeration order. *)
Definition spread_obj (base o : JsObj) : JsObj :=
  fold_left (fun acc k => obj_set acc k (obj_get o k)) (own_keys o) base.

(* ------------------------------------------------------------------ *)
(** ** Exceptions, the host and the monad *)

(** A thrown value: an [Error] with its message. *)
Definition Err := string.

Inductive Res (A : Type) : Type :=
| Ok (a : A)
| Throw (e : Err).

Arguments Ok {A} a.
Arguments Throw {A} e.

(** What the node does that its environment can observe. *)
Inductive Event : Type :=
| EStatus (fill shape text : string)        (* node.status({fill, shape, text}) *)
| EError (e : Err) (msg : JsVal)            (* node.error(err, msg) *)
| ESend (msg : JsVal)                       (* send(msg) *)
| EDone (e : option Err)                    (* done() / done(err) *)
| EContextSet (scope key : string) (v : JsVal). (* ctx.set(key, v) *)

(** The services of the runtime.  [World] is whatever the host keeps
    between two calls (the flow and global stores, the clock and the
    random source JSONata functions read). *)
Class Host : Type := {
  World : Type;
  (** [Number(s)] and [String(n)] *)
  Number_of_string : string -> float;
  String_of_number : float -> string;
  (** [s.trim()]: white space and line terminators removed at both ends,
      as the language defines them (U+00A0, U+2003, U+FEFF and the other
      Unicode spaces included) *)
  trim : string -> string;
  (** [s.toLowerCase()], on every letter that has a lower case *)
  toLowerCase : string -> string;
  (** [new RegExp(p)] succeeds; [new RegExp(p).test(s)] *)
  RegExp_valid : string -> bool;
  RegExp_test : string -> string -> bool;
  (** [a == b] for two arrays or objects: whether they are one object *)
  same_object : JsVal -> JsVal -> bool;
  (** [RED.util.prepareJSONataExpression] then
      [RED.util.evaluateJSONataExpression] on a context object *)
  evaluateJSONata : string -> JsVal -> World -> Res JsVal * World;
  (** [RED.util.getMessageProperty(msg, path)] *)
  getMessageProperty : JsVal -> JsVal -> Res JsVal;
  (** [RED.util.setMessageProperty(msg, path, value, true)]: the message
      after the assignment *)
  setMessageProperty : JsVal -> string -> JsVal -> Res JsVal;
  (** [node.context().flow.get(key)], [node.context().global.get(key)] *)
  context_get : string -> JsVal -> World -> Res JsVal * World;
  (** [ctx.set(key, value)] *)
  context_set : string -> string -> JsVal -> World -> Res unit * World;
  (** [process.env[name]] *)
  process_env : string -> JsVal
}.

Section Monad.
Context {H : Host}.

Record State : Type := mkState {
  world : World;
  events : list Event
}.

(** A computation that reads and changes the host state, logs events and
    may throw. *)
Definition M (A : Type) : Type := State -> Res A * State.

Definition ret {A} (a : A) : M A := fun s => (Ok a, s).

Definition throw {A} (e : Err) : M A := fun s => (Throw e, s).

Definition bind {A B} (m : M A) (f : A -> M B) : M B :=
  fun s => match m s with
           | (Ok a, s') => f a s'
           | (Throw e, s') => (Throw e, s')
           end.

(** [try { m } catch (e) { h e }] *)
Definition try_catch {A} (m : M A) (h : Err -> M A) : M A :=
  fun s => match m s with
           | (Ok a, s') => (Ok a, s')
           | (Throw e, s') => h e s'
           end.

Definition lift_res {A} (r : Res A) : M A := fun s => (r, s).

Definition lift_world {A} (f : World -> Res A * World) : M A :=
  fun s => let (r, w) := f (world s) in (r, mkState w (events s)).

Definition emit (e : Event) : M unit :=
  fun s => (Ok tt, mkState (world s) (events s ++ [e])).

End Monad.

Notation "x <- c1 ;; c2" := (bind c1 (fun x => c2))
  (at level 61, c1 at next level, right associativity).
Notation "c1 ;; c2" := (bind c1 (fun _ => c2))
  (at level 61, right associativity).

(* ------------------------------------------------------------------ *)
(** ** Configuration: the runtime schema [rt] built by [withDefaults] *)

(** A row filter: [{sheetScope, sheetScopeType, col, colType, op, rhsType,
    rhs, caseSensitive, coerce}].  A type or operator that is absent is
    the empty string. *)
Module Rule.
Record t : Type := mk {
  sheetScope : JsVal;
  sheetScopeType : string;
  col : JsVal;
  colType : string;
  op : string;
  rhsType : string;
  rhs : JsVal;
  caseSensitive : JsVal;
  coerce : JsVal
}.
End Rule.

(** A select line: [{sheetScope, sheetScopeType, col, colType}] *)
Module SelectItem.
Record t : Type := mk {
  sheetScope : JsVal;
  sheetScopeType : string;
  col : JsVal;
  colType : string
}.
End SelectItem.

(** A rename line: [{sheetScope, sheetScopeType, from, fromType, to, toType}] *)
Module RenameItem.
Record t : Type := mk {
  sheetScope : JsVal;
  sheetScopeType : string;
  from : JsVal;
  fromType : string;
  to : JsVal;
  toType : string
}.
End RenameItem.

Module ConditionalRename.
Record t : Type := mk {
  enabled : JsVal;
  whenLhsType : string;
  whenLhs : JsVal;
  op : string;
  rhsType : string;
  rhs : JsVal;
  list : List.list RenameItem.t
}.
End ConditionalRename.

(** A derive line: [{col, exprType, expr}] *)
Module DeriveItem.
Record t : Type := mk {
  col : string;
  exprType : string;
  expr : JsVal
}.
End DeriveItem.

Module Output.
Record t : Type := mk {
  targetType : string;
  targetPath : string;
  structure : string;
  includeSummary : JsVal
}.
End Output.

Record Schema : Type := mkSchema {
  inputPath : string;
  inputPathType : string;
  includeSheetRegex : string;
  excludeSheetRegex : string;
  filterLogic : string;
  rules : list Rule.t;
  selectMode : string;
  selectList : list SelectItem.t;
  renameList : list RenameItem.t;
  conditionalRename : ConditionalRename.t;
  deriveList : list DeriveItem.t;
  output : Output.t
}.

Section Engine.
Context {H : Host}.

(** [for (const x of xs) out.push(await f(x))] *)
Fixpoint mapM {A B} (f : A -> M B) (xs : list A) : M (list B) :=
  match xs with
  | [] => ret []
  | x :: xs' => y <- f x ;; ys <- mapM f xs' ;; ret (y :: ys)
  end.

(* ------------------------------------------------------------------ *)
(** ** Conversions and comparison *)

(** [String(v)] *)
Fixpoint to_string (v : JsVal) : string :=
  match v with
  | VUndef => "undefined"
  | VNull => "null"
  | VBool true => "true"
  | VBool false => "false"
  | VNum n => String_of_number n
  | VStr s => s
  | VArr l =>
      (fix join (first : bool) (l : list JsVal) : string :=
         match l with
         | [] => ""
         | x :: l' =>
             ((if first then "" else ",")
              ++ (if nullish x then "" else to_string x)
              ++ join false l')%string
         end) true l
  | VObj _ => "[object Object]"
  end.

(** [Number(v)] *)
Definition to_number (v : JsVal) : float :=
  match v with
  | VUndef => nan
  | VNull => 0%float
  | VBool true => 1%float
  | VBool false => 0%float
  | VNum n => n
  | VStr s => Number_of_string s
  | VArr _ | VObj _ => Number_of_string (to_string v)
  end.

(** [isNaN(v)] *)
Definition isNaN (v : JsVal) : bool := PrimFloat.is_nan (to_number v).

(** [a === b] where one side is a string. *)
Definition strict_eq_str (s : string) (v : JsVal) : bool :=
  match v with VStr t => String.eqb s t | _ => false end.

(** [a === false] *)
Definition is_false (v : JsVal) : bool :=
  match v with VBool false => true | _ => false end.

(** [a == b]: abstract (loose) equality. *)
Definition loose_eq (a b : JsVal) : bool :=
  match a, b with
  | (VUndef | VNull), (VUndef | VNull) => true
  | (VUndef | VNull), _ => false
  | _, (VUndef | VNull) => false
  | (VArr _ | VObj _), (VArr _ | VObj _) => same_object a b
  | VStr s, VStr t => String.eqb s t
  | (VArr _ | VObj _), VStr t => String.eqb (to_string a) t
  | VStr s, (VArr _ | VObj _) => String.eqb s (to_string b)
  | _, _ => PrimFloat.eqb (to_number a) (to_number b)
  end.

(** [Object.prototype.hasOwnProperty.call(v, k)]: throws on [undefined]
    and [null]; arrays and strings own their indices and [length]. *)
Definition hasOwnProperty (v : JsVal) (k : string) : Res bool :=
  match v with
  | VUndef | VNull => Throw "Cannot convert undefined or null to object"
  | VObj o => Ok (has_own o k)
  | VArr l =>
      Ok (String.eqb k "length" ||
          match array_index k with
          | Some n => (N.to_nat n <? List.length l)
          | None => false
          end)
  | VStr s =>
      Ok (String.eqb k "length" ||
          match array_index k with
          | Some n => (N.to_nat n <? String.length s)
          | None => false
          end)
  | VBool _ | VNum _ => Ok false
  end.

(** [v[k]] for a value that is not [undefined] or [null]; members
    inherited from the built-in prototypes are not data and read as
    [undefined]. *)
Definition get_prop (v : JsVal) (k : string) : JsVal :=
  match v with
  | VObj o => obj_get o k
  | VArr l =>
      if String.eqb k "length" then VNum (num_of_nat (List.length l))
      else match array_index k with
           | Some n => nth (N.to_nat n) l VUndef
           | None => VUndef
           end
  | VStr s =>
      if String.eqb k "length" then VNum (num_of_nat (String.length s))
      else match array_index k with
           | Some n =>
               match String.get (N.to_nat n) s with
               | Some c => VStr (String c EmptyString)
               | None => VUndef
               end
           | None => VUndef
           end
  | _ => VUndef
  end.

Fixpoint indexed {A} (i : nat) (l : list A) : list (string * A) :=
  match l with
  | [] => []
  | x :: l' => (string_of_nat i, x) :: indexed (S i) l'
  end.

Fixpoint chars (s : string) : list JsVal :=
  match s with
  | EmptyString => []
  | String c s' => VStr (String c EmptyString) :: chars s'
  end.

(** [Object.entries(v)] for a value that is not [undefined] or [null]. *)
Definition entries (v : JsVal) : list (string * JsVal) :=
  match v with
  | VObj o => map (fun k => (k, obj_get o k)) (own_keys o)
  | VArr l => indexed 0 l
  | VStr s => indexed 0 (chars s)
  | _ => []
  end.

(** [{ ...base, ...v }] for any value [v]. *)
Definition spread (base : JsObj) (v : JsVal) : JsObj :=
  fold_left (fun acc kv => obj_set acc (fst kv) (snd kv)) (entries v) base.

(** Ensure array (undefined/null -> [], scalar -> [scalar], array -> same) *)
Definition ensureArray (v : JsVal) : list JsVal :=
  match v with
  | VArr l => l
  | VUndef | VNull => []
  | _ => [v]
  end.

(* ------------------------------------------------------------------ *)
(** ** Helpers used by runtime processing *)

(** [String(e.message || e)] for a thrown [Error]. *)
Definition err_text (e : Err) : string :=
  if String.eqb e "" then "Error" else e.

Definition sanitizeExpr (src : JsVal) : string :=
  trim (strip_marks (to_string (js_or src (VStr "")))).

(** [safeRegex]: the compiled pattern, or [null]. *)
Definition safeRegex (rx : string) : option string :=
  if String.eqb rx "" then None
  else if RegExp_valid rx then Some rx else None.

Definition passNameFilters (name : string) (inc exc : option string) : bool :=
  match inc with
  | Some p => if negb (RegExp_test p name) then false
              else match exc with
                   | Some q => if RegExp_test q name then false else true
                   | None => true
                   end
  | None => match exc with
            | Some q => if RegExp_test q name then false else true
            | None => true
            end
  end.

(** The container an input path is read from: the message, or one of the
    two context stores. *)
Inductive Root : Type :=
| RootMsg (m : JsVal)
| RootContext (scope : string).

Definition getRootContainer (msg : JsVal) (scope : string) : Root :=
  if String.eqb scope "msg" then RootMsg msg
  else if String.eqb scope "flow" then RootContext "flow"
  else if String.eqb scope "global" then RootContext "global"
  else RootMsg msg.

Fixpoint walk_path (cur : JsVal) (parts : list string) : JsVal :=
  match parts with
  | [] => cur
  | p :: ps => if nullish cur then VUndef else walk_path (get_prop cur p) ps
  end.

Definition deepGet (root : Root) (pathStr : string) : M JsVal :=
  match root with
  | RootContext scope =>
      if String.eqb pathStr "" then ret VUndef
      else lift_world (context_get scope (VStr pathStr))
  | RootMsg m =>
      if negb (truthy m) || String.eqb pathStr "" then ret VUndef
      else if truthy (get_prop m "get") && truthy (get_prop m "set")
      then throw "root.get is not a function"
      else ret (walk_path m (split_dots pathStr))
  end.

(** [inputRoot ? deepGet(inputRoot, rt.inputPath) : undefined] *)
Definition readInput (rt : Schema) (msg : JsVal) : M JsVal :=
  match getRootContainer msg (inputPathType rt) with
  | RootMsg m => if truthy m then deepGet (RootMsg m) (inputPath rt) else ret VUndef
  | RootContext scope => deepGet (RootContext scope) (inputPath rt)
  end.

(** Promise wrapper for Node-RED's callback-style JSONata evaluation *)
Definition evalJSONata (src : string) (contextObj : JsVal) : M JsVal :=
  lift_world (evaluateJSONata src contextObj).

(** Dynamic resolver: [extras] is [{ sheet }] or [{}]. *)
Definition resolveDynamic (msg val : JsVal) (typ : string) (rowCtx : JsVal)
    (extras : JsObj) : M JsVal :=
  let t := if String.eqb typ "" then "str" else typ in
  if String.eqb t "str" then ret val
  else if String.eqb t "msg" then lift_res (getMessageProperty msg val)
  else if String.eqb t "flow" then lift_world (context_get "flow" val)
  else if String.eqb t "global" then lift_world (context_get "global" val)
  else if String.eqb t "env" then ret (process_env (to_string val))
  else if String.eqb t "jsonata" then
    try_catch
      (evalJSONata (sanitizeExpr val)
         (VObj (spread (obj_set (spread [] msg) "row" rowCtx) (VObj extras))))
      (fun e =>
         emit (EStatus "red" "ring" ("JSONata ERR: " ++ err_text e)%string) ;;
         ret VUndef)
  else ret val.

Definition coerceVal (v : JsVal) : JsVal :=
  match v with
  | VStr s =>
      let t := trim s in
      if String.eqb t "true" then VBool true
      else if String.eqb t "false" then VBool false
      else if negb (String.eqb t "") && negb (PrimFloat.is_nan (Number_of_string t))
      then VNum (Number_of_string t)
      else v
  | _ => v
  end.

Definition isEmpty (v : JsVal) : bool :=
  nullish v || match v with VStr s => String.eqb (trim s) "" | _ => false end.

(** Rules sheet-scope check; also used for select and rename lines. *)
Definition ruleAppliesTo (msg : JsVal) (sheetScope : JsVal) (sheetScopeType : string)
    (sheet : string) (rowCtx : JsVal) : M bool :=
  if truthy sheetScope then
    let t := if String.eqb sheetScopeType "" then "str" else sheetScopeType in
    if String.eqb t "str" then
      ret (strict_eq_str sheet sheetScope)
    else if String.eqb t "regex" then
      ret (RegExp_valid (to_string sheetScope)
           && RegExp_test (to_string sheetScope) sheet)
    else if String.eqb t "jsonata" then
      try_catch
        (ok <- evalJSONata (sanitizeExpr sheetScope)
                 (VObj (obj_set (obj_set (spread [] msg) "sheet" (VStr sheet))
                          "row" rowCtx)) ;;
         ret (truthy ok))
        (fun _ => ret false)
    else ret true
  else ret true.

Definition resolveColumnName (msg : JsVal) (r : Rule.t) (rowCtx : JsVal)
    (sheet : string) : M JsVal :=
  resolveDynamic msg (Rule.col r) (Rule.colType r) rowCtx [("sheet", VStr sheet)].

Definition resolveRHS (msg : JsVal) (r : Rule.t) (rowCtx : JsVal)
    (sheet : string) : M JsVal :=
  resolveDynamic msg (Rule.rhs r) (Rule.rhsType r) rowCtx [("sheet", VStr sheet)].

(** [ensureArray(colResolved).filter(c => c !== undefined && c !== null).map(String)] *)
Definition colNamesOf (colResolved : JsVal) : list string :=
  map to_string (filter (fun c => negb (nullish c)) (ensureArray colResolved)).

Definition lower_unless (caseSensitive : bool) (v : JsVal) : JsVal :=
  match v with
  | VStr s => if caseSensitive then v else VStr (toLowerCase s)
  | _ => v
  end.

(** Helper to compare one L against R according to op *)
Definition compare (r : Rule.t) (Rraw : JsVal) (L : JsVal) : bool :=
  let caseSensitive := truthy (Rule.caseSensitive r) in
  let Lc := if is_false (Rule.coerce r) then L else coerceVal L in
  let Ls := lower_unless caseSensitive Lc in
  let Rs := lower_unless caseSensitive Rraw in
  let o := Rule.op r in
  if String.eqb o "==" then loose_eq Ls Rs
  else if String.eqb o "!=" then negb (loose_eq Ls Rs)
  else if String.eqb o "<" then PrimFloat.ltb (to_number Lc) (to_number Rraw)
  else if String.eqb o "<=" then PrimFloat.leb (to_number Lc) (to_number Rraw)
  else if String.eqb o ">" then PrimFloat.ltb (to_number Rraw) (to_number Lc)
  else if String.eqb o ">=" then PrimFloat.leb (to_number Rraw) (to_number Lc)
  else if String.eqb o "contains" then
    match Ls, Rs with VStr a, VStr b => includes a b | _, _ => false end
  else if String.eqb o "!contains" then
    match Ls, Rs with VStr a, VStr b => negb (includes a b) | _, _ => true end
  else if String.eqb o "regex" then
    RegExp_valid (to_string Rraw) && RegExp_test (to_string Rraw) (to_string Lc)
  else if String.eqb o "isEmpty" then isEmpty Lc
  else if String.eqb o "!isEmpty" then negb (isEmpty Lc)
  else false.

(** Rule passes if ANY of the listed columns satisfies the comparator *)
Fixpoint anyColumn (cmp : JsVal -> bool) (row : JsVal) (colNames : list string)
    : Res bool :=
  match colNames with
  | [] => Ok false
  | cn :: rest =>
      match hasOwnProperty row cn with
      | Throw e => Throw e
      | Ok false => anyColumn cmp row rest
      | Ok true => if cmp (get_prop row cn) then Ok true else anyColumn cmp row rest
      end
  end.

Definition evalRule (row msg : JsVal) (sheet : string) (r : Rule.t) : M bool :=
  applies <- ruleAppliesTo msg (Rule.sheetScope r) (Rule.sheetScopeType r) sheet row ;;
  if negb applies then ret true
  else if String.eqb (Rule.op r) "jsonata" then
    try_catch
      (ok <- evalJSONata (sanitizeExpr (js_or (Rule.rhs r) (VStr "")))
               (VObj (obj_set (obj_set (spread [] msg) "row" row) "sheet" (VStr sheet))) ;;
       ret (truthy ok))
      (fun _ => ret false)
  else
    colResolved <- resolveColumnName msg r row sheet ;;
    let colNames := colNamesOf colResolved in
    match colNames with
    | [] => ret false
    | _ :: _ =>
        rval <- resolveRHS msg r row sheet ;;
        let Rraw := if is_false (Rule.coerce r) then rval else coerceVal rval in
        lift_res (anyColumn (compare r Rraw) row colNames)
    end.

Fixpoint anyRule (ev : Rule.t -> M bool) (rs : list Rule.t) : M bool :=
  match rs with
  | [] => ret false
  | r :: rs' => b <- ev r ;; if b then ret true else anyRule ev rs'
  end.

Fixpoint everyRule (ev : Rule.t -> M bool) (rs : list Rule.t) : M bool :=
  match rs with
  | [] => ret true
  | r :: rs' => b <- ev r ;; if negb b then ret false else everyRule ev rs'
  end.

(** Row filter evaluation *)
Definition rowPasses (rt : Schema) (row msg : JsVal) (sheet : string) : M bool :=
  match rules rt with
  | [] => ret true
  | _ :: _ =>
      if String.eqb (filterLogic rt) "OR"
      then anyRule (evalRule row msg sheet) (rules rt)
      else everyRule (evalRule row msg sheet) (rules rt)
  end.

(* ------------------------------------------------------------------ *)
(** ** Select *)

(** [set.add(x)] on a [Set] of strings, kept in insertion order. *)
Definition set_add (set : list string) (x : string) : list string :=
  if existsb (String.eqb x) set then set else set ++ [x].

(** [set.has(x)] *)
Definition set_has (set : list string) (x : string) : bool :=
  existsb (String.eqb x) set.

(** [for (const col of cols) if (col) set.add(col)] *)
Definition add_cols (set : list string) (cols : list string) : list string :=
  fold_left (fun acc c => if String.eqb c "" then acc else set_add acc c) cols set.

Fixpoint buildColumnSetFrom (msg : JsVal) (sheet : string)
    (selectList : list SelectItem.t) (set : list string) : M (list string) :=
  match selectList with
  | [] => ret set
  | it :: rest =>
      applies <- ruleAppliesTo msg (SelectItem.sheetScope it)
                   (SelectItem.sheetScopeType it) sheet VNull ;;
      if negb applies then buildColumnSetFrom msg sheet rest set
      else
        resolved <- resolveDynamic msg (SelectItem.col it) (SelectItem.colType it)
                      VNull [("sheet", VStr sheet)] ;;
        buildColumnSetFrom msg sheet rest
          (add_cols set (map to_string (ensureArray resolved)))
  end.

(** Build set of columns for current sheet based on selectList *)
Definition buildScopedColumnSet (msg : JsVal) (sheet : string)
    (selectList : list SelectItem.t) : M (list string) :=
  buildColumnSetFrom msg sheet selectList [].

(** [x.trim().toLowerCase()] *)
Definition norm (x : string) : string := toLowerCase (trim x).

(** The key [pickSet] keeps for one wanted name: the exact key, else the
    first key equal to it after trimming and lower-casing; an empty key
    counts as none. *)
Definition pickKey (keys : list string) (want : string) : option string :=
  let k := js_find (String.eqb want) keys in
  let k := match k with
           | Some x => if String.eqb x "" then
                         js_find (fun x => String.eqb (norm x) (norm want)) keys
                       else k
           | None => js_find (fun x => String.eqb (norm x) (norm want)) keys
           end in
  match k with
  | Some x => if String.eqb x "" then None else Some x
  | None => None
  end.

(** Tolerant keep (exact, else trim+case-insensitive) *)
Definition pickSet (row : JsObj) (set : list string) : JsObj :=
  let keys := own_keys row in
  fold_left
    (fun out want =>
       match pickKey keys want with
       | Some k => obj_set out k (obj_get row k)
       | None => out
       end)
    set [].

(** Tolerant drop *)
Definition omitSet (row : JsObj) (set : list string) : JsObj :=
  let keys := own_keys row in
  let dropExact := fold_left set_add set [] in
  let dropNorm := fold_left set_add (map norm set) [] in
  fold_left
    (fun out k =>
       if set_has dropExact k then out
       else if set_has dropNorm (norm k) then out
       else obj_set out k (obj_get row k))
    keys [].

(** Stage 2a: [if (rt.selectMode !== "none" && rt.selectList.length) ...] *)
Definition selectStage (rt : Schema) (msg : JsVal) (sheet : string)
    (transformed : list JsObj) : M (list JsObj) :=
  if negb (String.eqb (selectMode rt) "none")
     && negb (Nat.eqb (List.length (selectList rt)) 0)
  then
    colSet <- buildScopedColumnSet msg sheet (selectList rt) ;;
    if String.eqb (selectMode rt) "keep" && negb (Nat.eqb (List.length colSet) 0)
    then ret (map (fun r => pickSet r colSet) transformed)
    else if String.eqb (selectMode rt) "drop" && negb (Nat.eqb (List.length colSet) 0)
    then ret (map (fun r => omitSet r colSet) transformed)
    else ret transformed
  else ret transformed.

(* ------------------------------------------------------------------ *)
(** ** Rename *)

(** One turn of the pairwise loop, for the pair [(from, to)]. *)
Definition renameOne (out : JsObj) (from to : string) : JsObj :=
  if String.eqb from "" || String.eqb to "" || String.eqb from to then out
  else if has_own out from
  then obj_delete (obj_set out to (obj_get out from)) from
  else out.

(** [for (let i = ...; i < n; i++)]: [steps] turns remain, the next has
    index [i]. *)
Fixpoint pairLoop (fromArr toArr : list string) (steps i : nat) (out : JsObj) : JsObj :=
  match steps with
  | O => out
  | S steps' =>
      let from := nth (Nat.min i (List.length fromArr - 1)) fromArr "" in
      let to := nth (Nat.min i (List.length toArr - 1)) toArr "" in
      pairLoop fromArr toArr steps' (S i) (renameOne out from to)
  end.

(** Pairwise mapping *)
Definition renamePairwise (fromArr toArr : list string) (out : JsObj) : JsObj :=
  if negb (Nat.eqb (List.length fromArr) 0) && negb (Nat.eqb (List.length toArr) 0)
  then pairLoop fromArr toArr (Nat.max (List.length fromArr) (List.length toArr)) 0 out
  else out.

Fixpoint renameLoop (row : JsObj) (msg : JsVal) (sheet : string)
    (list : list RenameItem.t) (out : JsObj) : M JsObj :=
  match list with
  | [] => ret out
  | it :: rest =>
      applies <- ruleAppliesTo msg (RenameItem.sheetScope it)
                   (RenameItem.sheetScopeType it) sheet (VObj row) ;;
      if negb applies then renameLoop row msg sheet rest out
      else
        fromRes <- resolveDynamic msg (RenameItem.from it) (RenameItem.fromType it)
                     (VObj row) [("sheet", VStr sheet)] ;;
        toRes <- resolveDynamic msg (RenameItem.to it) (RenameItem.toType it)
                   (VObj row) [("sheet", VStr sheet)] ;;
        let fromArr := map to_string (ensureArray fromRes) in
        let toArr := map to_string (ensureArray toRes) in
        renameLoop row msg sheet rest (renamePairwise fromArr toArr out)
  end.

(** RENAME using list entries (sheet-scoped + dynamic from/to) *)
Definition renameWithList (row : JsObj) (msg : JsVal) (sheet : string)
    (list : list RenameItem.t) : M JsObj :=
  renameLoop row msg sheet list (spread_obj [] row).

(** Stage 2b *)
Definition renameStage (rt : Schema) (msg : JsVal) (sheet : string)
    (transformed : list JsObj) : M (list JsObj) :=
  if negb (Nat.eqb (List.length (renameList rt)) 0)
  then mapM (fun r => renameWithList r msg sheet (renameList rt)) transformed
  else ret transformed.

(** Conditional (message-level) *)
Definition conditionTrue (rt : Schema) (msg : JsVal) : M bool :=
  let c := conditionalRename rt in
  try_catch
    (lhsVal <- resolveDynamic msg (ConditionalRename.whenLhs c)
                 (ConditionalRename.whenLhsType c) VUndef [] ;;
     rhsVal <- resolveDynamic msg (ConditionalRename.rhs c)
                 (ConditionalRename.rhsType c) VUndef [] ;;
     let L := coerceVal lhsVal in
     let R := coerceVal rhsVal in
     let o := ConditionalRename.op c in
     ret (if String.eqb o "==" then loose_eq L R
          else if String.eqb o "!=" then negb (loose_eq L R)
          else if String.eqb o "contains" then
            match L, R with VStr a, VStr b => includes a b | _, _ => false end
          else if String.eqb o "!contains" then
            match L, R with VStr a, VStr b => negb (includes a b) | _, _ => true end
          else if String.eqb o "regex" then
            RegExp_valid (to_string R) && RegExp_test (to_string R) (to_string L)
          else if String.eqb o "isEmpty" then isEmpty L
          else if String.eqb o "!isEmpty" then negb (isEmpty L)
          else false))
    (fun _ => ret false).

(** Stage 2c: [if (rt.conditionalRename.enabled && await conditionTrue(...))] *)
Definition conditionalRenameStage (rt : Schema) (msg : JsVal) (sheet : string)
    (transformed : list JsObj) : M (list JsObj) :=
  if truthy (ConditionalRename.enabled (conditionalRename rt)) then
    c <- conditionTrue rt msg ;;
    if c
    then mapM (fun r => renameWithList r msg sheet
                          (ConditionalRename.list (conditionalRename rt)))
           transformed
    else ret transformed
  else ret transformed.

(* ------------------------------------------------------------------ *)
(** ** Derive *)

Fixpoint deriveLoop (msg : JsVal) (sheet : string) (r : JsObj)
    (ds : list DeriveItem.t) (out : JsObj) : M JsObj :=
  match ds with
  | [] => ret out
  | d :: rest =>
      if String.eqb (DeriveItem.col d) "" then deriveLoop msg sheet r rest out
      else if String.eqb (DeriveItem.exprType d) "jsonata" then
        out' <- try_catch
                  (val <- evalJSONata (sanitizeExpr (js_or (DeriveItem.expr d) (VStr "")))
                            (VObj (obj_set (obj_set (spread [] msg) "row" (VObj r))
                                     "sheet" (VStr sheet))) ;;
                   ret (obj_set out (DeriveItem.col d) val))
                  (fun _ => ret out) ;;
        deriveLoop msg sheet r rest out'
      else deriveLoop msg sheet r rest out
  end.

(** Stage 2d *)
Definition deriveStage (rt : Schema) (msg : JsVal) (sheet : string)
    (transformed : list JsObj) : M (list JsObj) :=
  if negb (Nat.eqb (List.length (deriveList rt)) 0)
  then mapM (fun r => deriveLoop msg sheet r (deriveList rt) (spread_obj [] r))
         transformed
  else ret transformed.

(* ------------------------------------------------------------------ *)
(** ** The input handler *)

(** The counters and the result map of one invocation. *)
Record Acc : Type := mkAcc {
  resultMap : JsObj;
  fileCount : nat;
  sheetCount : nat;
  rowIn : nat;
  rowOut : nat
}.

Definition emptyAcc : Acc := mkAcc [] 0 0 0 0.

(** 1) Row filters *)
Fixpoint filterRows (rt : Schema) (msg : JsVal) (sheet : string)
    (rows : list JsVal) : M (list JsVal) :=
  match rows with
  | [] => ret []
  | row :: rest =>
      keep <- rowPasses rt row msg sheet ;;
      filtered <- filterRows rt msg sheet rest ;;
      ret (if keep then row :: filtered else filtered)
  end.

(** [{ _file: file, _sheet: sheetName, ...rr }] *)
Definition flatRow (file sheetName : string) (rr : JsObj) : JsObj :=
  spread_obj [("_file", VStr file); ("_sheet", VStr sheetName)] rr.

(** [o[k] = v] on the object held in a value (the result map and the
    objects below a context key; assigning into an array there is not
    modelled and leaves it as it is). *)
Definition set_prop (o : JsVal) (k : string) (v : JsVal) : JsVal :=
  match o with
  | VObj props => VObj (obj_set props k v)
  | _ => o
  end.

(** [arr.push(...xs)] on the array held in a value. *)
Definition push_all (arr : JsVal) (xs : list JsVal) : JsVal :=
  match arr with
  | VArr l => VArr (l ++ xs)
  | _ => arr
  end.

(** The two output shapes. *)
Definition storeSheet (rt : Schema) (file sheetName : string)
    (transformed : list JsObj) (resultMap : JsObj) : JsObj :=
  if String.eqb (Output.structure (output rt)) "hierarchical" then
    let fileObj := js_or (obj_get resultMap file) (VObj []) in
    obj_set resultMap file
      (set_prop fileObj sheetName (VArr (map VObj transformed)))
  else
    let flat := js_or (obj_get resultMap "__flat") (VArr []) in
    obj_set resultMap "__flat"
      (push_all flat (map (fun rr => VObj (flatRow file sheetName rr)) transformed)).

(** The transforms 2a to 2d, in their fixed order, on the rows that
    passed the filter. *)
Definition transformRows (rt : Schema) (msg : JsVal) (sheetName : string)
    (filtered : list JsVal) : M (list JsObj) :=
  let transformed := map (fun r => spread [] r) filtered in
  transformed <- selectStage rt msg sheetName transformed ;;
  transformed <- renameStage rt msg sheetName transformed ;;
  transformed <- conditionalRenameStage rt msg sheetName transformed ;;
  deriveStage rt msg sheetName transformed.

(** The body of the loop over the sheets of one file. *)
Definition processSheet (rt : Schema) (msg : JsVal) (incSheet excSheet : option string)
    (file sheetName : string) (rows : JsVal) (acc : Acc) : M Acc :=
  if negb (passNameFilters sheetName incSheet excSheet) then ret acc
  else
    let acc := mkAcc (resultMap acc) (fileCount acc) (S (sheetCount acc))
                 (rowIn acc) (rowOut acc) in
    match rows with
    | VArr rows =>
        filtered <- filterRows rt msg sheetName rows ;;
        transformed <- transformRows rt msg sheetName filtered ;;
        ret (mkAcc (storeSheet rt file sheetName transformed (resultMap acc))
               (fileCount acc) (sheetCount acc)
               (rowIn acc + List.length rows)
               (rowOut acc + List.length transformed))
    | _ => ret acc
    end.

Fixpoint processSheets (rt : Schema) (msg : JsVal) (incSheet excSheet : option string)
    (file : string) (sheets : list (string * JsVal)) (acc : Acc) : M Acc :=
  match sheets with
  | [] => ret acc
  | (sheetName, rows) :: rest =>
      acc' <- processSheet rt msg incSheet excSheet file sheetName rows acc ;;
      processSheets rt msg incSheet excSheet file rest acc'
  end.

(** Skip Office temp lock files *)
Definition isLockFile (file : string) : bool :=
  startsWith (basename file) "~$".

(** The body of the loop over the files. *)
Definition processFile (rt : Schema) (msg : JsVal) (incSheet excSheet : option string)
    (file : string) (sheets : JsVal) (acc : Acc) : M Acc :=
  if isLockFile file then ret acc
  else
    processSheets rt msg incSheet excSheet file
      (entries (js_or sheets (VObj [])))
      (mkAcc (resultMap acc) (S (fileCount acc)) (sheetCount acc)
         (rowIn acc) (rowOut acc)).

Fixpoint processFiles (rt : Schema) (msg : JsVal) (incSheet excSheet : option string)
    (files : list (string * JsVal)) (acc : Acc) : M Acc :=
  match files with
  | [] => ret acc
  | (file, sheets) :: rest =>
      acc' <- processFile rt msg incSheet excSheet file sheets acc ;;
      processFiles rt msg incSheet excSheet rest acc'
  end.

(** [n ? a : b] for a counter [n]: a number is falsy when it is 0 (or
    NaN, which a count of rows never is). *)
Definition count_truthy (n : nat) : bool := negb (Nat.eqb n 0).

(** [{ fileCount, sheetCount, rowIn, rowOut, filteredRatio }] *)
Definition summaryOf (acc : Acc) : JsObj :=
  [ ("fileCount", VNum (num_of_nat (fileCount acc)));
    ("sheetCount", VNum (num_of_nat (sheetCount acc)));
    ("rowIn", VNum (num_of_nat (rowIn acc)));
    ("rowOut", VNum (num_of_nat (rowOut acc)));
    ("filteredRatio",
      if count_truthy (rowIn acc)
      then VNum (PrimFloat.div (num_of_nat (rowOut acc)) (num_of_nat (rowIn acc)))
      else VNull) ].

(** The object written to the output target. *)
Definition buildOutObj (rt : Schema) (acc : Acc) : JsObj :=
  let outObj :=
    if String.eqb (Output.structure (output rt)) "hierarchical"
    then [("data", VObj (resultMap acc))]
    else [("data", js_or (obj_get (resultMap acc) "__flat") (VArr []))] in
  if truthy (Output.includeSummary (output rt)) then
    obj_set
      (obj_set outObj "summary" (VObj (summaryOf acc)))
      "rules"
      (VObj [ ("logic", VStr (filterLogic rt));
              ("count", VNum (num_of_nat (List.length (rules rt)))) ])
  else outObj.

(** [cur[k]] is kept when it is an object, else replaced by [{}]. *)
Definition child_object (cur : JsVal) (k : string) : JsVal :=
  match get_prop cur k with
  | VObj o => VObj o
  | VArr l => VArr l
  | _ => VObj []
  end.

(** The walk of [setOutput] below the root key, ending with
    [cur[last] = value]. *)
Fixpoint deepAssign (cur : JsVal) (parts : list string) (value : JsVal) : JsVal :=
  match parts with
  | [] => cur
  | [k] => set_prop cur k value
  | k :: rest => set_prop cur k (deepAssign (child_object cur k) rest value)
  end.

(** [setOutput]: the message as it is afterwards. *)
Definition setOutput (msg value : JsVal) (scope pathStr : string) : M JsVal :=
  if String.eqb scope "msg"
     || negb (String.eqb scope "flow" || String.eqb scope "global")
  then lift_res (setMessageProperty msg pathStr value)
  else
    let ctxSet (key : string) (v : JsVal) : M JsVal :=
      lift_world (context_set scope key v) ;;
      emit (EContextSet scope key v) ;; ret msg in
    if String.eqb pathStr "" || String.eqb (trim pathStr) "" then ctxSet "xlsxFilter" value
    else
      match split_dots pathStr with
      | [] => ctxSet "xlsxFilter" value
      | [rootKey] => ctxSet rootKey value
      | rootKey :: parts =>
          rootObj <- lift_world (context_get scope (VStr rootKey)) ;;
          let rootObj := match rootObj with
                         | VObj o => VObj o
                         | VArr l => VArr l
                         | _ => VObj []
                         end in
          ctxSet rootKey (deepAssign rootObj parts value)
      end.

(** The [try] block of the handler. *)
Definition runBatch (rt : Schema) (msg : JsVal) (has_done : bool) : M unit :=
  emit (EStatus "blue" "dot" "processing...") ;;
  inputData <- readInput rt msg ;;
  if negb (truthy inputData) || negb (typeof_object inputData)
     || negb (truthy (get_prop inputData "data"))
  then throw "Input missing or invalid. Expect an object with a 'data' map under the configured path."
  else
    let incSheet := safeRegex (includeSheetRegex rt) in
    let excSheet := safeRegex (excludeSheetRegex rt) in
    acc <- processFiles rt msg incSheet excSheet
             (entries (get_prop inputData "data")) emptyAcc ;;
    msg' <- setOutput msg (VObj (buildOutObj rt acc))
              (Output.targetType (output rt)) (Output.targetPath (output rt)) ;;
    emit (EStatus "green" "dot"
            (String_of_number (num_of_nat (rowOut acc)) ++ "/"
             ++ String_of_number (num_of_nat (rowIn acc)) ++ " rows")%string) ;;
    emit (ESend msg') ;;
    if has_done then emit (EDone None) else ret tt.

(** [node.on("input", async function(msg, send, done) {...})]: [has_done]
    tells whether the runtime passed a [done] callback. *)
Definition onInput (rt : Schema) (msg : JsVal) (has_done : bool) : M unit :=
  try_catch (runBatch rt msg has_done)
    (fun err =>
       emit (EStatus "red" "ring" (err_text err)) ;;
       emit (EError err msg) ;;
       if has_done then emit (EDone (Some err)) else ret tt).

End Engine.

(* ------------------------------------------------------------------ *)
(** ** Specification-side definitions *)

Section Specs.
Context {H : Host}.

(** The rules [rs] are evaluated from left to right, starting in [s];
    each one returns [v]; the last evaluation ends in [s']. *)
Inductive all_return (ev : Rule.t -> M bool) (v : bool)
  : list Rule.t -> State -> State -> Prop :=
| all_return_nil : forall s, all_return ev v [] s s
| all_return_cons : forall r rs s s1 s',
    ev r s = (Ok v, s1) ->
    all_return ev v rs s1 s' ->
    all_return ev v (r :: rs) s s'.

(** Some rule of [rs] returns [v], every rule before it returned the
    opposite, and [s'] is the state right after that rule: the rules after
    it are not evaluated. *)
Definition first_return (ev : Rule.t -> M bool) (v : bool)
    (rs : list Rule.t) (s s' : State) : Prop :=
  exists pre r post s1,
    rs = pre ++ r :: post /\
    all_return ev (negb v) pre s s1 /\
    ev r s1 = (Ok v, s').

End Specs.

(** An input root that is missing, is not an object, or lacks a [data]
    property. *)
Definition invalid_input (v : JsVal) : Prop :=
  nullish v = true \/ typeof_object v = false \/ get_prop v "data" = VUndef.

(** The error the handler throws for such an input. *)
Definition input_error : Err :=
  "Input missing or invalid. Expect an object with a 'data' map under the configured path.".

(** The pairs the rename walk visits: index [i] runs from 0 to
    [max(len(from), len(to)) - 1], each side clamped to its last element. *)
Definition clampedPairs (fromArr toArr : list string) : list (string * string) :=
  map (fun i => (nth (Nat.min i (List.length fromArr - 1)) fromArr "",
                 nth (Nat.min i (List.length toArr - 1)) toArr ""))
    (seq 0 (Nat.max (List.length fromArr) (List.length toArr))).

Section SelectSpecs.
Context {H : Host}.

(** The keys [pickSet] stores, in the order it stores them. *)
Definition pickedKeys (keys : list string) (set : list string) : list string :=
  flat_map (fun want => match pickKey keys want with
                        | Some k => [k]
                        | None => []
                        end) set.

(** No kept key answers to two wanted names: a key of the projected row
    that matches a wanted name after normalization is the key picked for
    that name. *)
Definition unambiguous (row : JsObj) (set : list string) : Prop :=
  forall want x,
    In want set -> In x (own_keys (pickSet row set)) ->
    norm x = norm want ->
    pickKey (own_keys row) want = Some x.

End SelectSpecs.

(* ------------------------------------------------------------------ *)
(** ** A host to run examples on

    Every JSONata expression evaluates to a flag that alternates from one
    evaluation to the next (as an expression that reads the clock or
    [$random()] may); the world is the number of evaluations so far.
    The context stores are empty, message properties are read by plain
    dotted paths, numbers are parsed and printed as unsigned decimal
    integers, and no regular expression is accepted.  [trim] and
    [toLowerCase] are the built-in methods on ASCII text, which is what
    the examples are written in. *)
Module ExampleHost.

Definition is_ws (c : ascii) : bool :=
  let n := nat_of_ascii c in
  (n =? 32) || (n =? 9) || (n =? 10) || (n =? 11) || (n =? 12) || (n =? 13).

Fixpoint trimStart (s : string) : string :=
  match s with
  | EmptyString => EmptyString
  | String c s' => if is_ws c then trimStart s' else s
  end.

Fixpoint trimEnd (s : string) : string :=
  match s with
  | EmptyString => EmptyString
  | String c s' =>
      match trimEnd s' with
      | EmptyString => if is_ws c then EmptyString else String c EmptyString
      | t => String c t
      end
  end.

(** [s.trim()] on ASCII text: TAB, LF, VT, FF, CR and SP are removed at
    both ends. *)
Definition trim_ascii (s : string) : string := trimEnd (trimStart s).

Definition lower_ascii (c : ascii) : ascii :=
  let n := nat_of_ascii c in
  if (65 <=? n) && (n <=? 90) then ascii_of_nat (n + 32) else c.

(** [s.toLowerCase()] on ASCII text. *)
Fixpoint toLowerCase_ascii (s : string) : string :=
  match s with
  | EmptyString => EmptyString
  | String c s' => String (lower_ascii c) (toLowerCase_ascii s')
  end.

Definition parse_number (s : string) : float :=
  let t := trim_ascii s in
  match digits_value t 0%N with
  | Some n => PrimFloat.of_uint63 (Uint63.of_Z (Z.of_N n))
  | None => PrimFloat.nan
  end.

Definition print_number (f : float) : string :=
  match Prim2SF f with
  | S754_zero _ => "0"
  | S754_finite false m e =>
      if (0 <=? e)%Z
      then string_of_nat (Z.to_nat (Z.pos m * 2 ^ e))
      else if (Z.pos m mod 2 ^ (- e) =? 0)%Z
           then string_of_nat (Z.to_nat (Z.pos m / 2 ^ (- e)))
           else "NaN"
  | _ => "NaN"
  end.

Definition read_path (msg path : JsVal) : Res JsVal :=
  match path with
  | VStr p =>
      Ok ((fix walk (cur : JsVal) (parts : list string) : JsVal :=
             match parts with
             | [] => cur
             | k :: ps =>
                 match cur with
                 | VObj o => walk (obj_get o k) ps
                 | _ => VUndef
                 end
             end) msg (split_dots p))
  | _ => Throw "Invalid property expression"
  end.

Definition write_path (msg : JsVal) (path : string) (value : JsVal) : Res JsVal :=
  match msg, split_dots path with
  | VObj o, [k] => Ok (VObj (obj_set o k value))
  | _, _ => Throw "Invalid property expression"
  end.

#[export] Instance host : Host := {
  World := nat;
  trim := trim_ascii;
  toLowerCase := toLowerCase_ascii;
  Number_of_string := parse_number;
  String_of_number := print_number;
  RegExp_valid := fun _ => false;
  RegExp_test := fun _ _ => false;
  same_object := fun _ _ => false;
  evaluateJSONata := fun _ _ w => (Ok (VBool (Nat.even w)), S w);
  getMessageProperty := read_path;
  setMessageProperty := write_path;
  context_get := fun _ _ w => (Ok VUndef, w);
  context_set := fun _ _ _ w => (Ok tt, w);
  process_env := fun _ => VUndef
}.

(** The state before anything happened. *)
Definition s0 : State := mkState (H := host) 0 [].

End ExampleHost.

(* ------------------------------------------------------------------ *)
(** ** Example configurations and batches *)

Module Examples.
Import ExampleHost.

Definition noConditional : ConditionalRename.t :=
  ConditionalRename.mk (VBool false) "msg" (VStr "") "==" "str" (VStr "") [].

Definition toMsg (structure : string) : Output.t :=
  Output.mk "msg" "filtered" structure (VBool true).

(** No rules, no transforms; reads [msg.data]. *)
Definition plain : Schema :=
  mkSchema "data" "msg" "" "" "AND" [] "none" [] [] noConditional []
    (toMsg "hierarchical").

(** One rule whose column reference is absent. *)
Definition ruleNoColumn : Rule.t :=
  Rule.mk VUndef "" VUndef "str" "==" "str" (VStr "OK") VUndef VUndef.

Definition withRuleNoColumn : Schema :=
  mkSchema "data" "msg" "" "" "AND" [ruleNoColumn] "none" [] [] noConditional []
    (toMsg "hierarchical").

Definition rowOK : JsVal := VObj [("Status", VStr "OK"); ("Amount", VStr "10")].

(** A header with stray blanks and capitals. *)
Definition rowName : JsObj := [(" Name ", VStr "x")].

(** Two headers that differ by case and a trailing blank. *)
Definition rowTwoA : JsObj := [("A", VStr "1"); ("a ", VStr "2")].

(** A rename of column [A] to the empty name. *)
Definition renameToEmpty : RenameItem.t :=
  RenameItem.mk VUndef "" (VStr "A") "str" (VStr "") "str".

Definition rowA : JsObj := [("A", VStr "1")].

(** A message without the input root [data]. *)
Definition msgNoData : JsVal := VObj [("payload", VStr "x")].

(** One workbook with one empty sheet. *)
Definition emptySheetFiles : list (string * JsVal) :=
  [("Book1.xlsx", VObj [("Sheet1", VArr [])])].

(** A workbook below a folder whose name starts with the lock-file
    prefix. *)
Definition folderFiles : list (string * JsVal) :=
  [("~$tmp/Book1.xlsx", VObj [("Sheet1", VArr [VObj rowA])])].

(** A lock file next to a workbook. *)
Definition lockFiles : list (string * JsVal) :=
  [("/data/~$Book1.xlsx", VObj [("Sheet1", VArr [VObj rowA])])].

(** Conditional rename of [A] to [X], on a condition the evaluator
    decides. *)
Definition conditional : Schema :=
  mkSchema "data" "msg" "" "" "AND" [] "none" [] []
    (ConditionalRename.mk (VBool true) "jsonata" (VStr "$millis() % 2 = 0")
       "==" "str" (VStr "true")
       [RenameItem.mk VUndef "" (VStr "A") "str" (VStr "X") "str"])
    [] (toMsg "hierarchical").

(** One workbook with two sheets holding the same row. *)
Definition twoSheets : list (string * JsVal) :=
  [("Book1.xlsx",
    VObj [("S1", VArr [VObj rowA]); ("S2", VArr [VObj rowA])])].

(** The scenario of the specification: one rule [Amount >= "8"]. *)
Definition amountRule : Rule.t :=
  Rule.mk VUndef "" (VStr "Amount") "str" ">=" "str" (VStr "8") VUndef VUndef.

Definition amountFilter (structure : string) : Schema :=
  mkSchema "data" "msg" "" "" "AND" [amountRule] "none" [] [] noConditional []
    (toMsg structure).

Definition rowNO : JsVal := VObj [("Status", VStr "NO"); ("Amount", VStr "5")].

Definition book1 : JsVal :=
  VObj [("data", VObj [("Book1.xlsx", VObj [("Sheet1", VArr [rowOK; rowNO])])])].

Definition msgBook1 : JsVal := VObj [("data", book1)].

(** A rename of [A] and [B] to the one name [X]. *)
Definition renameFanIn : RenameItem.t :=
  RenameItem.mk VUndef "" (VArr [VStr "A"; VStr "B"]) "str" (VArr [VStr "X"]) "str".

Definition rowABC : JsObj := [("A", VStr "1"); ("B", VStr "2"); ("C", VStr "3")].

End Examples.

(* ------------------------------------------------------------------ *)
(** ** Configuration defaults *)

(** [a ?? b] *)
Definition coalesce (a b : JsVal) : JsVal := if nullish a then b else a.

(** [v?.k] *)
Definition opt_prop (v : JsVal) (k : string) : JsVal :=
  if nullish v then VUndef else get_prop v k.

(** [Array.isArray(v) ? v : []] *)
Definition array_or_empty (v : JsVal) : JsVal :=
  if isArray v then v else VArr [].

(** The object literal [withDefaults] returns, for a schema that is not
    [undefined] or [null]. *)
Definition defaultsOf (schema : JsVal) : JsObj :=
  let cr := get_prop schema "conditionalRename" in
  let out := get_prop schema "output" in
  [ ("inputPath", coalesce (get_prop schema "inputPath") (VStr "data"));
    ("inputPathType", coalesce (get_prop schema "inputPathType") (VStr "msg"));
    ("includeSheetRegex", coalesce (get_prop schema "includeSheetRegex") (VStr ""));
    ("excludeSheetRegex", coalesce (get_prop schema "excludeSheetRegex") (VStr ""));
    ("filterLogic", coalesce (get_prop schema "filterLogic") (VStr "AND"));
    ("rules", array_or_empty (get_prop schema "rules"));
    ("selectMode", coalesce (get_prop schema "selectMode") (VStr "none"));
    ("selectList", array_or_empty (get_prop schema "selectList"));
    ("renameList", array_or_empty (get_prop schema "renameList"));
    ("conditionalRename",
      VObj [ ("enabled", coalesce (opt_prop cr "enabled") (VBool false));
             ("whenLhsType", coalesce (opt_prop cr "whenLhsType") (VStr "msg"));
             ("whenLhs", coalesce (opt_prop cr "whenLhs") (VStr ""));
             ("op", coalesce (opt_prop cr "op") (VStr "=="));
             ("rhsType", coalesce (opt_prop cr "rhsType") (VStr "str"));
             ("rhs", coalesce (opt_prop cr "rhs") (VStr ""));
             ("list", array_or_empty (opt_prop cr "list")) ]);
    ("deriveList", array_or_empty (get_prop schema "deriveList"));
    ("output",
      VObj [ ("targetType", coalesce (opt_prop out "targetType") (VStr "msg"));
             ("targetPath", coalesce (opt_prop out "targetPath") (VStr "filtered"));
             ("structure", coalesce (opt_prop out "structure") (VStr "hierarchical"));
             ("includeSummary", coalesce (opt_prop out "includeSummary") (VBool true)) ]) ].

(** [withDefaults(schema = {})]: the default parameter replaces
    [undefined] only; reading a property of [null] throws. *)
Definition withDefaults (schema : JsVal) : Res JsObj :=
  match schema with
  | VNull => Throw "Cannot read properties of null (reading 'inputPath')"
  | VUndef => Ok (defaultsOf (VObj []))
  | _ => Ok (defaultsOf schema)
  end.

(** [setRuntimeSchemaFromFile]: the runtime schema for the parsed file
    [{version, updatedAt, schema}], [withDefaults(fileObj?.schema || {})]. *)
Definition setRuntimeSchemaFromFile (fileObj : JsVal) : Res JsObj :=
  withDefaults (js_or (opt_prop fileObj "schema") (VObj [])).

(** [embeddedToSchemaObj]: the runtime schema for the editor's flat
    [config] object. *)
Definition embeddedToSchemaObj (config : JsObj) : Res JsObj :=
  withDefaults
    (VObj
       [ ("inputPath", js_or (obj_get config "inputPath") (VStr "data"));
         ("inputPathType", js_or (obj_get config "inputPathType") (VStr "msg"));
         ("includeSheetRegex", js_or (obj_get config "includeSheetRegex") (VStr ""));
         ("excludeSheetRegex", js_or (obj_get config "excludeSheetRegex") (VStr ""));
         ("filterLogic", js_or (obj_get config "filterLogic") (VStr "AND"));
         ("rules", array_or_empty (obj_get config "rules"));
         ("selectMode", js_or (obj_get config "selectMode") (VStr "none"));
         ("selectList", array_or_empty (obj_get config "selectList"));
         ("renameList", array_or_empty (obj_get config "renameList"));
         ("conditionalRename",
           VObj [ ("enabled", VBool (truthy (obj_get config "conditionalRenameEnabled")));
                  ("whenLhsType",
                    js_or (obj_get config "conditionalRenameWhenLhsType") (VStr "msg"));
                  ("whenLhs", js_or (obj_get config "conditionalRenameWhenLhs") (VStr ""));
                  ("op", js_or (obj_get config "conditionalRenameOp") (VStr "=="));
                  ("rhsType", js_or (obj_get config "conditionalRenameRhsType") (VStr "str"));
                  ("rhs", js_or (obj_get config "conditionalRenameRhs") (VStr ""));
                  ("list", array_or_empty (obj_get config "conditionalRenameList")) ]);
         ("deriveList", array_or_empty (obj_get config "deriveList"));
         ("output",
           VObj [ ("targetType", js_or (obj_get config "outputTargetType") (VStr "msg"));
                  ("targetPath", js_or (obj_get config "outputTargetPath") (VStr "filtered"));
                  ("structure", js_or (obj_get config "structure") (VStr "hierarchical"));
                  ("includeSummary",
                    if has_own config "includeSummary"
                    then VBool (truthy (obj_get config "includeSummary"))
                    else VBool true) ]) ]).

(** The names of the settings that hold lists. *)
Definition listSettings : list string :=
  ["rules"; "selectList"; "renameList"; "deriveList"].

(** Every setting of a runtime schema is present and is not [undefined]
    or [null], the list settings are arrays, and the two nested objects
    are complete in the same way. *)
Definition complete_schema (d : JsObj) : Prop :=
  map fst d
  = ["inputPath"; "inputPathType"; "includeSheetRegex"; "excludeSheetRegex";
     "filterLogic"; "rules"; "selectMode"; "selectList"; "renameList";
     "conditionalRename"; "deriveList"; "output"]
  /\ Forall (fun kv => nullish (snd kv) = false) d
  /\ Forall (fun k => isArray (obj_get d k) = true) listSettings
  /\ (exists cr,
        obj_get d "conditionalRename" = VObj cr
        /\ map fst cr = ["enabled"; "whenLhsType"; "whenLhs"; "op"; "rhsType"; "rhs"; "list"]
        /\ Forall (fun kv => nullish (snd kv) = false) cr
        /\ isArray (obj_get cr "list") = true)
  /\ (exists out,
        obj_get d "output" = VObj out
        /\ map fst out = ["targetType"; "targetPath"; "structure"; "includeSummary"]
        /\ Forall (fun kv => nullish (snd kv) = false) out).

(* ------------------------------------------------------------------ *)
(** ** Notions used to state further properties *)

(** One of the five characters [sanitizeExpr] removes, as its three
    UTF-8 bytes. *)
Definition is_mark (m : string) : Prop :=
  exists a b c,
    m = String a (String b (String c EmptyString)) /\ stripped3 a b c = true.

(** No byte of the text starts one of those characters (so for plain
    ASCII text). *)
Fixpoint no_mark_lead (s : string) : bool :=
  match s with
  | EmptyString => true
  | String c s' =>
      negb (nat_of_ascii c =? 226) && negb (nat_of_ascii c =? 239)
      && no_mark_lead s'
  end.

(** A breadcrumb character: U+200B, the zero-width space. *)
Definition zero_width_space : string :=
  String (ascii_of_nat 226) (String (ascii_of_nat 128)
    (String (ascii_of_nat 139) EmptyString)).

Section Notions.
Context {H : Host}.

(** A sheet pattern that [safeRegex] compiles: not empty and accepted by
    [RegExp]. *)
Definition usable_pattern (rx : string) : bool :=
  negb (String.eqb rx "") && RegExp_valid rx.

(** Events a computation may log on its way: statuses and context
    writes. *)
Definition is_status (e : Event) : bool :=
  match e with EStatus _ _ _ => true | _ => false end.

Definition is_internal (e : Event) : bool :=
  match e with EStatus _ _ _ | EContextSet _ _ _ => true | _ => false end.

(** [m] only appends events that satisfy [P] to the log, whether it
    returns or throws. *)
Definition logs_only {A} (P : Event -> bool) (m : M A) : Prop :=
  forall s r s',
    m s = (r, s') ->
    exists l, events s' = events s ++ l /\ forallb P l = true.

(** [m] never throws. *)
Definition never_throws {A} (m : M A) : Prop :=
  forall s, exists a s', m s = (Ok a, s').

End Notions.

(** A rename line with literal names and no sheet scope. *)
Definition literalRename (from to : string) : RenameItem.t :=
  RenameItem.mk VUndef "" (VStr from) "str" (VStr to) "str".

(** In flat mode the list stored under [__flat] has as many rows as
    [rowOut] counts (no list yet when nothing was stored). *)
Definition flat_rows_match (acc : Acc) : Prop :=
  match obj_lookup (resultMap acc) "__flat" with
  | Some (VArr l) => List.length l = rowOut acc
  | Some _ => False
  | None => rowOut acc = 0
  end.

(** The files of a batch that are not lock files. *)
Definition workbooks (files : list (string * JsVal)) : list (string * JsVal) :=
  filter (fun f => negb (isLockFile (fst f))) files.

(** The shape of hierarchical output data: every file maps to an object
    that maps every sheet to an array. *)
Definition nested_rows (rm : JsObj) : Prop :=
  forall file v,
    obj_lookup rm file = Some v ->
    exists sheets,
      v = VObj sheets
      /\ forall sheet x, obj_lookup sheets sheet = Some x -> isArray x = true.

(** A schema that filters and transforms nothing. *)
Definition transforms_nothing (rt : Schema) : Prop :=
  rules rt = [] /\ selectMode rt = "none" /\ renameList rt = []
  /\ truthy (ConditionalRename.enabled (conditionalRename rt)) = false
  /\ deriveList rt = [].

(** The comparators of the conditional-rename condition. *)
Definition conditionOps : list string :=
  ["=="; "!="; "contains"; "!contains"; "regex"; "isEmpty"; "!isEmpty"].

(** The ordering comparators of a rule. *)
Definition orderingOps : list string := ["<"; "<="; ">"; ">="].

(** How an invocation ends: the message is sent, or the error is
    reported with the incoming message; [done] follows when the runtime
    passed it. *)
Definition completion (msg : JsVal) (has_done : bool) (tail : list Event) : Prop :=
  (exists msg', tail = ESend msg' :: (if has_done then [EDone None] else []))
  \/ (exists e, tail = EError e msg :: (if has_done then [EDone (Some e)] else [])).

(* ------------------------------------------------------------------ *)
(** ** More examples *)

Module MoreExamples.
Import ExampleHost Examples.

(** A configuration file's schema that sets the filter logic only. *)
Definition orSchema : JsVal := VObj [("filterLogic", VStr "OR")].

(** A select line whose column list repeats a name and holds an empty
    one. *)
Definition selectRepeats : SelectItem.t :=
  SelectItem.mk VUndef "" (VArr [VStr "A"; VStr "A"; VStr ""; VStr "B"]) "str".

(** A workbook with the two rows of the scenario, next to a lock file. *)
Definition book1Files : list (string * JsVal) :=
  [("Book1.xlsx", VObj [("Sheet1", VArr [rowOK; rowNO])]);
   ("/data/~$Book1.xlsx", VObj [("Sheet1", VArr [rowOK])])].

(** The accumulator after the scenario's batch, in the two output
    modes. *)
Definition accFlat : Acc :=
  Eval vm_compute in
    match processFiles (amountFilter "flat") msgBook1 None None book1Files
            emptyAcc s0 with
    | (Ok acc, _) => acc
    | _ => emptyAcc
    end.

Definition accNested : Acc :=
  Eval vm_compute in
    match processFiles (amountFilter "hierarchical") msgBook1 None None book1Files
            emptyAcc s0 with
    | (Ok acc, _) => acc
    | _ => emptyAcc
    end.

(** A rule [Amount < 8]. *)
Definition belowEight : Rule.t :=
  Rule.mk VUndef "" (VStr "Amount") "str" "<" "str" (VStr "8") VUndef VUndef.

(** The example host, except that the expression [boom] cannot be
    evaluated and every other expression evaluates to its own text. *)
Definition partialHost : Host := {|
  World := nat;
  trim := trim_ascii;
  toLowerCase := toLowerCase_ascii;
  Number_of_string := parse_number;
  String_of_number := print_number;
  RegExp_valid := fun _ => false;
  RegExp_test := fun _ _ => false;
  same_object := fun _ _ => false;
  evaluateJSONata := fun src _ w =>
    if String.eqb src "boom" then (Throw "boom", S w) else (Ok (VStr src), S w);
  getMessageProperty := read_path;
  setMessageProperty := write_path;
  context_get := fun _ _ w => (Ok VUndef, w);
  context_set := fun _ _ _ w => (Ok tt, w);
  process_env := fun _ => VUndef
|}.

(** Two derived columns; the expression of the first one fails on
    [partialHost]. *)
Definition deriveBad : DeriveItem.t := DeriveItem.mk "bad" "jsonata" (VStr "boom").

Definition deriveGood : DeriveItem.t := DeriveItem.mk "good" "jsonata" (VStr "fine").

Definition withDerive : Schema :=
  mkSchema "data" "msg" "" "" "AND" [] "none" [] [] noConditional
    [deriveBad; deriveGood] (toMsg "hierarchical").

End MoreExamples.

(* ================================================================== *)
(** * Properties *)

(* ------------------------------------------------------------------ *)
(** ** Objects *)

Lemma obj_lookup_set (o : JsObj) (k : string) (v : JsVal) (k' : string) :
  obj_lookup (obj_set o k v) k' =
  if String.eqb k k' then Some v else obj_lookup o k'.
Proof.
  induction o as [|[k0 v0] o IH]; simpl.
  - destruct (String.eqb k k'); reflexivity.
  - destruct (String.eqb k0 k) eqn:E0; simpl.
    + apply String.eqb_eq in E0; subst k0.
      destruct (String.eqb k k'); reflexivity.
    + destruct (String.eqb k0 k') eqn:E1.
      * apply String.eqb_eq in E1; subst k0.
        rewrite String.eqb_sym, E0. reflexivity.
      * apply IH.
Qed.

Lemma obj_lookup_delete (o : JsObj) (k k' : string) :
  obj_lookup (obj_delete o k) k' =
  if String.eqb k k' then None else obj_lookup o k'.
Proof.
  induction o as [|[k0 v0] o IH]; simpl.
  - destruct (String.eqb k k'); reflexivity.
  - destruct (String.eqb k0 k) eqn:E0; simpl.
    + apply String.eqb_eq in E0; subst k0. rewrite IH.
      destruct (String.eqb k k'); reflexivity.
    + rewrite IH. destruct (String.eqb k0 k') eqn:E1; [|reflexivity].
      apply String.eqb_eq in E1; subst k0.
      rewrite String.eqb_sym, E0. reflexivity.
Qed.

Lemma obj_lookup_In (o : JsObj) (k : string) :
  obj_lookup o k <> None <-> In k (map fst o).
Proof.
  induction o as [|[k0 v0] o IH]; simpl.
  - split; [congruence | tauto].
  - destruct (String.eqb k0 k) eqn:E.
    + apply String.eqb_eq in E. split; [auto | congruence].
    + apply String.eqb_neq in E. rewrite IH. tauto.
Qed.

Lemma has_own_In (o : JsObj) (k : string) :
  has_own o k = true <-> In k (map fst o).
Proof.
  unfold has_own. rewrite <- obj_lookup_In.
  destruct (obj_lookup o k); split; congruence.
Qed.

Lemma has_own_false (o : JsObj) (k : string) :
  has_own o k = false <-> ~ In k (map fst o).
Proof.
  rewrite <- has_own_In. destruct (has_own o k); split; congruence.
Qed.

Lemma existsb_eqb_In (k : string) (ks : list string) :
  existsb (String.eqb k) ks = true <-> In k ks.
Proof.
  rewrite existsb_exists. split.
  - intros [x [Hin E]]. apply String.eqb_eq in E. subst. exact Hin.
  - intros Hin. exists k. split; [exact Hin | apply String.eqb_refl].
Qed.

Lemma In_insert_index (n : N) (k : string) (l : list (N * string)) (p : N * string) :
  In p (insert_index n k l) <-> p = (n, k) \/ In p l.
Proof.
  induction l as [|[m k'] l IH]; simpl.
  - intuition.
  - destruct (n <? m)%N; simpl; [intuition | rewrite IH; intuition].
Qed.

Lemma In_index_keys (ks : list string) (n : N) (k : string) :
  In (n, k) (index_keys ks) <-> In k ks /\ array_index k = Some n.
Proof.
  induction ks as [|k0 ks IH]; simpl.
  - tauto.
  - destruct (array_index k0) as [m|] eqn:E.
    + rewrite In_insert_index, IH. split.
      * intros [Heq | [Hin Ha]]; [inversion Heq; subst; auto | auto].
      * intros [[Heq | Hin] Ha]; [left; subst; congruence | auto].
    + rewrite IH. split.
      * intros [Hin Ha]; auto.
      * intros [[Heq | Hin] Ha]; [subst; congruence | auto].
Qed.

(** [Object.keys] enumerates exactly the own properties. *)
Lemma In_own_keys (o : JsObj) (k : string) :
  In k (own_keys o) <-> In k (map fst o).
Proof.
  unfold own_keys. rewrite in_app_iff, in_map_iff, filter_In. split.
  - intros [[[n k'] [Hs Hin]] | [Hin _]]; [|exact Hin].
    simpl in Hs; subst k'. apply In_index_keys in Hin. tauto.
  - intros Hin. unfold is_index_key.
    destruct (array_index k) as [n|] eqn:E.
    + left. exists (n, k). split; [reflexivity|].
      apply In_index_keys. auto.
    + right. auto.
Qed.

Lemma own_keys_has_own (o : JsObj) (k : string) :
  existsb (String.eqb k) (own_keys o) = has_own o k.
Proof.
  destruct (has_own o k) eqn:E.
  - apply existsb_eqb_In, In_own_keys, has_own_In, E.
  - destruct (existsb (String.eqb k) (own_keys o)) eqn:E'; [|reflexivity].
    apply existsb_eqb_In, In_own_keys, has_own_In in E'. congruence.
Qed.

(** Storing [f k] under every key [k] of a list. *)
Lemma obj_lookup_fold_set (f : string -> JsVal) (ks : list string)
    (base : JsObj) (k : string) :
  obj_lookup (fold_left (fun acc k => obj_set acc k (f k)) ks base) k =
  if existsb (String.eqb k) ks then Some (f k) else obj_lookup base k.
Proof.
  revert base. induction ks as [|k0 ks IH]; intros base; simpl.
  - reflexivity.
  - rewrite IH, obj_lookup_set.
    destruct (existsb (String.eqb k) ks); simpl.
    + rewrite orb_true_r. reflexivity.
    + rewrite orb_false_r, String.eqb_sym.
      destruct (String.eqb k k0) eqn:E; [|reflexivity].
      apply String.eqb_eq in E. subst. reflexivity.
Qed.

Lemma keys_fold_set (f : string -> JsVal) (ks : list string)
    (base : JsObj) (k : string) :
  In k (map fst (fold_left (fun acc k => obj_set acc k (f k)) ks base)) <->
  In k ks \/ In k (map fst base).
Proof.
  rewrite <- !obj_lookup_In, obj_lookup_fold_set.
  destruct (existsb (String.eqb k) ks) eqn:E.
  - apply existsb_eqb_In in E. split; [auto | congruence].
  - split; [auto|]. intros [Hin | Hb]; [|exact Hb].
    apply existsb_eqb_In in Hin. congruence.
Qed.

(** A spread copy has the properties of the source over those of the base. *)
Lemma obj_lookup_spread_obj (base o : JsObj) (k : string) :
  obj_lookup (spread_obj base o) k =
  if has_own o k then Some (obj_get o k) else obj_lookup base k.
Proof.
  unfold spread_obj. rewrite obj_lookup_fold_set, own_keys_has_own. reflexivity.
Qed.

Lemma obj_get_spread_obj (base o : JsObj) (k : string) :
  obj_get (spread_obj base o) k =
  if has_own o k then obj_get o k else obj_get base k.
Proof.
  unfold obj_get at 1. rewrite obj_lookup_spread_obj.
  destruct (has_own o k); reflexivity.
Qed.

(* ------------------------------------------------------------------ *)
(** ** Output shapes and summary *)

Section OutputFacts.
Context {H : Host}.

(** C10. In flat output a row is emitted as [{_file, _sheet, ...row}]: the
    row's own [_file] or [_sheet] value replaces the injected file or sheet
    name, a row without such a key receives the enclosing names, every own
    column of the row is kept with its value, and in flat mode the stored
    [__flat] list is extended by exactly these rows. *)
Theorem flat_row_own_keys_win (rt : Schema) (file sheetName : string)
    (rr : JsObj) (transformed : list JsObj) (resultMap : JsObj) :
  obj_get (flatRow file sheetName rr) "_file"
    = (if has_own rr "_file" then obj_get rr "_file" else VStr file)
  /\ obj_get (flatRow file sheetName rr) "_sheet"
    = (if has_own rr "_sheet" then obj_get rr "_sheet" else VStr sheetName)
  /\ (forall k, has_own rr k = true ->
        obj_get (flatRow file sheetName rr) k = obj_get rr k)
  /\ (String.eqb (Output.structure (output rt)) "hierarchical" = false ->
        obj_get (storeSheet rt file sheetName transformed resultMap) "__flat"
        = push_all (js_or (obj_get resultMap "__flat") (VArr []))
            (map (fun r => VObj (flatRow file sheetName r)) transformed)).
Proof.
  unfold flatRow. repeat split.
  - rewrite obj_get_spread_obj. reflexivity.
  - rewrite obj_get_spread_obj. reflexivity.
  - intros k Hk. rewrite obj_get_spread_obj, Hk. reflexivity.
  - intros Hs. unfold storeSheet. rewrite Hs.
    unfold obj_get at 1. rewrite obj_lookup_set, String.eqb_refl. reflexivity.
Qed.

(** C5 (as the code has it). The summary's [filteredRatio] is
    [rowOut / rowIn] when [rowIn] is positive and [null] when [rowIn] is 0;
    the summary is the [summary] property of the output object whenever the
    summary is included. *)
Theorem summary_filteredRatio (rt : Schema) (acc : Acc) :
  obj_get (summaryOf acc) "filteredRatio"
    = match rowIn acc with
      | O => VNull
      | S _ => VNum (PrimFloat.div (num_of_nat (rowOut acc)) (num_of_nat (rowIn acc)))
      end
  /\ (if truthy (Output.includeSummary (output rt))
      then obj_get (buildOutObj rt acc) "summary" = VObj (summaryOf acc)
      else has_own (buildOutObj rt acc) "summary" = false).
Proof.
  split.
  - unfold summaryOf, obj_get, count_truthy. simpl.
    destruct (rowIn acc); reflexivity.
  - unfold buildOutObj.
    destruct (truthy (Output.includeSummary (output rt))).
    + unfold obj_get. rewrite !obj_lookup_set. simpl.
      destruct (String.eqb (Output.structure (output rt)) "hierarchical");
        reflexivity.
    + destruct (String.eqb (Output.structure (output rt)) "hierarchical");
        reflexivity.
Qed.

End OutputFacts.

(* ------------------------------------------------------------------ *)
(** ** The monad *)

Section MonadFacts.
Context {H : Host}.

Lemma bind_ok {A B} (m : M A) (f : A -> M B) (s s1 : State) (a : A) :
  m s = (Ok a, s1) -> bind m f s = f a s1.
Proof. intros E. unfold bind. rewrite E. reflexivity. Qed.

Lemma bind_throw {A B} (m : M A) (f : A -> M B) (s s1 : State) (e : Err) :
  m s = (Throw e, s1) -> bind m f s = (Throw e, s1).
Proof. intros E. unfold bind. rewrite E. reflexivity. Qed.

Lemma lift_world_events {A} (f : World -> Res A * World) (s s' : State) (r : Res A) :
  lift_world f s = (r, s') -> events s' = events s.
Proof.
  unfold lift_world. destruct (f (world s)) as [r0 w].
  intros E. inversion E. reflexivity.
Qed.

(** Reading the input root logs nothing. *)
Lemma readInput_events (rt : Schema) (msg : JsVal) (s s' : State) (r : Res JsVal) :
  readInput rt msg s = (r, s') -> events s' = events s.
Proof.
  unfold readInput, deepGet, ret, throw.
  destruct (getRootContainer msg (inputPathType rt)) as [m | scope].
  - destruct (truthy m); simpl.
    + destruct (String.eqb (inputPath rt) "").
      * intros E; inversion E; reflexivity.
      * destruct (truthy (get_prop m "get") && truthy (get_prop m "set"));
          intros E; inversion E; reflexivity.
    + intros E; inversion E; reflexivity.
  - destruct (String.eqb (inputPath rt) "").
    + intros E; inversion E; reflexivity.
    + apply lift_world_events.
Qed.

End MonadFacts.

(* ------------------------------------------------------------------ *)
(** ** The handler: malformed input and lock files *)

Section HandlerFacts.
Context {H : Host}.

Lemma invalid_input_check (v : JsVal) :
  invalid_input v ->
  negb (truthy v) || negb (typeof_object v) || negb (truthy (get_prop v "data")) = true.
Proof.
  intros [Hn | [Ht | Hd]].
  - destruct v; simpl in Hn; try discriminate; reflexivity.
  - rewrite Ht. simpl. rewrite orb_true_r. reflexivity.
  - rewrite Hd. simpl. rewrite !orb_true_r. reflexivity.
Qed.

(** C9. When the value at the configured input path is missing, is not an
    object, or has no [data] property, the invocation ends with exactly one
    error: the handler logs the red status, reports the descriptive error
    once and completes with it; nothing is written to a context store and
    no message is sent, so no result of any file or sheet is emitted. *)
Theorem malformed_input_fails_whole_invocation (rt : Schema) (msg : JsVal)
    (has_done : bool) (s s1 : State) (v : JsVal) :
  readInput rt msg
    (mkState (world s) (events s ++ [EStatus "blue" "dot" "processing..."]))
    = (Ok v, s1) ->
  invalid_input v ->
  onInput rt msg has_done s
  = (Ok tt,
     mkState (world s1)
       (events s
        ++ [EStatus "blue" "dot" "processing...";
            EStatus "red" "ring" input_error;
            EError input_error msg]
        ++ (if has_done then [EDone (Some input_error)] else []))).
Proof.
  intros Hread Hinv.
  pose proof (readInput_events _ _ _ Hread) as Hev. simpl in Hev.
  unfold onInput, try_catch, runBatch.
  unfold bind at 1. unfold emit at 1.
  erewrite bind_ok by exact Hread.
  rewrite (invalid_input_check Hinv).
  unfold throw, bind, emit. simpl. rewrite Hev.
  destruct has_done; simpl; rewrite <- !app_assoc; reflexivity.
Qed.

(** C8 (as the code has it). A file whose base name, the last component of
    its path, starts with [~$] is skipped before anything else is done with
    it: the counters, the result map and the host state stay as they were,
    so a batch gives the same counts and the same output data as the batch
    without these files. *)
Theorem lock_files_are_skipped (rt : Schema) (msg : JsVal)
    (incSheet excSheet : option string) :
  (forall file sheets acc s,
      startsWith (basename file) "~$" = true ->
      processFile rt msg incSheet excSheet file sheets acc s = (Ok acc, s))
  /\ (forall files acc s,
        processFiles rt msg incSheet excSheet files acc s
        = processFiles rt msg incSheet excSheet
            (filter (fun f => negb (startsWith (basename (fst f)) "~$")) files)
            acc s).
Proof.
  split.
  - intros file sheets acc s Hl. unfold processFile, isLockFile.
    rewrite Hl. reflexivity.
  - induction files as [|[file sheets] files IH]; intros acc s; simpl.
    + reflexivity.
    + destruct (startsWith (basename file) "~$") eqn:Hl; simpl.
      * unfold bind, processFile, isLockFile. rewrite Hl. simpl. apply IH.
      * unfold bind.
        destruct (processFile rt msg incSheet excSheet file sheets acc s)
          as [[acc' | e] s']; [apply IH | reflexivity].
Qed.

End HandlerFacts.

(* ------------------------------------------------------------------ *)
(** ** Rule lists *)

Section RuleFacts.
Context {H : Host}.
Variable ev : Rule.t -> M bool.

Lemma everyRule_true (rs : list Rule.t) (s s' : State) :
  everyRule ev rs s = (Ok true, s') <-> all_return ev true rs s s'.
Proof.
  revert s. induction rs as [|r rs IH]; intros s; simpl.
  - unfold ret. split.
    + intros E; inversion E; constructor.
    + intros Ha; inversion Ha; reflexivity.
  - unfold bind. split.
    + destruct (ev r s) as [[[|] | e] s1] eqn:E; simpl; intros Hr.
      * econstructor; [exact E | apply IH, Hr].
      * discriminate.
      * discriminate.
    + intros Ha. inversion Ha as [|? ? ? s1 ? E Hrest]; subst.
      rewrite E. simpl. apply IH, Hrest.
Qed.

Lemma everyRule_false (rs : list Rule.t) (s s' : State) :
  everyRule ev rs s = (Ok false, s') <-> first_return ev false rs s s'.
Proof.
  revert s. induction rs as [|r rs IH]; intros s; simpl.
  - unfold ret. split; [discriminate|].
    intros (pre & r & post & s1 & Heq & _). destruct pre; discriminate.
  - unfold bind. split.
    + destruct (ev r s) as [[[|] | e] s1] eqn:E; simpl; intros Hr.
      * apply IH in Hr. destruct Hr as (pre & r' & post & s2 & Heq & Ha & Er).
        exists (r :: pre), r', post, s2. subst rs. repeat split; auto.
        econstructor; [exact E | exact Ha].
      * inversion Hr; subst. exists [], r, rs, s. repeat split; auto.
        constructor.
      * discriminate.
    + intros (pre & r' & post & s1 & Heq & Ha & Er).
      destruct pre as [|r0 pre]; simpl in Heq; inversion Heq; subst.
      * inversion Ha; subst. rewrite Er. reflexivity.
      * inversion Ha as [|? ? ? s2 ? E Hrest]; subst.
        simpl in E. rewrite E. simpl. apply IH.
        exists pre, r', post, s1. auto.
Qed.

Lemma anyRule_false (rs : list Rule.t) (s s' : State) :
  anyRule ev rs s = (Ok false, s') <-> all_return ev false rs s s'.
Proof.
  revert s. induction rs as [|r rs IH]; intros s; simpl.
  - unfold ret. split.
    + intros E; inversion E; constructor.
    + intros Ha; inversion Ha; reflexivity.
  - unfold bind. split.
    + destruct (ev r s) as [[[|] | e] s1] eqn:E; simpl; intros Hr.
      * discriminate.
      * econstructor; [exact E | apply IH, Hr].
      * discriminate.
    + intros Ha. inversion Ha as [|? ? ? s1 ? E Hrest]; subst.
      rewrite E. simpl. apply IH, Hrest.
Qed.

Lemma anyRule_true (rs : list Rule.t) (s s' : State) :
  anyRule ev rs s = (Ok true, s') <-> first_return ev true rs s s'.
Proof.
  revert s. induction rs as [|r rs IH]; intros s; simpl.
  - unfold ret. split; [discriminate|].
    intros (pre & r & post & s1 & Heq & _). destruct pre; discriminate.
  - unfold bind. split.
    + destruct (ev r s) as [[[|] | e] s1] eqn:E; simpl; intros Hr.
      * inversion Hr; subst. exists [], r, rs, s. repeat split; auto.
        constructor.
      * apply IH in Hr. destruct Hr as (pre & r' & post & s2 & Heq & Ha & Er).
        exists (r :: pre), r', post, s2. subst rs. repeat split; auto.
        econstructor; [exact E | exact Ha].
      * discriminate.
    + intros (pre & r' & post & s1 & Heq & Ha & Er).
      destruct pre as [|r0 pre]; simpl in Heq; inversion Heq; subst.
      * inversion Ha; subst. rewrite Er. reflexivity.
      * inversion Ha as [|? ? ? s2 ? E Hrest]; subst.
        simpl in E. rewrite E. simpl. apply IH.
        exists pre, r', post, s1. auto.
Qed.

(** When evaluating a rule neither throws nor changes the state, the two
    loops are [forallb] and [existsb]. *)
Lemma everyRule_pure (p : Rule.t -> bool) (rs : list Rule.t) (s : State) :
  (forall r s0, In r rs -> ev r s0 = (Ok (p r), s0)) ->
  everyRule ev rs s = (Ok (forallb p rs), s).
Proof.
  induction rs as [|r rs IH]; intros Hp; simpl.
  - reflexivity.
  - unfold bind. rewrite (Hp r s (or_introl eq_refl)).
    destruct (p r); simpl; [|reflexivity].
    apply IH. intros r' s0 Hr'. apply Hp. right. exact Hr'.
Qed.

Lemma anyRule_pure (p : Rule.t -> bool) (rs : list Rule.t) (s : State) :
  (forall r s0, In r rs -> ev r s0 = (Ok (p r), s0)) ->
  anyRule ev rs s = (Ok (existsb p rs), s).
Proof.
  induction rs as [|r rs IH]; intros Hp; simpl.
  - reflexivity.
  - unfold bind. rewrite (Hp r s (or_introl eq_refl)).
    destruct (p r); simpl; [reflexivity|].
    apply IH. intros r' s0 Hr'. apply Hp. right. exact Hr'.
Qed.

End RuleFacts.

Section RowFilterFacts.
Context {H : Host}.

Lemma bind_ret_r {A} (m : M A) (s : State) : bind m (fun a => ret a) s = m s.
Proof. unfold bind, ret. destruct (m s) as [[a | e] s']; reflexivity. Qed.

(** A rule whose sheet scope does not match does not constrain the row. *)
Lemma evalRule_out_of_scope (row msg : JsVal) (sheet : string) (r : Rule.t)
    (s s1 : State) :
  ruleAppliesTo msg (Rule.sheetScope r) (Rule.sheetScopeType r) sheet row s
    = (Ok false, s1) ->
  evalRule row msg sheet r s = (Ok true, s1).
Proof.
  intros E. unfold evalRule. erewrite bind_ok by exact E. reflexivity.
Qed.

(** C1. The row filter on a rule list: an empty list passes every row;
    under OR the row passes exactly when some rule returns true, and the
    evaluation stops right after the first such rule; otherwise (AND) it
    passes exactly when every rule returns true, and it is rejected exactly
    when some rule returns false, the evaluation stopping right after the
    first such rule.  When evaluating a rule neither throws nor changes the
    host state, the verdict is the disjunction (OR) or the conjunction (AND)
    of the rules' verdicts.  A rule whose sheet scope does not match
    returns true. *)
Theorem rowPasses_logic (rt : Schema) (row msg : JsVal) (sheet : string)
    (s s' : State) :
  match rules rt with
  | [] => rowPasses rt row msg sheet s = (Ok true, s)
  | _ :: _ =>
      if String.eqb (filterLogic rt) "OR" then
        (rowPasses rt row msg sheet s = (Ok true, s')
         <-> first_return (evalRule row msg sheet) true (rules rt) s s')
        /\ (rowPasses rt row msg sheet s = (Ok false, s')
            <-> all_return (evalRule row msg sheet) false (rules rt) s s')
      else
        (rowPasses rt row msg sheet s = (Ok true, s')
         <-> all_return (evalRule row msg sheet) true (rules rt) s s')
        /\ (rowPasses rt row msg sheet s = (Ok false, s')
            <-> first_return (evalRule row msg sheet) false (rules rt) s s')
  end
  /\ (forall p,
        (forall r s0, In r (rules rt) ->
                      evalRule row msg sheet r s0 = (Ok (p r), s0)) ->
        rowPasses rt row msg sheet s
        = (Ok (match rules rt with
               | [] => true
               | _ :: _ => if String.eqb (filterLogic rt) "OR"
                           then existsb p (rules rt)
                           else forallb p (rules rt)
               end), s))
  /\ (forall r s0 s1,
        ruleAppliesTo msg (Rule.sheetScope r) (Rule.sheetScopeType r) sheet row s0
          = (Ok false, s1) ->
        evalRule row msg sheet r s0 = (Ok true, s1)).
Proof.
  split; [|split; [|intros r s0 s1; apply evalRule_out_of_scope]].
  - unfold rowPasses. destruct (rules rt) as [|r0 rs] eqn:Hr.
    + reflexivity.
    + destruct (String.eqb (filterLogic rt) "OR"); split.
      * apply anyRule_true.
      * apply anyRule_false.
      * apply everyRule_true.
      * apply everyRule_false.
  - intros p Hp. unfold rowPasses. destruct (rules rt) as [|r0 rs] eqn:Hr.
    + reflexivity.
    + destruct (String.eqb (filterLogic rt) "OR").
      * apply anyRule_pure, Hp.
      * apply everyRule_pure, Hp.
Qed.

Lemma colNamesOf_nullish (v : JsVal) : nullish v = true -> colNamesOf v = [].
Proof. destruct v; simpl; intros E; try discriminate; reflexivity. Qed.

(** C2. A rule that is not an expression rule, whose sheet scope matches
    and whose column reference resolves to no candidate name ([undefined],
    [null], or a list that is empty after normalization) returns false
    without throwing; under AND the row is rejected at that rule, and the
    filter goes on with the rows that follow. *)
Theorem unresolved_column_rule_is_false (rt : Schema) (row msg : JsVal)
    (sheet : string) (r : Rule.t) (s s1 s2 : State) (v : JsVal) :
  String.eqb (Rule.op r) "jsonata" = false ->
  ruleAppliesTo msg (Rule.sheetScope r) (Rule.sheetScopeType r) sheet row s
    = (Ok true, s1) ->
  resolveColumnName msg r row sheet s1 = (Ok v, s2) ->
  nullish v = true \/ colNamesOf v = [] ->
  evalRule row msg sheet r s = (Ok false, s2)
  /\ (forall rs rest,
        rules rt = r :: rs ->
        String.eqb (filterLogic rt) "OR" = false ->
        rowPasses rt row msg sheet s = (Ok false, s2)
        /\ filterRows rt msg sheet (row :: rest) s
           = filterRows rt msg sheet rest s2).
Proof.
  intros Hop Happ Hcol Hv.
  assert (Hnames : colNamesOf v = []).
  { destruct Hv as [Hn | Hc]; [apply colNamesOf_nullish, Hn | exact Hc]. }
  assert (Hev : evalRule row msg sheet r s = (Ok false, s2)).
  { unfold evalRule. erewrite bind_ok by exact Happ. simpl. rewrite Hop.
    erewrite bind_ok by exact Hcol. rewrite Hnames. reflexivity. }
  split; [exact Hev|].
  intros rs rest Hr Hl.
  assert (Hp : rowPasses rt row msg sheet s = (Ok false, s2)).
  { unfold rowPasses. rewrite Hr, Hl. simpl.
    erewrite bind_ok by exact Hev. reflexivity. }
  split; [exact Hp|].
  simpl. erewrite bind_ok by exact Hp. apply bind_ret_r.
Qed.

Lemma find_eqb_None (want : string) (ks : list string) :
  ~ In want ks -> find (String.eqb want) ks = None.
Proof.
  intros Hn. destruct (find (String.eqb want) ks) as [x|] eqn:E; [|reflexivity].
  apply find_some in E. destruct E as [Hin Heq].
  apply String.eqb_eq in Heq. subst. contradiction.
Qed.

Lemma find_eqb_Some (want : string) (ks : list string) :
  In want ks -> find (String.eqb want) ks = Some want.
Proof.
  intros Hin. destruct (find (String.eqb want) ks) as [x|] eqn:E.
  - apply find_some in E. destruct E as [_ Heq].
    apply String.eqb_eq in Heq. subst. reflexivity.
  - eapply find_none in E; [|exact Hin]. rewrite String.eqb_refl in E. discriminate.
Qed.

(** C6. Select looks a column up tolerantly, a rule exactly.  The exact
    key comes first: keeping a wanted (non-empty) name that is itself a key
    of the row retains that very column, also when a key before it equals
    the wanted name after trimming and lower-casing.  When the row has no key equal to
    the wanted name, keeping it retains the first key equal to it after
    trimming and lower-casing, with its value (and nothing when there is no
    such key, or when that key is the empty name), while a rule on the same
    name finds no column: whatever the comparator, it is applied to no cell
    and the rule is false. *)
Theorem select_is_tolerant_rules_are_exact (row : JsObj) (want : string) :
  (want <> "" -> has_own row want = true ->
   pickSet row [want] = [(want, obj_get row want)])
  /\ (has_own row want = false ->
      pickSet row [want]
      = match js_find (fun x => String.eqb (norm x) (norm want)) (own_keys row) with
        | Some k => if String.eqb k "" then [] else [(k, obj_get row k)]
        | None => []
        end
      /\ (forall cmp, anyColumn cmp (VObj row) [want] = Ok false)
      /\ (forall msg sheet r s,
            String.eqb (Rule.op r) "jsonata" = false ->
            truthy (Rule.sheetScope r) = false ->
            Rule.colType r = "str" ->
            Rule.col r = VStr want ->
            evalRule (VObj row) msg sheet r s
            = bind (resolveRHS msg r (VObj row) sheet) (fun _ => ret false) s)).
Proof.
  split.
  - intros Hne Hown.
    assert (Hin : In want (own_keys row)).
    { rewrite In_own_keys. apply has_own_In, Hown. }
    unfold pickSet, pickKey, js_find. simpl.
    rewrite (find_eqb_Some _ _ Hin).
    apply String.eqb_neq in Hne. cbv beta iota zeta.
    repeat (rewrite Hne; cbv beta iota zeta). reflexivity.
  - intros Hown.
    assert (Hcol : forall cmp, anyColumn cmp (VObj row) [want] = Ok false).
    { intros cmp. simpl. rewrite Hown. reflexivity. }
    split; [|split; [exact Hcol|]].
    + unfold pickSet, pickKey, js_find in *. simpl.
      rewrite find_eqb_None.
      * destruct (find (fun x => String.eqb (norm x) (norm want)) (own_keys row))
          as [k|]; [|reflexivity].
        destruct (String.eqb k ""); reflexivity.
      * rewrite In_own_keys. apply has_own_false, Hown.
    + intros msg sheet r s Hop Hscope Hty Hc.
      unfold evalRule, ruleAppliesTo. rewrite Hscope.
      unfold bind at 1. unfold ret at 1. simpl. rewrite Hop.
      unfold resolveColumnName, resolveDynamic. rewrite Hty, Hc. simpl.
      unfold bind at 1. unfold ret at 1. simpl.
      rewrite Hown. unfold bind.
      destruct (resolveRHS msg r (VObj row) sheet s) as [[rv | e] s']; reflexivity.
Qed.

End RowFilterFacts.

(* ------------------------------------------------------------------ *)
(** ** Rename *)

Lemma pairLoop_fold (fromArr toArr : list string) (steps i : nat) (out : JsObj) :
  pairLoop fromArr toArr steps i out
  = fold_left (fun o p => renameOne o (fst p) (snd p))
      (map (fun i => (nth (Nat.min i (List.length fromArr - 1)) fromArr "",
                      nth (Nat.min i (List.length toArr - 1)) toArr ""))
         (seq i steps))
      out.
Proof.
  revert i out. induction steps as [|n IH]; intros i out; simpl.
  - reflexivity.
  - apply IH.
Qed.

Lemma renameOne_lookup (out : JsObj) (from to k : string) :
  obj_lookup (renameOne out from to) k
  = if String.eqb from "" || String.eqb to "" || String.eqb from to
    then obj_lookup out k
    else if has_own out from
         then (if String.eqb from k then None
               else if String.eqb to k then Some (obj_get out from)
                    else obj_lookup out k)
         else obj_lookup out k.
Proof.
  unfold renameOne.
  destruct (String.eqb from "" || String.eqb to "" || String.eqb from to);
    [reflexivity|].
  destruct (has_own out from); [|reflexivity].
  rewrite obj_lookup_delete, obj_lookup_set. reflexivity.
Qed.

Section RenameFacts.
Context {H : Host}.

(** C3 (as the code has it). A rename entry whose scope matches and whose
    two sides resolve to the lists [F] and [T] rewrites the row built so far
    by the pairwise walk: when both lists are non-empty it visits the pairs
    of index 0 to max(|F|,|T|)-1, each side clamped to its last element; a
    pair is skipped when [from] or [to] is the empty string or [from]
    equals [to]; otherwise, when [from] is an own key, its value is moved to
    key [to], replacing what [to] held, and [from] is gone.  With
    from=["A","B"] and to=["X"] a row holding A and B ends with neither,
    and with X holding B's value.  When a side is empty the row is left as
    it is. *)
Theorem rename_pairwise_semantics (row : JsObj) (msg : JsVal) (sheet : string) :
  (forall it rest out s s1 s2 s3 fromRes toRes,
      ruleAppliesTo msg (RenameItem.sheetScope it) (RenameItem.sheetScopeType it)
        sheet (VObj row) s = (Ok true, s1) ->
      resolveDynamic msg (RenameItem.from it) (RenameItem.fromType it) (VObj row)
        [("sheet", VStr sheet)] s1 = (Ok fromRes, s2) ->
      resolveDynamic msg (RenameItem.to it) (RenameItem.toType it) (VObj row)
        [("sheet", VStr sheet)] s2 = (Ok toRes, s3) ->
      renameLoop row msg sheet (it :: rest) out s
      = renameLoop row msg sheet rest
          (renamePairwise (map to_string (ensureArray fromRes))
             (map to_string (ensureArray toRes)) out) s3)
  /\ (forall F T out,
        F <> [] -> T <> [] ->
        renamePairwise F T out
        = fold_left (fun o p => renameOne o (fst p) (snd p)) (clampedPairs F T) out)
  /\ (forall F T out, F = [] \/ T = [] -> renamePairwise F T out = out)
  /\ (forall out from to,
        (from = "" \/ to = "" \/ from = to -> renameOne out from to = out)
        /\ (has_own out from = false -> renameOne out from to = out)
        /\ (from <> "" -> to <> "" -> from <> to -> has_own out from = true ->
            has_own (renameOne out from to) from = false
            /\ obj_get (renameOne out from to) to = obj_get out from
            /\ (forall k, k <> from -> k <> to ->
                  obj_lookup (renameOne out from to) k = obj_lookup out k)))
  /\ (forall out,
        has_own out "A" = true -> has_own out "B" = true ->
        has_own (renamePairwise ["A"; "B"] ["X"] out) "A" = false
        /\ has_own (renamePairwise ["A"; "B"] ["X"] out) "B" = false
        /\ obj_get (renamePairwise ["A"; "B"] ["X"] out) "X" = obj_get out "B").
Proof.
  split; [|split; [|split; [|split]]].
  - intros it rest out s s1 s2 s3 fromRes toRes Ha Hf Ht. simpl.
    erewrite bind_ok by exact Ha. simpl.
    erewrite bind_ok by exact Hf.
    erewrite bind_ok by exact Ht. reflexivity.
  - intros F T out HF HT. unfold renamePairwise, clampedPairs.
    destruct F; [congruence|]. destruct T; [congruence|].
    simpl negb. cbv iota. apply pairLoop_fold.
  - intros F T out [HF | HT]; subst; unfold renamePairwise; simpl.
    + reflexivity.
    + destruct (Nat.eqb (List.length F) 0); reflexivity.
  - intros out from to. split; [|split].
    + unfold renameOne. intros [E | [E | E]]; subst.
      * reflexivity.
      * rewrite orb_true_r. reflexivity.
      * rewrite String.eqb_refl, orb_true_r. reflexivity.
    + unfold renameOne. intros E. rewrite E.
      destruct (String.eqb from "" || String.eqb to "" || String.eqb from to);
        reflexivity.
    + intros Hf Ht Hft Hown.
      apply String.eqb_neq in Hf, Ht, Hft.
      assert (Hl : forall k, obj_lookup (renameOne out from to) k
                 = if String.eqb from k then None
                   else if String.eqb to k then Some (obj_get out from)
                        else obj_lookup out k).
      { intros k. rewrite renameOne_lookup, Hf, Ht, Hft, Hown. reflexivity. }
      split; [|split].
      * unfold has_own. rewrite Hl, String.eqb_refl. reflexivity.
      * unfold obj_get at 1. rewrite Hl, Hft, String.eqb_refl. reflexivity.
      * intros k Hkf Hkt. rewrite Hl.
        apply not_eq_sym in Hkf, Hkt. apply String.eqb_neq in Hkf, Hkt.
        rewrite Hkf, Hkt. reflexivity.
  - intros out HA HB.
    assert (E : renamePairwise ["A"; "B"] ["X"] out
              = renameOne (renameOne out "A" "X") "B" "X") by reflexivity.
    rewrite E. clear E.
    assert (HB1 : has_own (renameOne out "A" "X") "B" = true).
    { unfold has_own. rewrite renameOne_lookup. fold (has_own out "A").
      rewrite HA. simpl. exact HB. }
    assert (HgetB : obj_get (renameOne out "A" "X") "B" = obj_get out "B").
    { unfold obj_get. rewrite renameOne_lookup, HA. reflexivity. }
    split; [|split].
    + unfold has_own at 1. rewrite renameOne_lookup, HB1. simpl.
      rewrite renameOne_lookup, HA. reflexivity.
    + unfold has_own at 1. rewrite renameOne_lookup, HB1. reflexivity.
    + unfold obj_get at 1. rewrite renameOne_lookup, HB1. simpl.
      exact HgetB.
Qed.

End RenameFacts.

(* ------------------------------------------------------------------ *)
(** ** Select *)

Lemma NoDup_map_In_inj {A B} (f : A -> B) (l : list A) (a b : A) :
  NoDup (map f l) -> In a l -> In b l -> f a = f b -> a = b.
Proof.
  induction l as [|x l IH]; simpl; intros Hnd Ha Hb Hf; [contradiction|].
  inversion Hnd as [|? ? Hx Hl]; subst.
  destruct Ha as [Ha | Ha], Hb as [Hb | Hb]; subst.
  - reflexivity.
  - exfalso. apply Hx. rewrite Hf. apply in_map, Hb.
  - exfalso. apply Hx. rewrite <- Hf. apply in_map, Ha.
  - apply IH; assumption.
Qed.

Section KeepFacts.
Context {H : Host}.

(** What [pickKey] returns is a non-empty key that matches the wanted
    name after normalization. *)
Lemma pickKey_Some (keys : list string) (want k : string) :
  pickKey keys want = Some k ->
  In k keys /\ k <> "" /\ norm k = norm want.
Proof.
  unfold pickKey, js_find.
  assert (Htol : forall y,
             match find (fun x => String.eqb (norm x) (norm want)) keys with
             | Some x => if String.eqb x "" then None else Some x
             | None => None
             end = Some y ->
             In y keys /\ y <> "" /\ norm y = norm want).
  { intros y.
    destruct (find (fun x => String.eqb (norm x) (norm want)) keys) as [x|] eqn:E;
      [|discriminate].
    destruct (String.eqb x "") eqn:Ex; [discriminate|].
    intros Hy; inversion Hy; subst.
    apply find_some in E. destruct E as [Hin Hn].
    apply String.eqb_eq in Hn. apply String.eqb_neq in Ex. auto. }
  destruct (find (String.eqb want) keys) as [x|] eqn:E.
  - destruct (String.eqb x "") eqn:Ex.
    + apply Htol.
    + rewrite Ex. intros Hk; inversion Hk; subst.
      apply find_some in E. destruct E as [Hin Heq].
      apply String.eqb_eq in Heq. apply String.eqb_neq in Ex. subst.
      repeat split; assumption || reflexivity.
  - apply Htol.
Qed.

Lemma pickKey_exact (keys : list string) (want : string) :
  In want keys -> want <> "" -> pickKey keys want = Some want.
Proof.
  intros Hin Hne. unfold pickKey, js_find.
  rewrite (find_eqb_Some _ _ Hin).
  apply String.eqb_neq in Hne. cbv beta iota zeta.
  repeat (rewrite Hne; cbv beta iota zeta). reflexivity.
Qed.

Lemma In_pickedKeys (keys set : list string) (k : string) :
  In k (pickedKeys keys set) <-> exists want, In want set /\ pickKey keys want = Some k.
Proof.
  unfold pickedKeys. rewrite in_flat_map. split.
  - intros [w [Hw Hk]]. exists w. split; [exact Hw|].
    destruct (pickKey keys w); simpl in Hk; [|contradiction].
    destruct Hk as [Hk | []]. subst. reflexivity.
  - intros [w [Hw Hk]]. exists w. split; [exact Hw|].
    rewrite Hk. simpl. auto.
Qed.

Lemma pickSet_fold (row : JsObj) (set : list string) :
  pickSet row set
  = fold_left (fun acc k => obj_set acc k (obj_get row k))
      (pickedKeys (own_keys row) set) [].
Proof.
  unfold pickSet, pickedKeys. generalize (@nil (string * JsVal)) as acc.
  induction set as [|w set IH]; intros acc; simpl.
  - reflexivity.
  - rewrite fold_left_app, IH.
    destruct (pickKey (own_keys row) w); reflexivity.
Qed.

Lemma fold_set_ext (f g : string -> JsVal) (ks : list string) (base : JsObj) :
  (forall k, In k ks -> f k = g k) ->
  fold_left (fun acc k => obj_set acc k (f k)) ks base
  = fold_left (fun acc k => obj_set acc k (g k)) ks base.
Proof.
  revert base. induction ks as [|k ks IH]; intros base Hfg; simpl.
  - reflexivity.
  - rewrite (Hfg k (or_introl eq_refl)). apply IH.
    intros k' Hk'. apply Hfg. right. exact Hk'.
Qed.

Lemma keys_pickSet (row : JsObj) (set : list string) (k : string) :
  In k (own_keys (pickSet row set)) <-> In k (pickedKeys (own_keys row) set).
Proof.
  rewrite In_own_keys, pickSet_fold, keys_fold_set. simpl. tauto.
Qed.

Lemma obj_get_pickSet (row : JsObj) (set : list string) (k : string) :
  In k (pickedKeys (own_keys row) set) ->
  obj_get (pickSet row set) k = obj_get row k.
Proof.
  intros Hin. unfold obj_get at 1.
  rewrite pickSet_fold, obj_lookup_fold_set.
  apply existsb_eqb_In in Hin. rewrite Hin. reflexivity.
Qed.

Lemma unambiguous_wanted (row : JsObj) (set : list string) :
  NoDup (map norm set) -> unambiguous row set.
Proof.
  intros Hnd w x Hw Hx Hn.
  apply keys_pickSet, In_pickedKeys in Hx. destruct Hx as [w' [Hw' Hp]].
  destruct (pickKey_Some _ _ Hp) as (_ & _ & Hn').
  assert (w' = w).
  { apply (NoDup_map_In_inj norm set); auto. congruence. }
  subst. exact Hp.
Qed.

Lemma unambiguous_keys (row : JsObj) (set : list string) :
  NoDup (map norm (own_keys row)) -> unambiguous row set.
Proof.
  intros Hnd w x Hw Hx Hn.
  apply keys_pickSet, In_pickedKeys in Hx. destruct Hx as [w' [Hw' Hp]].
  destruct (pickKey_Some _ _ Hp) as (Hin & Hne & _).
  unfold pickKey, js_find.
  assert (Htol : match find (fun y => String.eqb (norm y) (norm w)) (own_keys row) with
                 | Some y => if String.eqb y "" then None else Some y
                 | None => None
                 end = Some x).
  { destruct (find (fun y => String.eqb (norm y) (norm w)) (own_keys row))
      as [y|] eqn:E.
    - apply find_some in E. destruct E as [Hy Hny].
      apply String.eqb_eq in Hny.
      assert (y = x).
      { apply (NoDup_map_In_inj norm (own_keys row)); auto. congruence. }
      subst y. apply String.eqb_neq in Hne. rewrite Hne. reflexivity.
    - eapply find_none in E; [|exact Hin].
      rewrite Hn, String.eqb_refl in E. discriminate. }
  destruct (find (String.eqb w) (own_keys row)) as [y|] eqn:E; [|exact Htol].
  apply find_some in E. destruct E as [Hy Heq].
  apply String.eqb_eq in Heq. subst y.
  assert (w = x).
  { apply (NoDup_map_In_inj norm (own_keys row)); auto. }
  subst w. apply String.eqb_neq in Hne. cbv beta iota zeta.
  repeat (rewrite Hne; cbv beta iota zeta). reflexivity.
Qed.

(** On the projected row every wanted name picks the key it picked on
    the row itself. *)
Lemma pickKey_stable (row : JsObj) (set : list string) (want : string) :
  unambiguous row set -> In want set ->
  pickKey (own_keys (pickSet row set)) want = pickKey (own_keys row) want.
Proof.
  intros Hu Hw.
  set (K1 := own_keys (pickSet row set)).
  assert (Hsub : forall x, In x K1 -> In x (own_keys row) /\ x <> "").
  { intros x Hx. apply keys_pickSet, In_pickedKeys in Hx.
    destruct Hx as [w' [_ Hp]]. apply pickKey_Some in Hp. tauto. }
  destruct (in_dec string_dec want K1) as [Hin | Hnin].
  - destruct (Hsub _ Hin) as [HinK Hne].
    rewrite (pickKey_exact _ Hin Hne), (pickKey_exact _ HinK Hne). reflexivity.
  - unfold pickKey at 1. unfold js_find.
    rewrite find_eqb_None by exact Hnin.
    destruct (find (fun x => String.eqb (norm x) (norm want)) K1) as [x|] eqn:E.
    + apply find_some in E. destruct E as [Hx Hn].
      apply String.eqb_eq in Hn.
      destruct (Hsub _ Hx) as [_ Hne].
      apply String.eqb_neq in Hne. rewrite Hne.
      symmetry. apply Hu; assumption.
    + destruct (pickKey (own_keys row) want) as [k|] eqn:Ek; [|reflexivity].
      exfalso.
      assert (Hk : In k K1).
      { apply keys_pickSet, In_pickedKeys. exists want. auto. }
      eapply find_none in E; [|exact Hk].
      apply pickKey_Some in Ek. destruct Ek as (_ & _ & Hn).
      rewrite Hn, String.eqb_refl in E. discriminate.
Qed.

Lemma pickedKeys_stable (row : JsObj) (set : list string) :
  unambiguous row set ->
  pickedKeys (own_keys (pickSet row set)) set = pickedKeys (own_keys row) set.
Proof.
  intros Hu. unfold pickedKeys.
  assert (Hgen : forall l, (forall w, In w l -> In w set) ->
            flat_map (fun want => match pickKey (own_keys (pickSet row set)) want with
                                  | Some k => [k] | None => [] end) l
            = flat_map (fun want => match pickKey (own_keys row) want with
                                    | Some k => [k] | None => [] end) l).
  { induction l as [|w l IH]; intros Hl; simpl; [reflexivity|].
    rewrite (pickKey_stable _ Hu (Hl w (or_introl eq_refl))), IH; [reflexivity|].
    intros w' Hw'. apply Hl. right. exact Hw'. }
  apply Hgen. auto.
Qed.

(** C7 (as the code has it). Keeping the column set [X] twice gives the
    row that keeping it once gives, whenever no two wanted names of [X], or
    no two column names of the row, coincide after trimming and
    lower-casing. *)
Theorem pickSet_idempotent (row : JsObj) (X : list string) :
  NoDup (map norm X) \/ NoDup (map norm (own_keys row)) ->
  pickSet (pickSet row X) X = pickSet row X.
Proof.
  intros Hnd.
  assert (Hu : unambiguous row X).
  { destruct Hnd; [apply unambiguous_wanted | apply unambiguous_keys]; assumption. }
  rewrite (pickSet_fold (pickSet row X)), (pickedKeys_stable Hu).
  etransitivity; [|symmetry; apply pickSet_fold].
  apply fold_set_ext. intros k Hk. apply obj_get_pickSet, Hk.
Qed.

End KeepFacts.

(* ------------------------------------------------------------------ *)
(** ** Conditional rename *)

Section ConditionalFacts.
Context {H : Host}.

(** The condition never throws: a failure while resolving or comparing
    makes it false. *)
Lemma conditionTrue_total (rt : Schema) (msg : JsVal) (s : State) :
  exists c s1, conditionTrue rt msg s = (Ok c, s1).
Proof.
  unfold conditionTrue, try_catch.
  match goal with |- context [match ?m s with _ => _ end] =>
    destruct (m s) as [[c | e] s1] end.
  - exists c, s1. reflexivity.
  - exists false, s1. reflexivity.
Qed.

(** C4 (as the code has it). The conditional-rename condition takes the
    message and no row or sheet; when conditional rename is enabled it is
    evaluated once for each sheet that is processed, before any row of that
    sheet is renamed, and its truth value gates the conditional rename list
    for every row of that sheet: true sends each row through the list,
    false leaves all of them as they are.  The stage runs on the rows the
    static rename stage returns. *)
Theorem conditional_rename_gate_per_sheet (rt : Schema) (msg : JsVal)
    (sheetName : string) (transformed : list JsObj) (s : State) :
  (exists c s1,
      conditionTrue rt msg s = (Ok c, s1)
      /\ conditionalRenameStage rt msg sheetName transformed s
         = if truthy (ConditionalRename.enabled (conditionalRename rt))
           then if c
                then mapM (fun r => renameWithList r msg sheetName
                                      (ConditionalRename.list (conditionalRename rt)))
                       transformed s1
                else (Ok transformed, s1)
           else (Ok transformed, s))
  /\ (forall filtered,
        transformRows rt msg sheetName filtered s
        = bind (selectStage rt msg sheetName (map (fun r => spread [] r) filtered))
            (fun selected =>
               bind (renameStage rt msg sheetName selected)
                 (fun renamed =>
                    bind (conditionalRenameStage rt msg sheetName renamed)
                      (fun cRenamed => deriveStage rt msg sheetName cRenamed)))
            s).
Proof.
  split; [|reflexivity].
  destruct (conditionTrue_total rt msg s) as (c & s1 & Hc).
  exists c, s1. split; [exact Hc|].
  unfold conditionalRenameStage.
  destruct (truthy (ConditionalRename.enabled (conditionalRename rt)));
    [|reflexivity].
  erewrite bind_ok by exact Hc. destruct c; reflexivity.
Qed.

End ConditionalFacts.

(* ------------------------------------------------------------------ *)
(** ** The properties on examples *)

Module Runs.
Import ExampleHost Examples.

(** A rule with no column reference is false, the row is rejected, and
    the rows after it are filtered as usual. *)
Lemma unresolved_column_example :
  evalRule rowOK msgNoData "Sheet1" ruleNoColumn s0 = (Ok false, s0)
  /\ (forall rs rest,
        rules withRuleNoColumn = ruleNoColumn :: rs ->
        String.eqb (filterLogic withRuleNoColumn) "OR" = false ->
        rowPasses withRuleNoColumn rowOK msgNoData "Sheet1" s0 = (Ok false, s0)
        /\ filterRows withRuleNoColumn msgNoData "Sheet1" (rowOK :: rest) s0
           = filterRows withRuleNoColumn msgNoData "Sheet1" rest s0).
Proof.
  apply (@unresolved_column_rule_is_false host withRuleNoColumn rowOK msgNoData
           "Sheet1" ruleNoColumn s0 s0 s0 VUndef).
  - reflexivity.
  - reflexivity.
  - reflexivity.
  - left. reflexivity.
Defined.

(** Header [" Name "]: keeping ["name"] retains the column; a rule on
    ["name"] reaches no cell.  Headers ["A"] and ["a "]: keeping ["a "]
    retains the column of that exact name, not the first one that matches
    it after trimming and lower-casing. *)
Lemma tolerant_select_example :
  pickSet rowName ["name"] = [(" Name ", obj_get rowName " Name ")]
  /\ pickSet rowTwoA ["a "] = [("a ", VStr "2")]
  /\ pickSet rowTwoA ["a"] = [("A", VStr "1")]
  /\ (forall cmp, anyColumn cmp (VObj rowName) ["name"] = Ok false)
  /\ (forall msg sheet r s,
        String.eqb (Rule.op r) "jsonata" = false ->
        truthy (Rule.sheetScope r) = false ->
        Rule.colType r = "str" ->
        Rule.col r = VStr "name" ->
        evalRule (VObj rowName) msg sheet r s
        = bind (resolveRHS msg r (VObj rowName) sheet) (fun _ => ret false) s).
Proof.
  destruct (@select_is_tolerant_rules_are_exact host rowName "name")
    as [_ Htolerant].
  destruct (Htolerant eq_refl) as (Hkeep & Hcell & Hrule).
  split; [exact Hkeep|].
  split.
  { apply (proj1 (@select_is_tolerant_rules_are_exact host rowTwoA "a ")).
    - discriminate.
    - reflexivity. }
  split.
  { apply (proj2 (@select_is_tolerant_rules_are_exact host rowTwoA "a")).
    reflexivity. }
  split; [exact Hcell | exact Hrule].
Defined.

(** A message without [data]: one error, nothing sent. *)
Lemma malformed_input_example :
  onInput plain msgNoData true s0
  = (Ok tt,
     mkState (world s0)
       (events s0
        ++ [EStatus "blue" "dot" "processing...";
            EStatus "red" "ring" input_error;
            EError input_error msgNoData]
        ++ [EDone (Some input_error)])).
Proof.
  apply (@malformed_input_fails_whole_invocation host plain msgNoData true s0
           (mkState (world s0) (events s0 ++ [EStatus "blue" "dot" "processing..."]))
           VUndef).
  - reflexivity.
  - left. reflexivity.
Defined.

(** Distinct wanted names after normalization: keeping twice is keeping
    once. *)
Lemma pickSet_idempotent_example :
  pickSet (pickSet rowName ["name"; "AGE"]) ["name"; "AGE"]
  = pickSet rowName ["name"; "AGE"].
Proof.
  apply (@pickSet_idempotent host rowName ["name"; "AGE"]).
  left. change (NoDup ["name"; "age"]).
  constructor.
  - simpl. intros [E | []]. discriminate E.
  - constructor.
    + simpl. intros [].
    + constructor.
Defined.

(** The scenario of the specification, flat output: the row with amount
    10 is kept, the summary counts two rows in and one out. *)
Lemma amount_scenario_flat :
  onInput (amountFilter "flat") msgBook1 true s0
  = (Ok tt,
     mkState (H := host) 0
       [EStatus "blue" "dot" "processing...";
        EStatus "green" "dot" "1/2 rows";
        ESend
          (VObj
             [("data", book1);
              ("filtered",
               VObj
                 [("data",
                   VArr [VObj [("_file", VStr "Book1.xlsx");
                               ("_sheet", VStr "Sheet1");
                               ("Status", VStr "OK");
                               ("Amount", VStr "10")]]);
                  ("summary",
                   VObj [("fileCount", VNum 1); ("sheetCount", VNum 1);
                         ("rowIn", VNum 2); ("rowOut", VNum 1);
                         ("filteredRatio", VNum 0.5)]);
                  ("rules", VObj [("logic", VStr "AND"); ("count", VNum 1)])])]);
        EDone None]).
Proof. reflexivity. Qed.

(** from=["A","B"], to=["X"] on a row with A, B and C: only C and X are
    left, and X holds B's value. *)
Lemma rename_fan_in_example :
  renameWithList rowABC msgNoData "Sheet1" [renameFanIn] s0
  = (Ok [("C", VStr "3"); ("X", VStr "2")], s0).
Proof. reflexivity. Qed.

(** C3, the claim as stated fails: from ["A"] to [""] are two non-empty
    lists, the names differ and the row has key [A], yet the entry leaves
    the row as it is; nothing is moved to the key [""]. *)
Lemma rename_to_empty_name_is_skipped :
  map to_string (ensureArray (RenameItem.from renameToEmpty)) = ["A"]
  /\ map to_string (ensureArray (RenameItem.to renameToEmpty)) = [""]
  /\ String.eqb "A" "" = false
  /\ has_own rowA "A" = true
  /\ renameWithList rowA msgNoData "Sheet1" [renameToEmpty] s0 = (Ok rowA, s0)
  /\ has_own rowA "" = false.
Proof. repeat split. Qed.

(** C5, the claim as stated fails: for a batch with no row the ratio is
    the value [null], a property that is present, not [undefined]. *)
Lemma filteredRatio_is_null_without_rows :
  processFiles plain msgNoData None None emptySheetFiles emptyAcc s0
  = (Ok (mkAcc [("Book1.xlsx", VObj [("Sheet1", VArr [])])] 1 1 0 0), s0)
  /\ obj_lookup
       (summaryOf (mkAcc [("Book1.xlsx", VObj [("Sheet1", VArr [])])] 1 1 0 0))
       "filteredRatio"
     = Some VNull.
Proof. split; reflexivity. Qed.

(** C7, the claim as stated fails: with the headers ["A"] and ["a "] and
    the wanted names ["a "] and ["a"], keeping once retains both columns,
    keeping again loses column [A]. *)
Lemma pickSet_twice_drops_a_column :
  pickSet rowTwoA ["a "; "a"] = [("a ", VStr "2"); ("A", VStr "1")]
  /\ pickSet (pickSet rowTwoA ["a "; "a"]) ["a "; "a"] = [("a ", VStr "2")].
Proof. split; reflexivity. Qed.

(** C8, the claim as stated fails: the name ["~$tmp/Book1.xlsx"] starts
    with the prefix, its base name does not, and the file is processed and
    counted. *)
Lemma prefixed_folder_is_processed :
  startsWith "~$tmp/Book1.xlsx" "~$" = true
  /\ basename "~$tmp/Book1.xlsx" = "Book1.xlsx"
  /\ processFiles plain msgNoData None None folderFiles emptyAcc s0
     = (Ok (mkAcc [("~$tmp/Book1.xlsx", VObj [("Sheet1", VArr [VObj rowA])])]
              1 1 1 1), s0).
Proof. repeat split. Qed.

(** A lock file inside a folder is skipped although its name does not
    start with the prefix. *)
Lemma lock_file_in_folder_is_skipped :
  startsWith "/data/~$Book1.xlsx" "~$" = false
  /\ processFiles plain msgNoData None None lockFiles emptyAcc s0
     = (Ok emptyAcc, s0).
Proof. split; reflexivity. Qed.

(** C4, the claim as stated fails: on a batch of two sheets the condition
    is evaluated twice (the world counts the evaluations), it is true for
    the first sheet and false for the second, and the same row is renamed
    in [S1] and left alone in [S2]. *)
Lemma condition_is_evaluated_for_each_sheet :
  processFiles conditional msgNoData None None twoSheets emptyAcc s0
  = (Ok (mkAcc
           [("Book1.xlsx",
             VObj [("S1", VArr [VObj [("X", VStr "1")]]);
                   ("S2", VArr [VObj [("A", VStr "1")]])])]
           1 2 2 2),
     mkState (H := host) 2 []).
Proof. reflexivity. Qed.

End Runs.

(* ================================================================== *)
(** * Further properties of the code *)

(* ------------------------------------------------------------------ *)
(** ** Configuration defaults *)

Lemma coalesce_not_nullish (a b : JsVal) :
  nullish b = false -> nullish (coalesce a b) = false.
Proof. unfold coalesce. destruct (nullish a) eqn:E; auto. Qed.

Lemma coalesce_idem (a b : JsVal) :
  nullish b = false -> coalesce (coalesce a b) b = coalesce a b.
Proof.
  intros Hb. unfold coalesce at 1.
  rewrite coalesce_not_nullish by exact Hb. reflexivity.
Qed.

Lemma array_or_empty_isArray (v : JsVal) : isArray (array_or_empty v) = true.
Proof. unfold array_or_empty. destruct (isArray v) eqn:E; auto. Qed.

Lemma array_or_empty_idem (v : JsVal) :
  array_or_empty (array_or_empty v) = array_or_empty v.
Proof. unfold array_or_empty at 1. rewrite array_or_empty_isArray. reflexivity. Qed.

Lemma array_or_empty_not_nullish (v : JsVal) : nullish (array_or_empty v) = false.
Proof. unfold array_or_empty. destruct v; reflexivity. Qed.

Lemma js_or_not_nullish (a b : JsVal) :
  nullish b = false -> nullish (js_or a b) = false.
Proof.
  intros Hb. unfold js_or. destruct (truthy a) eqn:E; [|exact Hb].
  destruct a; simpl in *; congruence.
Qed.

Lemma defaultsOf_complete (schema : JsVal) : complete_schema (defaultsOf schema).
Proof.
  unfold complete_schema, defaultsOf, listSettings, obj_get. simpl.
  repeat split;
    repeat (constructor; simpl);
    try (apply coalesce_not_nullish; reflexivity);
    try apply array_or_empty_not_nullish;
    try apply array_or_empty_isArray;
    try reflexivity.
  - eexists. repeat split;
      repeat (constructor; simpl);
      try (apply coalesce_not_nullish; reflexivity);
      try apply array_or_empty_not_nullish;
      try apply array_or_empty_isArray;
      try reflexivity.
  - eexists. repeat split;
      repeat (constructor; simpl);
      try (apply coalesce_not_nullish; reflexivity);
      try reflexivity.
Qed.

Lemma defaultsOf_fixed (schema : JsVal) :
  defaultsOf (VObj (defaultsOf schema)) = defaultsOf schema.
Proof.
  cbv -[coalesce array_or_empty].
  rewrite !coalesce_idem by reflexivity.
  rewrite !array_or_empty_idem. reflexivity.
Qed.

Lemma js_or_truthy (a b : JsVal) : truthy b = true -> truthy (js_or a b) = true.
Proof. intros Hb. unfold js_or. destruct (truthy a) eqn:E; assumption. Qed.

Lemma coalesce_truthy (a b : JsVal) : truthy a = true -> coalesce a b = a.
Proof. intros Ha. unfold coalesce. destruct a; simpl in *; congruence. Qed.

(** X1. [withDefaults] fails on [null] only; for every other argument,
    [undefined] included, it returns a schema in which all twelve settings
    are present and none is [undefined] or [null], the four list settings
    and the conditional rename list are arrays, and the nested
    [conditionalRename] and [output] objects are complete as well. *)
Theorem withDefaults_gives_complete_schema :
  (exists e, withDefaults VNull = Throw e)
  /\ (forall schema,
        schema <> VNull ->
        exists d, withDefaults schema = Ok d /\ complete_schema d).
Proof.
  split.
  - eexists. reflexivity.
  - intros schema Hs.
    destruct schema; try congruence;
      (eexists; split; [reflexivity | apply defaultsOf_complete]).
Qed.

(** X2. [withDefaults] is idempotent: applied to a schema it returned, it
    returns that schema again. *)
Theorem withDefaults_idempotent (schema : JsVal) (d : JsObj) :
  withDefaults schema = Ok d -> withDefaults (VObj d) = Ok d.
Proof.
  intros Hd. simpl.
  destruct schema; simpl in Hd; inversion Hd; subst;
    rewrite defaultsOf_fixed; reflexivity.
Qed.

(** X3. Loading the runtime schema from a parsed configuration file never
    fails, whatever the file holds ([null], no [schema], a [schema] that is
    [null] or not an object): the result is always a complete schema. *)
Theorem config_file_schema_never_fails (fileObj : JsVal) :
  exists d, setRuntimeSchemaFromFile fileObj = Ok d /\ complete_schema d.
Proof.
  unfold setRuntimeSchemaFromFile, js_or.
  destruct (truthy (opt_prop fileObj "schema")) eqn:E.
  - destruct (opt_prop fileObj "schema"); simpl in E; try discriminate;
      (eexists; split; [reflexivity | apply defaultsOf_complete]).
  - eexists. split; [reflexivity | apply defaultsOf_complete].
Qed.

(** X4. The runtime schema built from the editor's configuration never
    fails and is complete; a text setting left empty in the editor takes
    its default, so the input path, the input scope, the filter logic and
    the select mode are never empty; the conditional rename switch is a
    boolean; and the summary is included unless the configuration has an
    [includeSummary] property that is falsy. *)
Theorem embedded_schema_defaults (config : JsObj) :
  exists d,
    embeddedToSchemaObj config = Ok d
    /\ complete_schema d
    /\ Forall (fun k => truthy (obj_get d k) = true)
         ["inputPath"; "inputPathType"; "filterLogic"; "selectMode"]
    /\ get_prop (obj_get d "conditionalRename") "enabled"
       = VBool (truthy (obj_get config "conditionalRenameEnabled"))
    /\ get_prop (obj_get d "output") "includeSummary"
       = VBool (negb (has_own config "includeSummary")
                || truthy (obj_get config "includeSummary")).
Proof.
  eexists. split; [reflexivity|]. split; [apply defaultsOf_complete|].
  split; [|split].
  - repeat constructor;
      cbv -[coalesce js_or truthy];
      (rewrite coalesce_truthy; apply js_or_truthy; reflexivity).
  - cbv -[truthy]. reflexivity.
  - destruct (has_own config "includeSummary"); cbv -[truthy]; reflexivity.
Qed.

(* ------------------------------------------------------------------ *)
(** ** Expression text and coercion *)

Lemma stripped3_lead (a b c : ascii) :
  stripped3 a b c = true ->
  (nat_of_ascii a =? 226) || (nat_of_ascii a =? 239) = true.
Proof.
  unfold stripped3.
  destruct (nat_of_ascii a =? 226), (nat_of_ascii a =? 239); simpl; auto.
Qed.

Lemma strip_marks_cons_clean (c : ascii) (s : string) :
  negb (nat_of_ascii c =? 226) && negb (nat_of_ascii c =? 239) = true ->
  strip_marks (String c s) = String c (strip_marks s).
Proof.
  intros Hc. destruct s as [|b [|d s'']]; try reflexivity.
  simpl. destruct (stripped3 c b d) eqn:E; [|reflexivity].
  apply stripped3_lead in E.
  destruct (nat_of_ascii c =? 226), (nat_of_ascii c =? 239); discriminate.
Qed.

Lemma strip_marks_clean_prefix (a r : string) :
  no_mark_lead a = true -> strip_marks (a ++ r) = (a ++ strip_marks r)%string.
Proof.
  induction a as [|c a IH]; intros Ha.
  - reflexivity.
  - simpl in Ha. apply andb_prop in Ha. destruct Ha as [Hc Ha].
    change (strip_marks (String c (a ++ r)) = String c (a ++ strip_marks r)).
    rewrite strip_marks_cons_clean by exact Hc. rewrite IH by exact Ha.
    reflexivity.
Qed.

Lemma strip_marks_mark (m r : string) :
  is_mark m -> strip_marks (m ++ r) = strip_marks r.
Proof.
  intros (a & b & c & Hm & Hs). subst m. simpl. rewrite Hs. reflexivity.
Qed.

Section TextFacts.
Context {H : Host}.

Lemma sanitizeExpr_text (s : string) :
  sanitizeExpr (VStr s) = trim (strip_marks s).
Proof.
  unfold sanitizeExpr, js_or. simpl.
  destruct (String.eqb s "") eqn:E; simpl; [|reflexivity].
  apply String.eqb_eq in E. subst. reflexivity.
Qed.

(** X5. An expression with a zero-width character (U+200B..U+200D,
    U+FEFF) or the arrow U+2192 pasted into it sanitises to the same text
    as the expression without it, for every text before the mark that
    holds no byte starting such a character (plain ASCII text in
    particular) and every text after it. *)
Theorem sanitizeExpr_removes_marks (a m b : string) :
  no_mark_lead a = true ->
  is_mark m ->
  sanitizeExpr (VStr (a ++ m ++ b)) = sanitizeExpr (VStr (a ++ b)).
Proof.
  intros Ha Hm. rewrite !sanitizeExpr_text.
  rewrite (@strip_marks_clean_prefix a (m ++ b) Ha).
  rewrite (@strip_marks_clean_prefix a b Ha).
  rewrite strip_marks_mark by exact Hm. reflexivity.
Qed.

(** X6. [coerceVal] changes strings only; a blank string stays a string
    (it is not turned into the number 0); a number it produces is never
    NaN; a boolean it produces comes from the text [true] or [false]
    between blanks; and coercing twice is coercing once. *)
Theorem coerceVal_behaviour :
  (forall v, is_string v = false -> coerceVal v = v)
  /\ (forall s, trim s = "" -> coerceVal (VStr s) = VStr s)
  /\ (forall v n, coerceVal v = VNum n -> v = VNum n \/ PrimFloat.is_nan n = false)
  /\ (forall v b, coerceVal v = VBool b ->
        v = VBool b
        \/ exists s, v = VStr s /\ trim s = (if b then "true" else "false"))
  /\ (forall v, coerceVal (coerceVal v) = coerceVal v).
Proof.
  split; [|split; [|split; [|split]]].
  - intros v Hv. destruct v; try reflexivity. discriminate.
  - intros s Hs. unfold coerceVal. rewrite Hs. reflexivity.
  - intros v n. destruct v; simpl; try discriminate; try (intros E; left; exact E).
    destruct (String.eqb (trim s) "true"); [discriminate|].
    destruct (String.eqb (trim s) "false"); [discriminate|].
    destruct (negb (String.eqb (trim s) "")); simpl; [|discriminate].
    destruct (PrimFloat.is_nan (Number_of_string (trim s))) eqn:E; simpl;
      [discriminate|].
    intros Hn. inversion Hn; subst. right. exact E.
  - intros v b. destruct v; simpl; try discriminate; try (intros E; left; exact E).
    destruct (String.eqb (trim s) "true") eqn:Et.
    + intros Hb. inversion Hb; subst. right. exists s. split; [reflexivity|].
      apply String.eqb_eq, Et.
    + destruct (String.eqb (trim s) "false") eqn:Ef.
      * intros Hb. inversion Hb; subst. right. exists s. split; [reflexivity|].
        apply String.eqb_eq, Ef.
      * destruct (negb (String.eqb (trim s) "")
                  && negb (PrimFloat.is_nan (Number_of_string (trim s))));
          discriminate.
  - intros v. destruct v; try reflexivity. simpl.
    destruct (String.eqb (trim s) "true") eqn:Et; [reflexivity|].
    destruct (String.eqb (trim s) "false") eqn:Ef; [reflexivity|].
    destruct (negb (String.eqb (trim s) "")
              && negb (PrimFloat.is_nan (Number_of_string (trim s)))) eqn:En;
      [reflexivity|].
    simpl. rewrite Et, Ef, En. reflexivity.
Qed.

End TextFacts.

(* ------------------------------------------------------------------ *)
(** ** Scopes, dynamic values and candidate columns *)

Section ResolveFacts.
Context {H : Host}.

(** X7. On a row that is an object, a rule's candidate columns are tried
    without ever throwing, and the result is true exactly when some
    candidate is an own key of the row whose cell satisfies the comparator
    (so the order of the candidates does not matter); with no candidate
    the result is false for any row; on a row that is [null] or
    [undefined] the first candidate throws. *)
Theorem anyColumn_on_rows (cmp : JsVal -> bool) :
  (forall row colNames,
      anyColumn cmp (VObj row) colNames
      = Ok (existsb (fun cn => has_own row cn && cmp (obj_get row cn)) colNames))
  /\ (forall row, anyColumn cmp row [] = Ok false)
  /\ (forall row cn rest,
        nullish row = true -> exists e, anyColumn cmp row (cn :: rest) = Throw e).
Proof.
  split; [|split].
  - intros row colNames. induction colNames as [|cn rest IH]; simpl.
    + reflexivity.
    + destruct (has_own row cn); simpl; [|exact IH].
      destruct (cmp (obj_get row cn)); [reflexivity | exact IH].
  - reflexivity.
  - intros row cn rest Hn.
    destruct row; simpl in Hn; try discriminate; eexists; reflexivity.
Qed.

(** X8. The sheet-scope check never throws and logs nothing: a failing
    scope expression or an invalid scope pattern makes it false.  A scope
    that is absent (empty, [undefined], [null]) applies to every sheet and
    leaves the host state alone; a literal scope applies exactly to the
    sheet of that name. *)
Theorem ruleAppliesTo_never_throws (msg sheetScope : JsVal) (sheetScopeType : string)
    (sheet : string) (rowCtx : JsVal) (s : State) :
  exists b s',
    ruleAppliesTo msg sheetScope sheetScopeType sheet rowCtx s = (Ok b, s')
    /\ events s' = events s
    /\ (truthy sheetScope = false -> b = true /\ s' = s)
    /\ (truthy sheetScope = true ->
        sheetScopeType = "" \/ sheetScopeType = "str" ->
        b = strict_eq_str sheet sheetScope /\ s' = s)
    /\ (truthy sheetScope = true ->
        sheetScopeType = "regex" ->
        RegExp_valid (to_string sheetScope) = false ->
        b = false /\ s' = s)
    /\ (truthy sheetScope = true ->
        sheetScopeType = "jsonata" ->
        forall e w,
          evaluateJSONata (sanitizeExpr sheetScope)
            (VObj (obj_set (obj_set (spread [] msg) "sheet" (VStr sheet))
                     "row" rowCtx))
            (world s)
          = (Throw e, w) ->
          b = false).
Proof.
  unfold ruleAppliesTo.
  destruct (truthy sheetScope) eqn:Ht.
  - destruct (String.eqb (if String.eqb sheetScopeType "" then "str" else sheetScopeType)
                "str") eqn:E1.
    { eexists _, _. split; [reflexivity|]. split; [reflexivity|].
      split; [intros Hf; discriminate Hf|].
      split; [intros _ _; split; reflexivity|].
      split; intros _ Hty; subst; simpl in E1; discriminate E1. }
    destruct (String.eqb (if String.eqb sheetScopeType "" then "str" else sheetScopeType)
                "regex") eqn:E2.
    { eexists _, _. split; [reflexivity|]. split; [reflexivity|].
      split; [intros Hf; discriminate Hf|].
      split; [intros _ [Hs | Hs]; subst; simpl in E1; discriminate E1|].
      split; [intros _ _ Hv; rewrite Hv; split; reflexivity|].
      intros _ Hty; subst; simpl in E2; discriminate E2. }
    assert (Hrest : forall b s',
               (true = false -> b = true /\ s' = s)
               /\ (true = true -> sheetScopeType = "" \/ sheetScopeType = "str" ->
                   b = strict_eq_str sheet sheetScope /\ s' = s)
               /\ (true = true -> sheetScopeType = "regex" ->
                   RegExp_valid (to_string sheetScope) = false ->
                   b = false /\ s' = s)).
    { intros b s'.
      split; [intros Hf; discriminate Hf|].
      split; [intros _ [Hs | Hs]; subst; simpl in E1; discriminate E1|].
      intros _ Hty _. subst. simpl in E2. discriminate E2. }
    destruct (String.eqb (if String.eqb sheetScopeType "" then "str" else sheetScopeType)
                "jsonata") eqn:E3.
    { unfold try_catch, bind, evalJSONata, lift_world, ret.
      destruct (evaluateJSONata _ _ (world s)) as [[ok | e] w] eqn:Ev; simpl;
        (eexists _, _; split; [reflexivity|]; split; [reflexivity|]).
      - split; [intros Hf; discriminate Hf|].
        split; [intros _ Hty;
                destruct Hty as [Hs | Hs]; subst; simpl in E1; discriminate E1|].
        split; [intros _ Hty; subst; simpl in E2; discriminate E2|].
        intros _ _ e' w' Hf. discriminate Hf.
      - split; [intros Hf; discriminate Hf|].
        split; [intros _ Hty;
                destruct Hty as [Hs | Hs]; subst; simpl in E1; discriminate E1|].
        split; [intros _ Hty; subst; simpl in E2; discriminate E2|].
        intros _ _ e' w' _. reflexivity. }
    eexists _, _. split; [reflexivity|]. split; [reflexivity|].
    destruct (Hrest true s) as (R1 & R2 & R3).
    split; [exact R1|]. split; [exact R2|]. split; [exact R3|].
    intros _ Hty. subst. simpl in E3. discriminate E3.
  - eexists _, _. split; [reflexivity|]. split; [reflexivity|].
    split; [intros _; split; reflexivity|].
    split; [intros Hf; discriminate Hf|].
    split; intros Hf; discriminate Hf.
Qed.

(** X9. A configured value whose type is not one of [msg], [flow],
    [global], [env], [jsonata] (so [str], [num], [bool], an absent or an
    unknown type) resolves to the configured value itself, untouched and
    without any effect.  An expression-typed value never throws: when the
    evaluation of its sanitised text succeeds the result is the value
    found and nothing is logged; when it fails the result is [undefined]
    and exactly one red [JSONata ERR] status with the error's text is
    logged.  In both cases the host is left as the evaluation left it. *)
Theorem resolveDynamic_literal_and_expression (msg val rowCtx : JsVal)
    (extras : JsObj) (s : State) :
  (forall typ,
      existsb (String.eqb typ) ["msg"; "flow"; "global"; "env"; "jsonata"] = false ->
      resolveDynamic msg val typ rowCtx extras s = (Ok val, s))
  /\ (exists v s', resolveDynamic msg val "jsonata" rowCtx extras s = (Ok v, s'))
  /\ (forall v w,
        evaluateJSONata (sanitizeExpr val)
          (VObj (spread (obj_set (spread [] msg) "row" rowCtx) (VObj extras)))
          (world s)
        = (Ok v, w) ->
        resolveDynamic msg val "jsonata" rowCtx extras s
        = (Ok v, mkState w (events s)))
  /\ (forall e w,
        evaluateJSONata (sanitizeExpr val)
          (VObj (spread (obj_set (spread [] msg) "row" rowCtx) (VObj extras)))
          (world s)
        = (Throw e, w) ->
        resolveDynamic msg val "jsonata" rowCtx extras s
        = (Ok VUndef,
           mkState w
             (events s
              ++ [EStatus "red" "ring" ("JSONata ERR: " ++ err_text e)%string]))).
Proof.
  split.
  { intros typ Ht. simpl in Ht. unfold resolveDynamic.
    destruct (String.eqb typ "") eqn:E0.
    + reflexivity.
    + destruct (String.eqb typ "str"); [reflexivity|].
      destruct (String.eqb typ "msg"); [discriminate|].
      destruct (String.eqb typ "flow"); [discriminate|].
      destruct (String.eqb typ "global"); [discriminate|].
      destruct (String.eqb typ "env"); [discriminate|].
      destruct (String.eqb typ "jsonata"); [discriminate|].
      reflexivity. }
  unfold resolveDynamic. simpl.
  unfold try_catch, evalJSONata, lift_world, bind, emit, ret.
  destruct (evaluateJSONata _ _ (world s)) as [[v | e] w]; simpl.
  - split; [eexists _, _; reflexivity|].
    split; [intros v' w' E; inversion E; reflexivity|].
    intros e' w' E. discriminate E.
  - split; [eexists _, _; reflexivity|].
    split; [intros v' w' E; discriminate E|].
    intros e' w' E. inversion E. reflexivity.
Qed.

(** X10. A sheet passes the name filters exactly when the include pattern
    is unusable or matches it, and the exclude pattern is unusable or does
    not match it; a pattern is unusable when it is empty or is not a valid
    regular expression.  So an invalid include pattern lets every sheet
    through, an invalid exclude pattern excludes none, and exclusion wins
    over inclusion. *)
Theorem passNameFilters_patterns (name incRx excRx : string) :
  passNameFilters name (safeRegex incRx) (safeRegex excRx)
  = (negb (usable_pattern incRx) || RegExp_test incRx name)
    && negb (usable_pattern excRx && RegExp_test excRx name)
  /\ (usable_pattern incRx = false -> usable_pattern excRx = false ->
      passNameFilters name (safeRegex incRx) (safeRegex excRx) = true)
  /\ (usable_pattern excRx = true -> RegExp_test excRx name = true ->
      passNameFilters name (safeRegex incRx) (safeRegex excRx) = false).
Proof.
  assert (Hs : forall rx, safeRegex rx = if usable_pattern rx then Some rx else None).
  { intros rx. unfold safeRegex, usable_pattern.
    destruct (String.eqb rx ""); simpl; [reflexivity|].
    destruct (RegExp_valid rx); reflexivity. }
  assert (Heq : passNameFilters name (safeRegex incRx) (safeRegex excRx)
                = (negb (usable_pattern incRx) || RegExp_test incRx name)
                  && negb (usable_pattern excRx && RegExp_test excRx name)).
  { rewrite !Hs. unfold passNameFilters.
    destruct (usable_pattern incRx), (usable_pattern excRx); simpl;
      destruct (RegExp_test incRx name); simpl;
        try destruct (RegExp_test excRx name); reflexivity. }
  split; [exact Heq|]. rewrite Heq. split.
  - intros Hi He. rewrite Hi, He. reflexivity.
  - intros He Ht. rewrite He, Ht. simpl. apply andb_false_r.
Qed.

End ResolveFacts.

(* ------------------------------------------------------------------ *)
(** ** Column sets, keep and drop *)

Lemma set_add_In (set : list string) (x y : string) :
  In y (set_add set x) <-> y = x \/ In y set.
Proof.
  unfold set_add. destruct (existsb (String.eqb x) set) eqn:E.
  - apply existsb_eqb_In in E. split; [auto|]. intros [Hy | Hy]; subst; auto.
  - rewrite in_app_iff. simpl. intuition.
Qed.

Lemma set_add_NoDup (set : list string) (x : string) :
  NoDup set -> NoDup (set_add set x).
Proof.
  intros Hnd. unfold set_add. destruct (existsb (String.eqb x) set) eqn:E.
  - exact Hnd.
  - apply NoDup_app; [exact Hnd | repeat constructor; simpl; tauto |].
    intros y Hy [Hx | []]. subst y.
    apply existsb_eqb_In in Hy. congruence.
Qed.

Lemma add_cols_set (cols set : list string) :
  NoDup set -> ~ In "" set ->
  NoDup (add_cols set cols) /\ ~ In "" (add_cols set cols).
Proof.
  unfold add_cols. revert set.
  induction cols as [|c cols IH]; intros set Hnd Hne; simpl.
  - auto.
  - apply IH.
    + destruct (String.eqb c ""); [exact Hnd | apply set_add_NoDup, Hnd].
    + destruct (String.eqb c "") eqn:E; [exact Hne|].
      apply String.eqb_neq in E. rewrite set_add_In.
      intros [Hc | Hc]; [congruence | contradiction].
Qed.

Lemma obj_set_keys (o : JsObj) (k : string) (v : JsVal) :
  map fst (obj_set o k v) = if has_own o k then map fst o else map fst o ++ [k].
Proof.
  unfold has_own. induction o as [|[k0 v0] o IH]; simpl.
  - reflexivity.
  - destruct (String.eqb k0 k) eqn:E; simpl.
    + reflexivity.
    + rewrite IH. destruct (obj_lookup o k); reflexivity.
Qed.

Lemma obj_set_NoDup (o : JsObj) (k : string) (v : JsVal) :
  NoDup (map fst o) -> NoDup (map fst (obj_set o k v)).
Proof.
  intros Hnd. rewrite obj_set_keys. destruct (has_own o k) eqn:E.
  - exact Hnd.
  - apply NoDup_app; [exact Hnd | repeat constructor; simpl; tauto |].
    intros y Hy [Hx | []]. subst y.
    apply has_own_false in E. contradiction.
Qed.

Lemma fold_set_NoDup (f : string -> JsVal) (ks : list string) (base : JsObj) :
  NoDup (map fst base) ->
  NoDup (map fst (fold_left (fun acc k => obj_set acc k (f k)) ks base)).
Proof.
  revert base. induction ks as [|k ks IH]; intros base Hnd; simpl.
  - exact Hnd.
  - apply IH, obj_set_NoDup, Hnd.
Qed.

Lemma obj_lookup_get (o : JsObj) (k : string) :
  obj_lookup o k = if has_own o k then Some (obj_get o k) else None.
Proof. unfold has_own, obj_get. destruct (obj_lookup o k); reflexivity. Qed.

Lemma set_has_fold_add (l acc : list string) (x : string) :
  set_has (fold_left set_add l acc) x = existsb (String.eqb x) l || set_has acc x.
Proof.
  revert acc. induction l as [|y l IH]; intros acc; simpl.
  - reflexivity.
  - rewrite IH. unfold set_has, set_add.
    destruct (existsb (String.eqb y) acc) eqn:E.
    + destruct (String.eqb x y) eqn:Exy; [|reflexivity].
      apply String.eqb_eq in Exy. subst. rewrite E, orb_true_r. reflexivity.
    + rewrite existsb_app. simpl. rewrite orb_false_r.
      destruct (existsb (String.eqb x) l), (String.eqb x y),
        (existsb (String.eqb x) acc); reflexivity.
Qed.

Lemma obj_lookup_fold_unless (a b : string -> bool) (f : string -> JsVal)
    (ks : list string) (base : JsObj) (k : string) :
  obj_lookup
    (fold_left (fun out k => if a k then out
                             else if b k then out else obj_set out k (f k))
       ks base) k
  = if existsb (String.eqb k) ks && negb (a k) && negb (b k)
    then Some (f k) else obj_lookup base k.
Proof.
  revert base. induction ks as [|k0 ks IH]; intros base; simpl.
  - reflexivity.
  - rewrite IH.
    destruct (String.eqb k k0) eqn:E.
    + apply String.eqb_eq in E. subst k0. simpl.
      destruct (a k); simpl.
      * rewrite !andb_false_r. reflexivity.
      * destruct (b k); simpl.
        -- rewrite !andb_false_r. reflexivity.
        -- rewrite !andb_true_r, obj_lookup_set, String.eqb_refl.
           destruct (existsb (String.eqb k) ks); reflexivity.
    + simpl.
      assert (Hb : obj_lookup (if a k0 then base
                               else if b k0 then base else obj_set base k0 (f k0)) k
                   = obj_lookup base k).
      { destruct (a k0); [reflexivity|]. destruct (b k0); [reflexivity|].
        rewrite obj_lookup_set, String.eqb_sym, E. reflexivity. }
      rewrite Hb. reflexivity.
Qed.

Section SelectFacts.
Context {H : Host}.

Lemma buildColumnSetFrom_set (msg : JsVal) (sheet : string)
    (selectList : list SelectItem.t) :
  forall set s r s',
    NoDup set -> ~ In "" set ->
    buildColumnSetFrom msg sheet selectList set s = (Ok r, s') ->
    NoDup r /\ ~ In "" r.
Proof.
  induction selectList as [|it rest IH]; intros set s r s' Hnd Hne; simpl.
  - unfold ret. intros E. inversion E; subst. auto.
  - unfold bind at 1.
    destruct (ruleAppliesTo msg (SelectItem.sheetScope it)
                (SelectItem.sheetScopeType it) sheet VNull s) as [[[|] | e] s1];
      simpl; try discriminate.
    + unfold bind at 1.
      destruct (resolveDynamic msg (SelectItem.col it) (SelectItem.colType it)
                  VNull [("sheet", VStr sheet)] s1) as [[resolved | e] s2];
        try discriminate.
      destruct (add_cols_set (map to_string (ensureArray resolved)) Hnd Hne)
        as [Hnd' Hne'].
      apply IH; assumption.
    + apply IH; assumption.
Qed.

(** X11. The column set built for a sheet is a set of names: it holds no
    name twice and never the empty name, whatever the select lines resolve
    to. *)
Theorem buildScopedColumnSet_is_a_set (msg : JsVal) (sheet : string)
    (selectList : list SelectItem.t) (s s' : State) (colSet : list string) :
  buildScopedColumnSet msg sheet selectList s = (Ok colSet, s') ->
  NoDup colSet /\ ~ In "" colSet.
Proof.
  unfold buildScopedColumnSet. apply buildColumnSetFrom_set.
  - constructor.
  - simpl. tauto.
Qed.

End SelectFacts.

Section ProjectionFacts.
Context {H : Host}.

Lemma pickSet_lookup_Some (row : JsObj) (set : list string) (k : string) (v : JsVal) :
  obj_lookup (pickSet row set) k = Some v ->
  has_own row k = true /\ obj_get row k = v /\ k <> ""
  /\ exists want, In want set /\ norm k = norm want.
Proof.
  rewrite pickSet_fold, obj_lookup_fold_set.
  destruct (existsb (String.eqb k) (pickedKeys (own_keys row) set)) eqn:E;
    [|discriminate].
  intros Hv. inversion Hv; subst.
  apply existsb_eqb_In, In_pickedKeys in E. destruct E as [want [Hw Hp]].
  apply pickKey_Some in Hp. destruct Hp as (Hin & Hne & Hn).
  split; [apply has_own_In, In_own_keys, Hin|].
  split; [reflexivity|]. split; [exact Hne|].
  exists want. auto.
Qed.

(** X12. Keep never invents or alters a column: every column of the
    projected row is a non-empty column of the row, holds the row's value
    and matches some wanted name after trimming and lower-casing; the
    projected row has no key twice; and a wanted name that is itself a
    column of the row is always kept under that exact name. *)
Theorem pickSet_keeps_row_columns (row : JsObj) (set : list string) :
  (forall k v,
      obj_lookup (pickSet row set) k = Some v ->
      has_own row k = true /\ obj_get row k = v /\ k <> ""
      /\ exists want, In want set /\ norm k = norm want)
  /\ NoDup (map fst (pickSet row set))
  /\ (forall want,
        In want set -> want <> "" -> has_own row want = true ->
        obj_lookup (pickSet row set) want = Some (obj_get row want)).
Proof.
  split; [|split].
  - intros k v. apply pickSet_lookup_Some.
  - rewrite pickSet_fold. apply fold_set_NoDup. constructor.
  - intros want Hw Hne Hown.
    rewrite pickSet_fold, obj_lookup_fold_set.
    assert (Hin : In want (pickedKeys (own_keys row) set)).
    { apply In_pickedKeys. exists want. split; [exact Hw|].
      apply pickKey_exact; [|exact Hne].
      apply In_own_keys, has_own_In, Hown. }
    apply existsb_eqb_In in Hin. rewrite Hin. reflexivity.
Qed.

(** X13. Drop keeps exactly the columns of the row whose name is not in
    the set, neither as it stands nor after trimming and lower-casing, each
    with the row's value; with an empty set it keeps every column; and no
    column is both kept by keep and left by drop for the same set. *)
Theorem omitSet_drops_matching_columns (row : JsObj) (set : list string) :
  (forall k,
      obj_lookup (omitSet row set) k
      = if has_own row k
           && negb (existsb (String.eqb k) set)
           && negb (existsb (String.eqb (norm k)) (map norm set))
        then Some (obj_get row k) else None)
  /\ (forall k, obj_lookup (omitSet row []) k = obj_lookup row k)
  /\ (forall k v,
        obj_lookup (pickSet row set) k = Some v ->
        obj_lookup (omitSet row set) k = None).
Proof.
  assert (Hl : forall st k,
             obj_lookup (omitSet row st) k
             = if has_own row k
                  && negb (existsb (String.eqb k) st)
                  && negb (existsb (String.eqb (norm k)) (map norm st))
               then Some (obj_get row k) else None).
  { intros st k. unfold omitSet.
    rewrite obj_lookup_fold_unless, own_keys_has_own, !set_has_fold_add.
    simpl. rewrite !orb_false_r. reflexivity. }
  split; [apply Hl|]. split.
  - intros k. rewrite Hl. simpl. rewrite !andb_true_r.
    symmetry. apply obj_lookup_get.
  - intros k v Hv.
    destruct (pickSet_lookup_Some _ _ _ Hv) as (_ & _ & _ & want & Hw & Hn).
    rewrite Hl.
    assert (Hin : existsb (String.eqb (norm k)) (map norm set) = true).
    { apply existsb_eqb_In. rewrite Hn. apply in_map, Hw. }
    rewrite Hin, andb_false_r. reflexivity.
Qed.

End ProjectionFacts.

(* ------------------------------------------------------------------ *)
(** ** Rename lists and derived columns *)

Section TransformFacts.
Context {H : Host}.

(** A list of literal rename lines applies its pairs one after the other
    to the row built so far. *)
Lemma renameLoop_literal (row : JsObj) (msg : JsVal) (sheet : string)
    (pairs : list (string * string)) :
  forall out s,
    renameLoop row msg sheet
      (map (fun p => literalRename (fst p) (snd p)) pairs) out s
    = (Ok (fold_left (fun o p => renameOne o (fst p) (snd p)) pairs out), s).
Proof.
  induction pairs as [|[a b] pairs IH]; intros out s.
  - reflexivity.
  - simpl. unfold bind, ret. simpl. apply IH.
Qed.

Lemma obj_lookup_copy (o : JsObj) (k : string) :
  obj_lookup (spread_obj [] o) k = obj_lookup o k.
Proof. rewrite obj_lookup_spread_obj. symmetry. apply obj_lookup_get. Qed.

Lemma has_own_copy (o : JsObj) (k : string) :
  has_own (spread_obj [] o) k = has_own o k.
Proof. unfold has_own. rewrite obj_lookup_copy. reflexivity. Qed.

Lemma obj_get_copy (o : JsObj) (k : string) :
  obj_get (spread_obj [] o) k = obj_get o k.
Proof. unfold obj_get. rewrite obj_lookup_copy. reflexivity. Qed.

(** X14. Rename lines chain: with the lines A to B and then B to C (three
    different non-empty names) a row that has column A ends with C holding
    A's value and with neither A nor B, whatever B and C held before. *)
Theorem rename_lines_chain (row : JsObj) (msg : JsVal) (sheet : string)
    (a b c : string) (s : State) :
  a <> "" -> b <> "" -> c <> "" -> a <> b -> b <> c -> a <> c ->
  has_own row a = true ->
  exists out,
    renameWithList row msg sheet [literalRename a b; literalRename b c] s
    = (Ok out, s)
    /\ has_own out a = false
    /\ has_own out b = false
    /\ obj_get out c = obj_get row a.
Proof.
  intros Ha Hb Hc Hab Hbc Hac Hown.
  apply String.eqb_neq in Ha, Hb, Hc, Hab, Hbc, Hac.
  assert (Hba : String.eqb b a = false) by (rewrite String.eqb_sym; exact Hab).
  assert (Hca : String.eqb c a = false) by (rewrite String.eqb_sym; exact Hac).
  eexists. split.
  { unfold renameWithList.
    apply (renameLoop_literal row msg sheet [(a, b); (b, c)]). }
  simpl.
  set (copy := spread_obj [] row).
  assert (H1 : forall k, obj_lookup (renameOne copy a b) k
               = if String.eqb a k then None
                 else if String.eqb b k then Some (obj_get row a)
                      else obj_lookup copy k).
  { intros k. rewrite renameOne_lookup, Ha, Hb, Hab. simpl.
    unfold copy. rewrite has_own_copy, Hown, obj_get_copy. reflexivity. }
  assert (Hb1 : has_own (renameOne copy a b) b = true).
  { unfold has_own. rewrite H1, Hab, String.eqb_refl. reflexivity. }
  assert (H2 : forall k, obj_lookup (renameOne (renameOne copy a b) b c) k
               = if String.eqb b k then None
                 else if String.eqb c k then Some (obj_get row a)
                      else obj_lookup (renameOne copy a b) k).
  { intros k. rewrite renameOne_lookup, Hb, Hc, Hbc, Hb1. simpl.
    unfold obj_get at 1. rewrite H1, Hab, String.eqb_refl. reflexivity. }
  split; [|split].
  - unfold has_own. rewrite H2, Hba, Hca, H1, String.eqb_refl. reflexivity.
  - unfold has_own. rewrite H2, String.eqb_refl. reflexivity.
  - unfold obj_get at 1. rewrite H2, Hbc, String.eqb_refl. reflexivity.
Qed.

End TransformFacts.

(** X15. The pairwise walk is sequential, not simultaneous: from=[A,B],
    to=[B,A] does not swap two columns.  On a row that has A, the walk ends
    with A holding A's own value again and without B, so B's value is
    lost. *)
Theorem rename_pairs_do_not_swap (out : JsObj) (a b : string) :
  a <> "" -> b <> "" -> a <> b ->
  has_own out a = true ->
  obj_get (renamePairwise [a; b] [b; a] out) a = obj_get out a
  /\ has_own (renamePairwise [a; b] [b; a] out) a = true
  /\ has_own (renamePairwise [a; b] [b; a] out) b = false.
Proof.
  intros Ha Hb Hab Hown.
  apply String.eqb_neq in Ha, Hb, Hab.
  assert (Hba : String.eqb b a = false) by (rewrite String.eqb_sym; exact Hab).
  change (renamePairwise [a; b] [b; a] out)
    with (renameOne (renameOne out a b) b a).
  assert (H1 : forall k, obj_lookup (renameOne out a b) k
               = if String.eqb a k then None
                 else if String.eqb b k then Some (obj_get out a)
                      else obj_lookup out k).
  { intros k. rewrite renameOne_lookup, Ha, Hb, Hab, Hown. reflexivity. }
  assert (Hb1 : has_own (renameOne out a b) b = true).
  { unfold has_own. rewrite H1, Hab, String.eqb_refl. reflexivity. }
  assert (H2 : forall k, obj_lookup (renameOne (renameOne out a b) b a) k
               = if String.eqb b k then None
                 else if String.eqb a k then Some (obj_get out a)
                      else obj_lookup (renameOne out a b) k).
  { intros k. rewrite renameOne_lookup, Hb, Ha, Hba, Hb1. simpl.
    unfold obj_get at 1. rewrite H1, Hab, String.eqb_refl. reflexivity. }
  split; [|split].
  - unfold obj_get at 1. rewrite H2, Hba, String.eqb_refl. reflexivity.
  - unfold has_own. rewrite H2, Hba, String.eqb_refl. reflexivity.
  - unfold has_own. rewrite H2, String.eqb_refl. reflexivity.
Qed.

Section StageFacts.
Context {H : Host}.

Lemma mapM_length {A B} (f : A -> M B) (xs : list A) :
  forall s ys s', mapM f xs s = (Ok ys, s') -> List.length ys = List.length xs.
Proof.
  induction xs as [|x xs IH]; intros s ys s'; simpl.
  - unfold ret. intros E. inversion E. reflexivity.
  - unfold bind at 1. destruct (f x s) as [[y | e] s1]; [|discriminate].
    unfold bind at 1. destruct (mapM f xs s1) as [[ys' | e] s2] eqn:E;
      [|discriminate].
    unfold ret. intros E'. inversion E'; subst. simpl.
    f_equal. eapply IH. exact E.
Qed.

(** A step that never throws, relates its result to its argument by [R]
    and logs nothing can be mapped over a list with the same three
    properties. *)
Lemma mapM_Forall2 {A B} (R : A -> B -> Prop) (f : A -> M B) (xs : list A) :
  (forall x s, exists y s', f x s = (Ok y, s') /\ R x y /\ events s' = events s) ->
  forall s, exists ys s',
    mapM f xs s = (Ok ys, s') /\ Forall2 R xs ys /\ events s' = events s.
Proof.
  intros Hf. induction xs as [|x xs IH]; intros s; simpl.
  - exists [], s. repeat split. constructor.
  - destruct (Hf x s) as (y & s1 & E1 & HR & Hev1).
    destruct (IH s1) as (ys & s2 & E2 & HRs & Hev2).
    exists (y :: ys), s2. split.
    + unfold bind. rewrite E1, E2. reflexivity.
    + split; [constructor; assumption | congruence].
Qed.

Lemma deriveLoop_total (msg : JsVal) (sheet : string) (r : JsObj)
    (ds : list DeriveItem.t) :
  forall out s, exists out' s',
    deriveLoop msg sheet r ds out s = (Ok out', s')
    /\ events s' = events s
    /\ (forall k, ~ In k (map DeriveItem.col ds) ->
          obj_lookup out' k = obj_lookup out k).
Proof.
  induction ds as [|d rest IH]; intros out s; simpl.
  - exists out, s. repeat split.
  - destruct (String.eqb (DeriveItem.col d) "") eqn:Ec.
    { destruct (IH out s) as (out' & s' & E & Hev & Hk).
      exists out', s'. repeat split; auto. }
    destruct (String.eqb (DeriveItem.exprType d) "jsonata").
    + unfold bind at 1. unfold try_catch, bind, evalJSONata, lift_world, ret.
      destruct (evaluateJSONata _ _ (world s)) as [[val | e] w]; simpl.
      * destruct (IH (obj_set out (DeriveItem.col d) val)
                    (mkState w (events s))) as (out' & s' & E & Hev & Hk).
        exists out', s'. split; [exact E|]. split; [exact Hev|].
        intros k Hn. rewrite Hk by tauto.
        rewrite obj_lookup_set.
        destruct (String.eqb (DeriveItem.col d) k) eqn:E'; [|reflexivity].
        apply String.eqb_eq in E'. tauto.
      * destruct (IH out (mkState w (events s))) as (out' & s' & E & Hev & Hk).
        exists out', s'. repeat split; auto.
    + destruct (IH out s) as (out' & s' & E & Hev & Hk).
      exists out', s'. repeat split; auto.
Qed.

(** The entries of a derive list run one after the other: the entries
    after a point start from the row and the host state that the entries
    before it left. *)
Lemma deriveLoop_app (msg : JsVal) (sheet : string) (r : JsObj)
    (ds1 ds2 : list DeriveItem.t) :
  forall out s,
    deriveLoop msg sheet r (ds1 ++ ds2) out s
    = bind (deriveLoop msg sheet r ds1 out)
        (fun out1 => deriveLoop msg sheet r ds2 out1) s.
Proof.
  induction ds1 as [|d rest IH]; intros out s; simpl.
  - reflexivity.
  - destruct (String.eqb (DeriveItem.col d) ""); [apply IH|].
    destruct (String.eqb (DeriveItem.exprType d) "jsonata"); [|apply IH].
    unfold bind, try_catch, evalJSONata, lift_world, ret.
    destruct (evaluateJSONata _ _ (world s)) as [[v | e] w]; simpl;
      rewrite IH; reflexivity.
Qed.

Lemma deriveLoop_entry (msg : JsVal) (sheet : string) (r : JsObj)
    (before : list DeriveItem.t) (d : DeriveItem.t) (after : list DeriveItem.t)
    (out : JsObj) (s : State) :
  DeriveItem.col d <> "" ->
  DeriveItem.exprType d = "jsonata" ->
  ~ In (DeriveItem.col d) (map DeriveItem.col after) ->
  exists out1 s1 out' s',
    deriveLoop msg sheet r before out s = (Ok out1, s1)
    /\ deriveLoop msg sheet r (before ++ d :: after) out s = (Ok out', s')
    /\ obj_lookup out' (DeriveItem.col d)
       = match fst (evaluateJSONata
                      (sanitizeExpr (js_or (DeriveItem.expr d) (VStr "")))
                      (VObj (obj_set (obj_set (spread [] msg) "row" (VObj r))
                               "sheet" (VStr sheet)))
                      (world s1)) with
         | Ok v => Some v
         | Throw _ => obj_lookup out1 (DeriveItem.col d)
         end.
Proof.
  intros Hcol Hty Hafter.
  destruct (deriveLoop_total msg sheet r before out s) as (out1 & s1 & E1 & _ & _).
  apply String.eqb_neq in Hcol.
  assert (Hstep : deriveLoop msg sheet r (before ++ d :: after) out s
                  = match evaluateJSONata
                            (sanitizeExpr (js_or (DeriveItem.expr d) (VStr "")))
                            (VObj (obj_set (obj_set (spread [] msg) "row" (VObj r))
                                     "sheet" (VStr sheet)))
                            (world s1) with
                    | (Ok v, w) =>
                        deriveLoop msg sheet r after
                          (obj_set out1 (DeriveItem.col d) v) (mkState w (events s1))
                    | (Throw _, w) =>
                        deriveLoop msg sheet r after out1 (mkState w (events s1))
                    end).
  { rewrite deriveLoop_app. unfold bind at 1. rewrite E1. simpl.
    rewrite Hcol, Hty. simpl.
    unfold bind, try_catch, evalJSONata, lift_world, ret.
    destruct (evaluateJSONata _ _ (world s1)) as [[v | e] w]; reflexivity. }
  destruct (evaluateJSONata _ _ (world s1)) as [[v | e] w] eqn:Ev.
  - destruct (deriveLoop_total msg sheet r after
                (obj_set out1 (DeriveItem.col d) v) (mkState w (events s1)))
      as (out' & s' & E & _ & Hk).
    exists out1, s1, out', s'. split; [exact E1|].
    split; [rewrite Hstep; exact E|].
    rewrite Ev. simpl. rewrite Hk by exact Hafter.
    rewrite obj_lookup_set, String.eqb_refl. reflexivity.
  - destruct (deriveLoop_total msg sheet r after out1 (mkState w (events s1)))
      as (out' & s' & E & _ & Hk).
    exists out1, s1, out', s'. split; [exact E1|].
    split; [rewrite Hstep; exact E|].
    rewrite Ev. simpl. apply Hk, Hafter.
Qed.

(** X16. The derive stage never fails and logs nothing.  It returns one
    row for each row it is given, in order; a column that no derive entry
    names keeps the value it had; and each returned row is what the list of
    derive entries makes of a copy of its row.  There, for every entry with
    a column name and an expression, wherever it stands in the list: when
    its expression evaluates, its column holds the value found; when its
    expression cannot be evaluated, its column is left as the entries
    before it left it.  Either way the entries after it run, so that a
    failing entry takes nothing from the columns the other entries
    derive.  (The column is read at the end of the list, when no later
    entry names it again.) *)
Theorem deriveStage_never_fails (rt : Schema) (msg : JsVal) (sheet : string)
    (transformed : list JsObj) (s : State) :
  (exists derived s',
      deriveStage rt msg sheet transformed s = (Ok derived, s')
      /\ events s' = events s
      /\ Forall2
           (fun r r' =>
              forall k, ~ In k (map DeriveItem.col (deriveList rt)) ->
                        obj_lookup r' k = obj_lookup r k)
           transformed derived
      /\ (deriveList rt <> [] ->
          Forall2
            (fun r r' =>
               exists s1 s2,
                 deriveLoop msg sheet r (deriveList rt) (spread_obj [] r) s1
                 = (Ok r', s2))
            transformed derived))
  /\ (forall r before d after out s0,
        DeriveItem.col d <> "" ->
        DeriveItem.exprType d = "jsonata" ->
        ~ In (DeriveItem.col d) (map DeriveItem.col after) ->
        exists out1 s1 out' s',
          deriveLoop msg sheet r before out s0 = (Ok out1, s1)
          /\ deriveLoop msg sheet r (before ++ d :: after) out s0 = (Ok out', s')
          /\ obj_lookup out' (DeriveItem.col d)
             = match fst (evaluateJSONata
                            (sanitizeExpr (js_or (DeriveItem.expr d) (VStr "")))
                            (VObj (obj_set (obj_set (spread [] msg) "row" (VObj r))
                                     "sheet" (VStr sheet)))
                            (world s1)) with
               | Ok v => Some v
               | Throw _ => obj_lookup out1 (DeriveItem.col d)
               end).
Proof.
  split; [|intros r before d after out s0; apply deriveLoop_entry].
  unfold deriveStage.
  destruct (deriveList rt) as [|d0 ds] eqn:Hds; cbn [List.length Nat.eqb negb].
  - exists transformed, s. split; [reflexivity|]. split; [reflexivity|].
    split; [|intros Hne; contradiction Hne; reflexivity].
    induction transformed; constructor; auto.
  - destruct (mapM_Forall2
                (fun r r' =>
                   (forall k, ~ In k (map DeriveItem.col (d0 :: ds)) ->
                              obj_lookup r' k = obj_lookup r k)
                   /\ exists s1 s2,
                       deriveLoop msg sheet r (d0 :: ds) (spread_obj [] r) s1
                       = (Ok r', s2))
                (fun r => deriveLoop msg sheet r (d0 :: ds) (spread_obj [] r))
                transformed) with (s := s) as (ys & s' & E & HR & Hev).
    { intros r s1.
      destruct (deriveLoop_total msg sheet r (d0 :: ds) (spread_obj [] r) s1)
        as (out' & s2 & E & Hev & Hk).
      exists out', s2. split; [exact E|]. split; [|exact Hev].
      split; [|exists s1, s2; exact E].
      intros k Hn. rewrite Hk by exact Hn. apply obj_lookup_copy. }
    exists ys, s'. split; [exact E|]. split; [exact Hev|].
    split; [|intros _]; eapply Forall2_impl; try exact HR;
      cbv beta; intros r r' [Hk Hrun]; assumption.
Qed.

End StageFacts.

(* ------------------------------------------------------------------ *)
(** ** Counters and output of a batch *)

Section BatchFacts.
Context {H : Host}.

Lemma filterRows_length (rt : Schema) (msg : JsVal) (sheet : string)
    (rows : list JsVal) :
  forall s out s',
    filterRows rt msg sheet rows s = (Ok out, s') ->
    List.length out <= List.length rows.
Proof.
  induction rows as [|row rows IH]; intros s out s'; simpl.
  - unfold ret. intros E. inversion E. auto.
  - unfold bind at 1.
    destruct (rowPasses rt row msg sheet s) as [[keep | e] s1]; [|discriminate].
    unfold bind at 1.
    destruct (filterRows rt msg sheet rows s1) as [[out' | e] s2] eqn:E;
      [|discriminate].
    unfold ret. intros E'. inversion E'; subst.
    apply IH in E. destruct keep; simpl; lia.
Qed.

Lemma selectStage_length (rt : Schema) (msg : JsVal) (sheet : string)
    (rows out : list JsObj) (s s' : State) :
  selectStage rt msg sheet rows s = (Ok out, s') ->
  List.length out = List.length rows.
Proof.
  unfold selectStage.
  destruct (negb (String.eqb (selectMode rt) "none")
            && negb (Nat.eqb (List.length (selectList rt)) 0)).
  - unfold bind.
    destruct (buildScopedColumnSet msg sheet (selectList rt) s)
      as [[colSet | e] s1]; [|discriminate].
    destruct (String.eqb (selectMode rt) "keep"
              && negb (Nat.eqb (List.length colSet) 0)).
    + unfold ret. intros E. inversion E. apply length_map.
    + destruct (String.eqb (selectMode rt) "drop"
                && negb (Nat.eqb (List.length colSet) 0));
        unfold ret; intros E; inversion E; [apply length_map | reflexivity].
  - unfold ret. intros E. inversion E. reflexivity.
Qed.

Lemma renameStage_length (rt : Schema) (msg : JsVal) (sheet : string)
    (rows out : list JsObj) (s s' : State) :
  renameStage rt msg sheet rows s = (Ok out, s') ->
  List.length out = List.length rows.
Proof.
  unfold renameStage.
  destruct (negb (Nat.eqb (List.length (renameList rt)) 0)).
  - apply mapM_length.
  - unfold ret. intros E. inversion E. reflexivity.
Qed.

Lemma conditionalRenameStage_length (rt : Schema) (msg : JsVal) (sheet : string)
    (rows out : list JsObj) (s s' : State) :
  conditionalRenameStage rt msg sheet rows s = (Ok out, s') ->
  List.length out = List.length rows.
Proof.
  unfold conditionalRenameStage.
  destruct (truthy (ConditionalRename.enabled (conditionalRename rt))).
  - unfold bind.
    destruct (conditionTrue rt msg s) as [[[|] | e] s1]; [| |discriminate].
    + apply mapM_length.
    + unfold ret. intros E. inversion E. reflexivity.
  - unfold ret. intros E. inversion E. reflexivity.
Qed.

Lemma deriveStage_length (rt : Schema) (msg : JsVal) (sheet : string)
    (rows out : list JsObj) (s s' : State) :
  deriveStage rt msg sheet rows s = (Ok out, s') ->
  List.length out = List.length rows.
Proof.
  unfold deriveStage.
  destruct (negb (Nat.eqb (List.length (deriveList rt)) 0)).
  - apply mapM_length.
  - unfold ret. intros E. inversion E. reflexivity.
Qed.

Lemma transformRows_length (rt : Schema) (msg : JsVal) (sheet : string)
    (filtered : list JsVal) (out : list JsObj) (s s' : State) :
  transformRows rt msg sheet filtered s = (Ok out, s') ->
  List.length out = List.length filtered.
Proof.
  unfold transformRows, bind.
  destruct (selectStage rt msg sheet (map (fun r => spread [] r) filtered) s)
    as [[t1 | e] s1] eqn:E1; [|discriminate].
  destruct (renameStage rt msg sheet t1 s1) as [[t2 | e] s2] eqn:E2; [|discriminate].
  destruct (conditionalRenameStage rt msg sheet t2 s2) as [[t3 | e] s3] eqn:E3;
    [|discriminate].
  intros E4.
  apply selectStage_length in E1. apply renameStage_length in E2.
  apply conditionalRenameStage_length in E3. apply deriveStage_length in E4.
  rewrite length_map in E1. congruence.
Qed.

(** What one sheet does to the accumulator, when it succeeds: either
    nothing but counting the sheet, or storing [transformed] rows for
    [n] input rows, with no more rows out than in. *)
Lemma processSheet_result (rt : Schema) (msg : JsVal) (incSheet excSheet : option string)
    (file sheetName : string) (rows : JsVal) (acc acc' : Acc) (s s' : State) :
  processSheet rt msg incSheet excSheet file sheetName rows acc s = (Ok acc', s') ->
  fileCount acc' = fileCount acc
  /\ ((resultMap acc' = resultMap acc
       /\ rowIn acc' = rowIn acc /\ rowOut acc' = rowOut acc)
      \/ exists transformed n,
          resultMap acc' = storeSheet rt file sheetName transformed (resultMap acc)
          /\ rowIn acc' = rowIn acc + n
          /\ rowOut acc' = rowOut acc + List.length transformed
          /\ List.length transformed <= n).
Proof.
  unfold processSheet.
  destruct (negb (passNameFilters sheetName incSheet excSheet)).
  { unfold ret. intros E. inversion E; subst. auto. }
  destruct rows as [| | | | |rows|];
    try solve [unfold ret; intros E; inversion E; subst; simpl; auto].
  unfold bind.
  destruct (filterRows rt msg sheetName rows s) as [[filtered | e] s1] eqn:E1;
    [|discriminate].
  destruct (transformRows rt msg sheetName filtered s1)
    as [[transformed | e] s2] eqn:E2; [|discriminate].
  unfold ret. intros E. inversion E; subst. simpl.
  split; [reflexivity|]. right.
  exists transformed, (List.length rows). repeat split.
  apply filterRows_length in E1. apply transformRows_length in E2. lia.
Qed.

(** An invariant [P] of the accumulator that counting files and sheets
    does not disturb and that storing a sheet preserves is preserved by
    the whole batch. *)
Section Invariant.
Variable rt : Schema.
Variable P : Acc -> Prop.
Hypothesis P_counts :
  forall acc fc sc,
    P acc -> P (mkAcc (resultMap acc) fc sc (rowIn acc) (rowOut acc)).
Hypothesis P_store :
  forall acc file sheetName transformed n fc sc,
    P acc -> List.length transformed <= n ->
    P (mkAcc (storeSheet rt file sheetName transformed (resultMap acc)) fc sc
         (rowIn acc + n) (rowOut acc + List.length transformed)).

Lemma P_same (acc acc' : Acc) :
  P acc -> resultMap acc' = resultMap acc -> rowIn acc' = rowIn acc ->
  rowOut acc' = rowOut acc -> P acc'.
Proof.
  intros HP Hm Hi Ho. destruct acc' as [rm fc sc ri ro]. simpl in *. subst.
  apply P_counts. exact HP.
Qed.

Lemma processSheets_invariant (msg : JsVal) (incSheet excSheet : option string)
    (file : string) (sheets : list (string * JsVal)) :
  forall acc s acc' s',
    processSheets rt msg incSheet excSheet file sheets acc s = (Ok acc', s') ->
    P acc -> P acc' /\ fileCount acc' = fileCount acc.
Proof.
  induction sheets as [|[sheetName rows] sheets IH]; intros acc s acc' s'; simpl.
  - unfold ret. intros E. inversion E; subst. auto.
  - unfold bind.
    destruct (processSheet rt msg incSheet excSheet file sheetName rows acc s)
      as [[acc1 | e] s1] eqn:E1; [|discriminate].
    intros E2 HP.
    apply processSheet_result in E1.
    destruct E1 as [Hfc [(Hm & Hi & Ho) | (t & n & Hm & Hi & Ho & Hle)]].
    + assert (HP1 : P acc1) by (eapply P_same; eassumption).
      destruct (IH _ _ _ _ E2 HP1) as [HP' Hfc'].
      split; [exact HP' | congruence].
    + assert (HP1 : P acc1).
      { destruct acc1 as [rm fc sc ri ro]. simpl in *. subst.
        apply P_store; assumption. }
      destruct (IH _ _ _ _ E2 HP1) as [HP' Hfc'].
      split; [exact HP' | congruence].
Qed.

Lemma processFiles_invariant (msg : JsVal) (incSheet excSheet : option string)
    (files : list (string * JsVal)) :
  forall acc s acc' s',
    processFiles rt msg incSheet excSheet files acc s = (Ok acc', s') ->
    P acc ->
    P acc' /\ fileCount acc' = fileCount acc + List.length (workbooks files).
Proof.
  induction files as [|[file sheets] files IH]; intros acc s acc' s'; simpl.
  - unfold ret. intros E. inversion E; subst. split; [assumption | lia].
  - unfold bind, processFile.
    destruct (isLockFile file) eqn:El; simpl.
    + intros E HP. apply (IH _ _ _ _ E HP).
    + match goal with |- context [processSheets ?a ?b ?c ?d ?e ?f ?g s] =>
        destruct (processSheets a b c d e f g s) as [[acc1 | e0] s1] eqn:E1
      end; [|discriminate].
      intros E2 HP.
      apply processSheets_invariant in E1; [|apply P_counts; exact HP].
      destruct E1 as [HP1 Hfc1]. simpl in Hfc1.
      destruct (IH _ _ _ _ E2 HP1) as [HP' Hfc'].
      split; [exact HP' | lia].
Qed.

End Invariant.

(** X17. When the loop over the files of a batch succeeds, no more rows
    are counted out than in, and [fileCount] is exactly the number of files
    that are not lock files (a file without sheets is counted too). *)
Theorem batch_counters (rt : Schema) (msg : JsVal) (incSheet excSheet : option string)
    (files : list (string * JsVal)) (s s' : State) (acc : Acc) :
  processFiles rt msg incSheet excSheet files emptyAcc s = (Ok acc, s') ->
  rowOut acc <= rowIn acc
  /\ fileCount acc = List.length (workbooks files).
Proof.
  intros E.
  refine (@processFiles_invariant rt (fun a => rowOut a <= rowIn a) _ _
            msg incSheet excSheet files emptyAcc s acc s' E _).
  - intros a fc sc Ha. exact Ha.
  - intros a file sheetName t n fc sc Ha Hle. simpl. lia.
  - simpl. lia.
Qed.

Lemma storeSheet_flat (rt : Schema) (file sheetName : string)
    (transformed : list JsObj) (acc : Acc) (n fc sc : nat) :
  String.eqb (Output.structure (output rt)) "hierarchical" = false ->
  flat_rows_match acc ->
  flat_rows_match
    (mkAcc (storeSheet rt file sheetName transformed (resultMap acc)) fc sc
       (rowIn acc + n) (rowOut acc + List.length transformed)).
Proof.
  intros Hs. unfold flat_rows_match, storeSheet. rewrite Hs. simpl.
  rewrite obj_lookup_set, String.eqb_refl. unfold obj_get.
  destruct (obj_lookup (resultMap acc) "__flat") as [[| | | | |l|]|];
    simpl; try contradiction.
  - intros Hl. rewrite length_app, length_map. lia.
  - intros Hl. rewrite length_map. lia.
Qed.

(** X18. In flat mode, when the loop over the files succeeds, the output
    [data] is a list with exactly [rowOut] rows. *)
Theorem flat_output_has_rowOut_rows (rt : Schema) (msg : JsVal)
    (incSheet excSheet : option string) (files : list (string * JsVal))
    (s s' : State) (acc : Acc) :
  String.eqb (Output.structure (output rt)) "hierarchical" = false ->
  processFiles rt msg incSheet excSheet files emptyAcc s = (Ok acc, s') ->
  exists l,
    obj_get (buildOutObj rt acc) "data" = VArr l
    /\ List.length l = rowOut acc.
Proof.
  intros Hs E.
  assert (Hinv : flat_rows_match acc
                 /\ fileCount acc
                    = fileCount emptyAcc + List.length (workbooks files)).
  { refine (@processFiles_invariant rt flat_rows_match _ _
              msg incSheet excSheet files emptyAcc s acc s' E _).
    - intros a fc sc Ha. exact Ha.
    - intros a file sheetName t n fc sc Ha Hle. apply storeSheet_flat; assumption.
    - reflexivity. }
  destruct Hinv as [Hm _]. unfold flat_rows_match in Hm.
  assert (Hdata : exists l,
             js_or (obj_get (resultMap acc) "__flat") (VArr []) = VArr l
             /\ List.length l = rowOut acc).
  { unfold obj_get.
    destruct (obj_lookup (resultMap acc) "__flat") as [[| | | | |l|]|];
      try contradiction.
    - exists l. auto.
    - exists []. auto. }
  destruct Hdata as (l & Hl & Hlen). exists l. split; [|exact Hlen].
  unfold buildOutObj. rewrite Hs.
  destruct (truthy (Output.includeSummary (output rt)));
    unfold obj_get; rewrite ?obj_lookup_set; simpl; exact Hl.
Qed.

End BatchFacts.

Section ShapeFacts.
Context {H : Host}.

(** X19. With no rule, no select mode, no rename line, conditional
    rename off and no derive entry, a sheet goes through untouched: the
    filter keeps every row, the transforms return a copy of each row in the
    same order, and the host state is not touched. *)
Theorem empty_configuration_copies_rows (rt : Schema) (msg : JsVal)
    (sheet : string) (rows : list JsVal) (s : State) :
  transforms_nothing rt ->
  filterRows rt msg sheet rows s = (Ok rows, s)
  /\ transformRows rt msg sheet rows s = (Ok (map (fun r => spread [] r) rows), s).
Proof.
  intros (Hr & Hm & Hl & Hc & Hd). split.
  - induction rows as [|row rows IH]; simpl; [reflexivity|].
    unfold bind, rowPasses. rewrite Hr. simpl. rewrite IH. reflexivity.
  - unfold transformRows, selectStage, renameStage, conditionalRenameStage,
      deriveStage.
    rewrite Hm, Hl, Hc, Hd. reflexivity.
Qed.

Lemma storeSheet_nested (rt : Schema) (file sheetName : string)
    (transformed : list JsObj) (rm : JsObj) :
  String.eqb (Output.structure (output rt)) "hierarchical" = true ->
  nested_rows rm ->
  nested_rows (storeSheet rt file sheetName transformed rm).
Proof.
  intros Hs Hn. unfold storeSheet. rewrite Hs.
  intros f v. rewrite obj_lookup_set.
  destruct (String.eqb file f) eqn:Ef; [|apply Hn].
  intros Hv. inversion Hv; subst v. clear Hv.
  unfold obj_get, js_or.
  destruct (obj_lookup rm file) as [v0|] eqn:E0.
  - destruct (Hn _ _ E0) as (sheets & Hv0 & Harr). subst v0. simpl.
    eexists. split; [reflexivity|].
    intros sheet x. rewrite obj_lookup_set.
    destruct (String.eqb sheetName sheet); [|apply Harr].
    intros Hx. inversion Hx. reflexivity.
  - simpl. eexists. split; [reflexivity|].
    intros sheet x. simpl.
    destruct (String.eqb sheetName sheet); [|discriminate].
    intros Hx. inversion Hx. reflexivity.
Qed.

(** X20. In hierarchical mode, when the loop over the files succeeds, the
    result map has the shape file -> sheet -> rows: every file it holds
    maps to an object, and every sheet of that object to an array. *)
Theorem hierarchical_output_is_nested (rt : Schema) (msg : JsVal)
    (incSheet excSheet : option string) (files : list (string * JsVal))
    (s s' : State) (acc : Acc) :
  String.eqb (Output.structure (output rt)) "hierarchical" = true ->
  processFiles rt msg incSheet excSheet files emptyAcc s = (Ok acc, s') ->
  nested_rows (resultMap acc)
  /\ obj_get (buildOutObj rt acc) "data" = VObj (resultMap acc).
Proof.
  intros Hs E. split.
  - refine (proj1 (@processFiles_invariant _ rt (fun a => nested_rows (resultMap a)) _ _
                     msg incSheet excSheet files emptyAcc s acc s' E _)).
    + intros a fc sc Ha. exact Ha.
    + intros a file sheetName t n fc sc Ha _. simpl.
      apply storeSheet_nested; assumption.
    + intros f v Hv. discriminate Hv.
  - unfold buildOutObj. rewrite Hs.
    destruct (truthy (Output.includeSummary (output rt)));
      unfold obj_get; rewrite ?obj_lookup_set; reflexivity.
Qed.

(** X21. Storing a sheet in hierarchical mode, for a file that is new or
    already maps to an object: afterwards the file's sheet holds exactly
    the stored rows (a sheet stored before under the same name is
    replaced), the file's other sheets are as before, and so are the other
    files. *)
Theorem hierarchical_store_lookup (rt : Schema) (file sheetName : string)
    (transformed : list JsObj) (rm : JsObj) :
  String.eqb (Output.structure (output rt)) "hierarchical" = true ->
  obj_lookup rm file = None \/ (exists sheets, obj_lookup rm file = Some (VObj sheets)) ->
  get_prop (obj_get (storeSheet rt file sheetName transformed rm) file) sheetName
  = VArr (map VObj transformed)
  /\ (forall other,
        other <> sheetName ->
        get_prop (obj_get (storeSheet rt file sheetName transformed rm) file) other
        = get_prop (obj_get rm file) other)
  /\ (forall f,
        f <> file ->
        obj_lookup (storeSheet rt file sheetName transformed rm) f = obj_lookup rm f).
Proof.
  intros Hs Hf. unfold storeSheet. rewrite Hs.
  assert (Hfile : exists sheets,
             js_or (obj_get rm file) (VObj []) = VObj sheets
             /\ forall k, obj_get sheets k = get_prop (obj_get rm file) k).
  { unfold obj_get at 1 3. destruct Hf as [Hn | [sheets Hsome]].
    - rewrite Hn. exists []. split; reflexivity.
    - rewrite Hsome. exists sheets. split; reflexivity. }
  destruct Hfile as (sheets & Hor & Hget). rewrite Hor. simpl set_prop.
  assert (Hnew : forall x,
             obj_get (obj_set rm file (VObj x)) file = VObj x).
  { intros x. unfold obj_get. rewrite obj_lookup_set, String.eqb_refl. reflexivity. }
  rewrite Hnew. simpl get_prop.
  split; [|split].
  - unfold obj_get. rewrite obj_lookup_set, String.eqb_refl. reflexivity.
  - intros other Ho. rewrite <- Hget. unfold obj_get.
    rewrite obj_lookup_set.
    apply not_eq_sym in Ho. apply String.eqb_neq in Ho. rewrite Ho.
    reflexivity.
  - intros f Hne. rewrite obj_lookup_set.
    apply not_eq_sym in Hne. apply String.eqb_neq in Hne. rewrite Hne.
    reflexivity.
Qed.

End ShapeFacts.

(* ------------------------------------------------------------------ *)
(** ** Paths *)

Lemma split_dots_aux_dot (a b cur : string) :
  split_dots_aux cur (a ++ "." ++ b)
  = split_dots_aux cur a ++ split_dots_aux "" b.
Proof.
  revert cur. induction a as [|c a IH]; intros cur.
  - simpl. reflexivity.
  - change ((String c a ++ "." ++ b)%string) with (String c (a ++ "." ++ b)).
    simpl. destruct (Ascii.eqb c "."%char).
    + rewrite IH, app_assoc. reflexivity.
    + apply IH.
Qed.

Lemma walk_path_undefined (parts : list string) : walk_path VUndef parts = VUndef.
Proof. destruct parts; reflexivity. Qed.

Lemma walk_path_app (l1 l2 : list string) :
  forall cur, walk_path cur (l1 ++ l2) = walk_path (walk_path cur l1) l2.
Proof.
  induction l1 as [|p ps IH]; intros cur; simpl.
  - reflexivity.
  - destruct (nullish cur).
    + symmetry. apply walk_path_undefined.
    + apply IH.
Qed.

Section PathFacts.
Context {H : Host}.

(** X22. Reading a dotted path in a message: empty segments are ignored
    (so leading, trailing and doubled dots change nothing), reading
    [p.q] is reading [q] in what reading [p] gives, and a path that runs
    into [undefined] or [null] before its end reads [undefined] instead of
    throwing.  For a message without [get] and [set] properties [deepGet]
    is this walk and never throws. *)
Theorem deepGet_paths (m : JsVal) (p q : string) :
  split_dots (p ++ "." ++ q) = split_dots p ++ split_dots q
  /\ walk_path m (split_dots (p ++ "." ++ q))
     = walk_path (walk_path m (split_dots p)) (split_dots q)
  /\ (forall v k rest, nullish v = true -> walk_path v (k :: rest) = VUndef)
  /\ (forall s,
        truthy m = true -> p <> "" ->
        truthy (get_prop m "get") && truthy (get_prop m "set") = false ->
        deepGet (RootMsg m) p s = (Ok (walk_path m (split_dots p)), s)).
Proof.
  assert (Hsplit : split_dots (p ++ "." ++ q) = split_dots p ++ split_dots q).
  { unfold split_dots. apply split_dots_aux_dot. }
  split; [exact Hsplit|]. split; [|split].
  - rewrite Hsplit. apply walk_path_app.
  - intros v k rest Hn. simpl. rewrite Hn. reflexivity.
  - intros s Ht Hp Hg. unfold deepGet. rewrite Ht, Hg.
    apply String.eqb_neq in Hp. rewrite Hp. reflexivity.
Qed.

(** X23. Where the result is written: a target scope other than [flow]
    and [global] (so [msg], or anything unknown) assigns the message
    property and touches no context store; for [flow] and [global] a path
    that is blank or holds only dots writes the result under the key
    [xlsxFilter], and a path of one segment writes it under that segment;
    in both cases the message is returned as it was. *)
Theorem setOutput_targets (msg value : JsVal) (scope pathStr : string) (s : State) :
  (String.eqb scope "flow" || String.eqb scope "global" = false ->
   setOutput msg value scope pathStr s
   = (setMessageProperty msg pathStr value, s))
  /\ (String.eqb scope "flow" || String.eqb scope "global" = true ->
      forall key,
        (trim pathStr = "" \/ split_dots pathStr = []) /\ key = "xlsxFilter"
        \/ (trim pathStr <> "" /\ split_dots pathStr = [key]) ->
        setOutput msg value scope pathStr s
        = bind (lift_world (context_set scope key value))
            (fun _ => bind (emit (EContextSet scope key value)) (fun _ => ret msg))
            s).
Proof.
  split.
  - intros Hsc. unfold setOutput. rewrite Hsc. simpl.
    rewrite orb_true_r. reflexivity.
  - intros Hsc key Hkey. unfold setOutput.
    assert (Hm : String.eqb scope "msg" = false).
    { destruct (String.eqb scope "msg") eqn:E; [|reflexivity].
      apply String.eqb_eq in E. subst. discriminate Hsc. }
    rewrite Hm, Hsc. simpl.
    destruct Hkey as [[[Ht | Hsp] Hk] | [Ht Hsp]]; subst.
    + rewrite Ht. simpl. rewrite orb_true_r. reflexivity.
    + destruct (String.eqb pathStr "" || String.eqb (trim pathStr) "");
        [reflexivity|]. rewrite Hsp. reflexivity.
    + apply String.eqb_neq in Ht. rewrite Ht.
      destruct (String.eqb pathStr "") eqn:Ep.
      * apply String.eqb_eq in Ep. subst. discriminate Hsp.
      * simpl. rewrite Hsp. reflexivity.
Qed.

End PathFacts.

(* ------------------------------------------------------------------ *)
(** ** Comparators and odd rows *)

Lemma is_nan_Prim2SF (x : float) :
  PrimFloat.is_nan x = true -> Prim2SF x = S754_nan.
Proof.
  unfold PrimFloat.is_nan. rewrite FloatAxioms.eqb_spec.
  destruct (Prim2SF x) as [sg | sg | | sg m e]; simpl; try reflexivity.
  - discriminate.
  - destruct sg; discriminate.
  - unfold SFeqb, SFcompare.
    destruct sg; rewrite Z.compare_refl, Pos.compare_cont_refl; discriminate.
Qed.

Lemma SFcompare_nan_r (f : spec_float) : SFcompare f S754_nan = None.
Proof. destruct f; reflexivity. Qed.

Lemma nan_never_ordered (x y : float) :
  PrimFloat.is_nan x = true \/ PrimFloat.is_nan y = true ->
  PrimFloat.ltb x y = false /\ PrimFloat.leb x y = false
  /\ PrimFloat.ltb y x = false /\ PrimFloat.leb y x = false.
Proof.
  rewrite !FloatAxioms.ltb_spec, !FloatAxioms.leb_spec.
  unfold SFltb, SFleb.
  intros [Hx | Hy].
  - rewrite (is_nan_Prim2SF _ Hx), SFcompare_nan_r. simpl. auto.
  - rewrite (is_nan_Prim2SF _ Hy), SFcompare_nan_r. simpl. auto.
Qed.

Section ComparatorFacts.
Context {H : Host}.

(** X24. A cell or a right-hand side that is not a number fails every
    ordering rule: when [Number] of the (possibly coerced) cell or of the
    right-hand side is NaN, each of [<], [<=], [>], [>=] is false, so a rule
    and its opposite are both false. *)
Theorem ordering_rules_reject_non_numbers (r : Rule.t) (Rraw L : JsVal) :
  In (Rule.op r) orderingOps ->
  PrimFloat.is_nan
    (to_number (if is_false (Rule.coerce r) then L else coerceVal L)) = true
  \/ PrimFloat.is_nan (to_number Rraw) = true ->
  compare r Rraw L = false.
Proof.
  intros Hop Hnan.
  destruct (nan_never_ordered _ _ Hnan) as (Hlt & Hle & Hgt & Hge).
  unfold compare.
  simpl in Hop.
  destruct Hop as [E | [E | [E | [E | []]]]]; rewrite <- E; simpl; assumption.
Qed.

(** X25. The conditional-rename condition never throws, and it is false
    for every comparator outside [==], [!=], [contains], [!contains],
    [regex], [isEmpty], [!isEmpty]: the ordering comparators and
    [jsonata] never enable the conditional rename. *)
Theorem conditionTrue_supported_comparators (rt : Schema) (msg : JsVal) (s : State) :
  (exists c s', conditionTrue rt msg s = (Ok c, s'))
  /\ (existsb (String.eqb (ConditionalRename.op (conditionalRename rt))) conditionOps
      = false ->
      exists s', conditionTrue rt msg s = (Ok false, s')).
Proof.
  split; [apply conditionTrue_total|].
  intros Hop. simpl in Hop.
  repeat (apply orb_false_elim in Hop; destruct Hop as [?E Hop]).
  unfold conditionTrue, try_catch, bind.
  match goal with |- context [resolveDynamic ?a ?b ?c ?d ?e s] =>
    destruct (resolveDynamic a b c d e s) as [[lhs | e1] s1] end.
  - match goal with |- context [resolveDynamic ?a ?b ?c ?d ?e s1] =>
      destruct (resolveDynamic a b c d e s1) as [[rhs | e2] s2] end.
    + unfold ret. rewrite E, E0, E1, E2, E3, E4, E5. eexists. reflexivity.
    + eexists. reflexivity.
  - eexists. reflexivity.
Qed.

(** X26. A row that is [null] or [undefined]: with no rule it passes the
    filter and is copied as an empty row; a rule that tries a candidate
    column on it throws, which fails the batch. *)
Theorem null_rows (rt : Schema) (msg row : JsVal) (sheet : string) (s : State) :
  nullish row = true ->
  spread [] row = []
  /\ (rules rt = [] -> rowPasses rt row msg sheet s = (Ok true, s))
  /\ (forall r c,
        truthy (Rule.sheetScope r) = false ->
        String.eqb (Rule.op r) "jsonata" = false ->
        Rule.colType r = "str" -> Rule.col r = VStr c ->
        Rule.rhsType r = "str" ->
        exists e, evalRule row msg sheet r s = (Throw e, s)).
Proof.
  intros Hn. split; [|split].
  - destruct row; simpl in Hn; try discriminate; reflexivity.
  - intros Hr. unfold rowPasses. rewrite Hr. reflexivity.
  - intros r c Hsc Hop Hct Hc Hrt.
    unfold evalRule, ruleAppliesTo. rewrite Hsc.
    unfold bind at 1. unfold ret at 1. simpl. rewrite Hop.
    unfold resolveColumnName, resolveRHS, resolveDynamic.
    rewrite Hct, Hc, Hrt. simpl. unfold bind, ret, lift_res. simpl.
    destruct row; simpl in Hn; try discriminate; eexists; reflexivity.
Qed.

End ComparatorFacts.

(* ------------------------------------------------------------------ *)
(** ** What an invocation logs *)

Create HintDb logs.

Section LogCombinators.
Context {H : Host}.
Variable P : Event -> bool.

Lemma logs_ret {A} (a : A) : logs_only P (ret a).
Proof.
  intros s r s' E. inversion E; subst. exists [].
  split; [rewrite app_nil_r; reflexivity | reflexivity].
Qed.

Lemma logs_throw {A} (e : Err) : logs_only P (throw (A := A) e).
Proof.
  intros s r s' E. inversion E; subst. exists [].
  split; [rewrite app_nil_r; reflexivity | reflexivity].
Qed.

Lemma logs_lift_res {A} (x : Res A) : logs_only P (lift_res x).
Proof.
  intros s r s' E. inversion E; subst. exists [].
  split; [rewrite app_nil_r; reflexivity | reflexivity].
Qed.

Lemma logs_lift_world {A} (f : World -> Res A * World) : logs_only P (lift_world f).
Proof.
  intros s r s' E. apply lift_world_events in E. exists [].
  split; [rewrite app_nil_r; exact E | reflexivity].
Qed.

Lemma logs_emit (e : Event) : P e = true -> logs_only P (emit e).
Proof.
  intros He s r s' E. inversion E; subst. exists [e].
  split; [reflexivity | simpl; rewrite He; reflexivity].
Qed.

Lemma logs_bind {A B} (m : M A) (f : A -> M B) :
  logs_only P m -> (forall a, logs_only P (f a)) -> logs_only P (bind m f).
Proof.
  intros Hm Hf s r s' E. unfold bind in E.
  destruct (m s) as [[a | e] s1] eqn:Em.
  - destruct (Hm _ _ _ Em) as (l1 & H1 & HP1).
    destruct (Hf a _ _ _ E) as (l2 & H2 & HP2).
    exists (l1 ++ l2). split.
    + rewrite H2, H1, app_assoc. reflexivity.
    + rewrite forallb_app, HP1, HP2. reflexivity.
  - inversion E; subst. apply (Hm _ _ _ Em).
Qed.

Lemma logs_try_catch {A} (m : M A) (h : Err -> M A) :
  logs_only P m -> (forall e, logs_only P (h e)) -> logs_only P (try_catch m h).
Proof.
  intros Hm Hh s r s' E. unfold try_catch in E.
  destruct (m s) as [[a | e] s1] eqn:Em.
  - inversion E; subst. apply (Hm _ _ _ Em).
  - destruct (Hm _ _ _ Em) as (l1 & H1 & HP1).
    destruct (Hh e _ _ _ E) as (l2 & H2 & HP2).
    exists (l1 ++ l2). split.
    + rewrite H2, H1, app_assoc. reflexivity.
    + rewrite forallb_app, HP1, HP2. reflexivity.
Qed.

Lemma logs_mapM {A B} (f : A -> M B) (xs : list A) :
  (forall x, logs_only P (f x)) -> logs_only P (mapM f xs).
Proof.
  intros Hf. induction xs as [|x xs IH]; simpl.
  - apply logs_ret.
  - apply logs_bind; [apply Hf|]. intros y.
    apply logs_bind; [exact IH|]. intros ys. apply logs_ret.
Qed.

End LogCombinators.

Lemma logs_weaken {H : Host} {A} (P Q : Event -> bool) (m : M A) :
  (forall e, P e = true -> Q e = true) -> logs_only P m -> logs_only Q m.
Proof.
  intros HPQ Hm s r s' E. destruct (Hm _ _ _ E) as (l & Hl & HP).
  exists l. split; [exact Hl|].
  rewrite forallb_forall in *. intros e He. apply HPQ, HP, He.
Qed.

(** Breaks a computation into binds, handlers and branches, and closes
    the leaves with the lemmas above and the hints of [logs]. *)
Ltac logs_steps :=
  repeat first
    [ solve [eauto with logs]
    | apply logs_ret | apply logs_throw | apply logs_lift_res
    | apply logs_lift_world
    | apply logs_emit; reflexivity
    | apply logs_mapM; intros ?
    | apply logs_bind; [|intros ?]
    | apply logs_try_catch; [|intros ?]
    | progress cbv zeta
    | match goal with
      | |- logs_only _ (if ?b then _ else _) => destruct b
      | |- logs_only _ (match ?x with _ => _ end) => destruct x
      end ].

Section LogFacts.
Context {H : Host}.

Lemma logs_resolveDynamic (msg val : JsVal) (typ : string) (rowCtx : JsVal)
    (extras : JsObj) :
  logs_only is_status (resolveDynamic msg val typ rowCtx extras).
Proof. unfold resolveDynamic, evalJSONata. logs_steps. Qed.
#[local] Hint Resolve logs_resolveDynamic : logs.

Lemma logs_ruleAppliesTo (msg scope : JsVal) (ty sheet : string) (rowCtx : JsVal) :
  logs_only is_status (ruleAppliesTo msg scope ty sheet rowCtx).
Proof. unfold ruleAppliesTo, evalJSONata. logs_steps. Qed.
#[local] Hint Resolve logs_ruleAppliesTo : logs.

Lemma logs_evalRule (row msg : JsVal) (sheet : string) (r : Rule.t) :
  logs_only is_status (evalRule row msg sheet r).
Proof.
  unfold evalRule, evalJSONata, resolveColumnName, resolveRHS. logs_steps.
Qed.
#[local] Hint Resolve logs_evalRule : logs.

Lemma logs_rowPasses (rt : Schema) (row msg : JsVal) (sheet : string) :
  logs_only is_status (rowPasses rt row msg sheet).
Proof.
  assert (Hany : forall rs, logs_only is_status (anyRule (evalRule row msg sheet) rs)).
  { induction rs as [|r rs IH]; simpl; logs_steps. }
  assert (Hevery : forall rs,
             logs_only is_status (everyRule (evalRule row msg sheet) rs)).
  { induction rs as [|r rs IH]; simpl; logs_steps. }
  unfold rowPasses. destruct (rules rt); [logs_steps|].
  destruct (String.eqb (filterLogic rt) "OR"); [apply Hany | apply Hevery].
Qed.
#[local] Hint Resolve logs_rowPasses : logs.

Lemma logs_filterRows (rt : Schema) (msg : JsVal) (sheet : string) (rows : list JsVal) :
  logs_only is_status (filterRows rt msg sheet rows).
Proof. induction rows as [|row rows IH]; simpl; logs_steps. Qed.
#[local] Hint Resolve logs_filterRows : logs.

Lemma logs_buildColumnSetFrom (msg : JsVal) (sheet : string)
    (selectList : list SelectItem.t) :
  forall set, logs_only is_status (buildColumnSetFrom msg sheet selectList set).
Proof. induction selectList as [|it rest IH]; intros set; simpl; logs_steps. Qed.
#[local] Hint Resolve logs_buildColumnSetFrom : logs.

Lemma logs_renameLoop (row : JsObj) (msg : JsVal) (sheet : string)
    (list : list RenameItem.t) :
  forall out, logs_only is_status (renameLoop row msg sheet list out).
Proof. induction list as [|it rest IH]; intros out; simpl; logs_steps. Qed.
#[local] Hint Resolve logs_renameLoop : logs.

Lemma logs_conditionTrue (rt : Schema) (msg : JsVal) :
  logs_only is_status (conditionTrue rt msg).
Proof. unfold conditionTrue. logs_steps. Qed.
#[local] Hint Resolve logs_conditionTrue : logs.

Lemma logs_deriveLoop (msg : JsVal) (sheet : string) (r : JsObj)
    (ds : list DeriveItem.t) :
  forall out, logs_only is_status (deriveLoop msg sheet r ds out).
Proof.
  induction ds as [|d rest IH]; intros out; simpl; unfold evalJSONata; logs_steps.
Qed.
#[local] Hint Resolve logs_deriveLoop : logs.

Lemma logs_transformRows (rt : Schema) (msg : JsVal) (sheet : string)
    (filtered : list JsVal) :
  logs_only is_status (transformRows rt msg sheet filtered).
Proof.
  unfold transformRows, selectStage, buildScopedColumnSet, renameStage,
    conditionalRenameStage, deriveStage, renameWithList.
  logs_steps.
Qed.
#[local] Hint Resolve logs_transformRows : logs.

Lemma logs_processFiles (rt : Schema) (msg : JsVal) (incSheet excSheet : option string)
    (files : list (string * JsVal)) :
  forall acc, logs_only is_status (processFiles rt msg incSheet excSheet files acc).
Proof.
  assert (Hsheets : forall file sheets acc,
             logs_only is_status
               (processSheets rt msg incSheet excSheet file sheets acc)).
  { intros file sheets. induction sheets as [|[sheetName rows] sheets IH];
      intros acc; simpl; unfold processSheet; logs_steps. }
  induction files as [|[file sheets] files IH]; intros acc; simpl;
    unfold processFile; logs_steps.
Qed.

Lemma logs_readInput (rt : Schema) (msg : JsVal) :
  logs_only is_status (readInput rt msg).
Proof. unfold readInput, deepGet. logs_steps. Qed.

Lemma logs_setOutput (msg value : JsVal) (scope pathStr : string) :
  logs_only is_internal (setOutput msg value scope pathStr).
Proof. unfold setOutput. logs_steps. Qed.

End LogFacts.

Section CompletionFacts.
Context {H : Host}.

Lemma is_status_internal (e : Event) : is_status e = true -> is_internal e = true.
Proof. destruct e; simpl; auto. Qed.

(** The [catch] block after a log that grew by [l1]. *)
Lemma catch_block_completes (msg : JsVal) (has_done : bool) (err : Err)
    (s s1 : State) (l1 : list Event) :
  events s1 = events s ++ EStatus "blue" "dot" "processing..." :: l1 ->
  forallb is_internal l1 = true ->
  exists s' l tail,
    bind (emit (EStatus "red" "ring" (err_text err)))
      (fun _ => bind (emit (EError err msg))
                  (fun _ => if has_done then emit (EDone (Some err)) else ret tt)) s1
    = (Ok tt, s')
    /\ events s' = events s ++ EStatus "blue" "dot" "processing..." :: l ++ tail
    /\ forallb is_internal l = true
    /\ completion msg has_done tail.
Proof.
  intros Hev Hl.
  exists (mkState (world s1)
            (events s ++ EStatus "blue" "dot" "processing..."
               :: (l1 ++ [EStatus "red" "ring" (err_text err)])
               ++ EError err msg :: (if has_done then [EDone (Some err)] else []))),
    (l1 ++ [EStatus "red" "ring" (err_text err)]),
    (EError err msg :: (if has_done then [EDone (Some err)] else [])).
  split; [|split; [reflexivity|split]].
  - unfold bind, emit, ret. simpl. rewrite Hev.
    destruct has_done; simpl; f_equal; f_equal;
      rewrite <- ?app_assoc; simpl; rewrite <- ?app_assoc; reflexivity.
  - rewrite forallb_app, Hl. reflexivity.
  - right. exists err. reflexivity.
Qed.

(** X27. The input handler itself never throws, and every invocation
    ends in exactly one of two ways: it sends the message once, or it
    reports one error with the incoming message; [done] is then called
    once when the runtime passed it, and nothing is logged after that.
    Everything logged before, after the first [processing...] status, is a
    status or a context write. *)
Theorem onInput_completes_once (rt : Schema) (msg : JsVal) (has_done : bool)
    (s : State) :
  exists s' l tail,
    onInput rt msg has_done s = (Ok tt, s')
    /\ events s' = events s ++ EStatus "blue" "dot" "processing..." :: l ++ tail
    /\ forallb is_internal l = true
    /\ completion msg has_done tail.
Proof.
  unfold onInput, try_catch, runBatch.
  unfold bind at 1. unfold emit at 1.
  set (s0 := mkState (world s) (events s ++ [EStatus "blue" "dot" "processing..."])).
  assert (Hs0 : events s0 = events s ++ EStatus "blue" "dot" "processing..." :: [])
    by reflexivity.
  unfold bind at 1.
  destruct (readInput rt msg s0) as [[inputData | e] s1] eqn:E1.
  2:{ destruct (@logs_readInput H _ _ _ _ _ E1) as (l1 & H1 & HP1).
      assert (Hev : events s1
                    = events s ++ EStatus "blue" "dot" "processing..." :: l1).
      { rewrite H1, Hs0, <- app_assoc. reflexivity. }
      assert (Hl : forallb is_internal l1 = true).
      { rewrite forallb_forall in *. intros x Hx.
        apply is_status_internal, HP1, Hx. }
      eapply catch_block_completes; [exact Hev | exact Hl]. }
  destruct (@logs_readInput H _ _ _ _ _ E1) as (l1 & H1 & HP1).
  assert (Hl1 : forallb is_internal l1 = true).
  { rewrite forallb_forall in *. intros x Hx. apply is_status_internal, HP1, Hx. }
  assert (Hev1 : events s1 = events s ++ EStatus "blue" "dot" "processing..." :: l1).
  { rewrite H1, Hs0, <- app_assoc. reflexivity. }
  destruct (negb (truthy inputData) || negb (typeof_object inputData)
            || negb (truthy (get_prop inputData "data"))).
  { unfold throw. eapply catch_block_completes; [exact Hev1 | exact Hl1]. }
  unfold bind at 1.
  match goal with |- context [processFiles ?a ?b ?c ?d ?e ?f s1] =>
    destruct (processFiles a b c d e f s1) as [[acc | e2] s2] eqn:E2 end.
  2:{ destruct (@logs_processFiles H _ _ _ _ _ _ _ _ _ E2) as (l2 & H2 & HP2).
      assert (Hev : events s2
                    = events s ++ EStatus "blue" "dot" "processing..." :: (l1 ++ l2)).
      { rewrite H2, Hev1, <- app_assoc. reflexivity. }
      assert (Hl : forallb is_internal (l1 ++ l2) = true).
      { rewrite forallb_app, Hl1. simpl.
        rewrite forallb_forall in *. intros x Hx.
        apply is_status_internal, HP2, Hx. }
      eapply catch_block_completes; [exact Hev | exact Hl]. }
  destruct (@logs_processFiles H _ _ _ _ _ _ _ _ _ E2) as (l2 & H2 & HP2).
  assert (Hl2 : forallb is_internal (l1 ++ l2) = true).
  { rewrite forallb_app, Hl1. simpl.
    rewrite forallb_forall in *. intros x Hx. apply is_status_internal, HP2, Hx. }
  assert (Hev2 : events s2
                 = events s ++ EStatus "blue" "dot" "processing..." :: (l1 ++ l2)).
  { rewrite H2, Hev1, <- app_assoc. reflexivity. }
  unfold bind at 1.
  match goal with |- context [setOutput ?a ?b ?c ?d s2] =>
    destruct (setOutput a b c d s2) as [[msg' | e3] s3] eqn:E3 end.
  2:{ destruct (@logs_setOutput H _ _ _ _ _ _ _ E3) as (l3 & H3 & HP3).
      assert (Hev : events s3
                    = events s ++ EStatus "blue" "dot" "processing..."
                        :: ((l1 ++ l2) ++ l3)).
      { rewrite H3, Hev2, <- app_assoc. reflexivity. }
      assert (Hl : forallb is_internal ((l1 ++ l2) ++ l3) = true).
      { rewrite forallb_app, Hl2, HP3. reflexivity. }
      eapply catch_block_completes; [exact Hev | exact Hl]. }
  destruct (@logs_setOutput H _ _ _ _ _ _ _ E3) as (l3 & H3 & HP3).
  set (green := EStatus "green" "dot"
                  (String_of_number (num_of_nat (rowOut acc)) ++ "/"
                   ++ String_of_number (num_of_nat (rowIn acc)) ++ " rows")%string).
  exists (mkState (world s3)
            (events s ++ EStatus "blue" "dot" "processing..."
               :: (((l1 ++ l2) ++ l3) ++ [green])
               ++ ESend msg' :: (if has_done then [EDone None] else []))),
    (((l1 ++ l2) ++ l3) ++ [green]),
    (ESend msg' :: (if has_done then [EDone None] else [])).
  split; [|split; [reflexivity|split]].
  - unfold bind, emit, ret. simpl. rewrite H3, Hev2. fold green.
    destruct has_done; simpl; f_equal; f_equal;
      rewrite <- ?app_assoc; simpl; rewrite <- ?app_assoc; reflexivity.
  - rewrite !forallb_app, Hl1 in *. simpl in Hl2. rewrite Hl2, HP3. reflexivity.
  - left. exists msg'. reflexivity.
Qed.

End CompletionFacts.

(* ------------------------------------------------------------------ *)
(** ** The further properties on examples *)

Module MoreRuns.
Import ExampleHost Examples MoreExamples.

(** The defaults of a schema that sets the filter logic are kept by a
    second pass. *)
Lemma withDefaults_idempotent_example :
  withDefaults (VObj (defaultsOf orSchema)) = Ok (defaultsOf orSchema).
Proof.
  apply (@withDefaults_idempotent orSchema (defaultsOf orSchema)).
  reflexivity.
Defined.

(** Two derive entries, the first of which fails: the row gets the
    second column only. *)
Lemma derive_failure_example :
  deriveStage (H := partialHost) withDerive msgNoData "Sheet1" [rowName]
    (mkState (H := partialHost) 0 [])
  = (Ok [[(" Name ", VStr "x"); ("good", VStr "fine")]],
     mkState (H := partialHost) 2 [])
  /\ (exists out1 s1 out' s',
        deriveLoop (H := partialHost) msgNoData "Sheet1" rowName [] rowName
          (mkState (H := partialHost) 0 [])
        = (Ok out1, s1)
        /\ deriveLoop (H := partialHost) msgNoData "Sheet1" rowName
             [deriveBad; deriveGood] rowName (mkState (H := partialHost) 0 [])
           = (Ok out', s')
        /\ obj_lookup out' "bad" = obj_lookup out1 "bad")
  /\ (exists out1 s1 out' s',
        deriveLoop (H := partialHost) msgNoData "Sheet1" rowName [deriveBad] rowName
          (mkState (H := partialHost) 0 [])
        = (Ok out1, s1)
        /\ deriveLoop (H := partialHost) msgNoData "Sheet1" rowName
             [deriveBad; deriveGood] rowName (mkState (H := partialHost) 0 [])
           = (Ok out', s')
        /\ obj_lookup out' "good" = Some (VStr "fine")).
Proof.
  split; [reflexivity|].
  split.
  - apply (proj2 (@deriveStage_never_fails partialHost withDerive msgNoData "Sheet1"
                    [rowName] (mkState (H := partialHost) 0 []))
             rowName [] deriveBad [deriveGood] rowName
             (mkState (H := partialHost) 0 [])).
    + discriminate.
    + reflexivity.
    + simpl. intros [E | []]. discriminate E.
  - apply (proj2 (@deriveStage_never_fails partialHost withDerive msgNoData "Sheet1"
                    [rowName] (mkState (H := partialHost) 0 []))
             rowName [deriveBad] deriveGood [] rowName
             (mkState (H := partialHost) 0 [])).
    + discriminate.
    + reflexivity.
    + simpl. tauto.
Defined.

(** A value given as the expression [boom], which this host cannot
    evaluate: the result is [undefined] and one red status is logged. *)
Lemma resolveDynamic_failure_example :
  resolveDynamic (H := partialHost) msgNoData (VStr "boom") "jsonata" VNull []
    (mkState (H := partialHost) 0 [])
  = (Ok VUndef,
     mkState (H := partialHost) 1 [EStatus "red" "ring" "JSONata ERR: boom"])
  /\ resolveDynamic (H := partialHost) msgNoData (VStr "fine") "jsonata" VNull []
       (mkState (H := partialHost) 0 [])
     = (Ok (VStr "fine"), mkState (H := partialHost) 1 []).
Proof.
  destruct (@resolveDynamic_literal_and_expression partialHost msgNoData
              (VStr "boom") VNull [] (mkState (H := partialHost) 0 []))
    as (_ & _ & _ & Hfail).
  destruct (@resolveDynamic_literal_and_expression partialHost msgNoData
              (VStr "fine") VNull [] (mkState (H := partialHost) 0 []))
    as (_ & _ & Hok & _).
  split.
  - apply (Hfail "boom" 1). reflexivity.
  - apply (Hok (VStr "fine") 1). reflexivity.
Defined.

(** [row.Status] with a zero-width space pasted after the dot. *)
Lemma sanitizeExpr_example :
  sanitizeExpr (VStr ("row." ++ zero_width_space ++ "Status"))
  = sanitizeExpr (VStr ("row." ++ "Status")).
Proof.
  apply (@sanitizeExpr_removes_marks host "row." zero_width_space "Status").
  - reflexivity.
  - exists (ascii_of_nat 226), (ascii_of_nat 128), (ascii_of_nat 139).
    split; reflexivity.
Defined.

(** The select line A, A, "", B gives the set A, B. *)
Lemma column_set_example :
  NoDup ["A"; "B"] /\ ~ In "" ["A"; "B"].
Proof.
  apply (@buildScopedColumnSet_is_a_set host msgNoData "Sheet1" [selectRepeats]
           s0 s0 ["A"; "B"]).
  reflexivity.
Defined.

(** A to B, then B to C, on a row that has A, B and C. *)
Lemma rename_chain_example :
  exists out,
    renameWithList rowABC msgNoData "Sheet1"
      [literalRename "A" "B"; literalRename "B" "C"] s0
    = (Ok out, s0)
    /\ has_own out "A" = false
    /\ has_own out "B" = false
    /\ obj_get out "C" = obj_get rowABC "A".
Proof.
  apply (@rename_lines_chain host rowABC msgNoData "Sheet1" "A" "B" "C" s0);
    try discriminate.
  reflexivity.
Defined.

(** from=[A,B], to=[B,A] on a row that has A and B. *)
Lemma rename_no_swap_example :
  obj_get (renamePairwise ["A"; "B"] ["B"; "A"] rowABC) "A" = obj_get rowABC "A"
  /\ has_own (renamePairwise ["A"; "B"] ["B"; "A"] rowABC) "A" = true
  /\ has_own (renamePairwise ["A"; "B"] ["B"; "A"] rowABC) "B" = false.
Proof.
  apply (@rename_pairs_do_not_swap rowABC "A" "B"); try discriminate.
  reflexivity.
Defined.

(** The scenario's batch: one row out for two in, one workbook counted
    beside the lock file. *)
Lemma batch_counters_example :
  rowOut accFlat <= rowIn accFlat
  /\ fileCount accFlat = List.length (workbooks book1Files).
Proof.
  apply (@batch_counters host (amountFilter "flat") msgBook1 None None book1Files
           s0 s0 accFlat).
  reflexivity.
Defined.

Lemma flat_output_example :
  exists l,
    obj_get (buildOutObj (amountFilter "flat") accFlat) "data" = VArr l
    /\ List.length l = rowOut accFlat.
Proof.
  apply (@flat_output_has_rowOut_rows host (amountFilter "flat") msgBook1 None None
           book1Files s0 s0 accFlat).
  - reflexivity.
  - reflexivity.
Defined.

Lemma hierarchical_output_example :
  nested_rows (resultMap accNested)
  /\ obj_get (buildOutObj (amountFilter "hierarchical") accNested) "data"
     = VObj (resultMap accNested).
Proof.
  apply (@hierarchical_output_is_nested host (amountFilter "hierarchical") msgBook1
           None None book1Files s0 s0 accNested).
  - reflexivity.
  - reflexivity.
Defined.

(** Storing the first sheet of a file in an empty result map. *)
Lemma hierarchical_store_example :
  get_prop (obj_get (storeSheet plain "Book1.xlsx" "Sheet1" [rowA] []) "Book1.xlsx")
    "Sheet1"
  = VArr (map VObj [rowA])
  /\ (forall other,
        other <> "Sheet1" ->
        get_prop (obj_get (storeSheet plain "Book1.xlsx" "Sheet1" [rowA] [])
                    "Book1.xlsx") other
        = get_prop (obj_get [] "Book1.xlsx") other)
  /\ (forall f,
        f <> "Book1.xlsx" ->
        obj_lookup (storeSheet plain "Book1.xlsx" "Sheet1" [rowA] []) f
        = obj_lookup [] f).
Proof.
  apply (@hierarchical_store_lookup plain "Book1.xlsx" "Sheet1" [rowA] []).
  - reflexivity.
  - left. reflexivity.
Defined.

(** The plain configuration copies the rows of a sheet. *)
Lemma empty_configuration_example :
  filterRows plain msgNoData "Sheet1" [rowOK; rowNO] s0 = (Ok [rowOK; rowNO], s0)
  /\ transformRows plain msgNoData "Sheet1" [rowOK; rowNO] s0
     = (Ok (map (fun r => spread [] r) [rowOK; rowNO]), s0).
Proof.
  apply (@empty_configuration_copies_rows host plain msgNoData "Sheet1"
           [rowOK; rowNO] s0).
  repeat split.
Defined.

(** A cell that holds text is not below 8. *)
Lemma ordering_example :
  compare belowEight (VNum 8) (VStr "abc") = false.
Proof.
  apply (@ordering_rules_reject_non_numbers host belowEight (VNum 8) (VStr "abc")).
  - left. reflexivity.
  - left. reflexivity.
Defined.

(** A [null] row under the plain configuration and under a column rule. *)
Lemma null_row_example :
  spread [] VNull = []
  /\ (rules plain = [] -> rowPasses plain VNull msgNoData "Sheet1" s0 = (Ok true, s0))
  /\ (forall r c,
        truthy (Rule.sheetScope r) = false ->
        String.eqb (Rule.op r) "jsonata" = false ->
        Rule.colType r = "str" -> Rule.col r = VStr c ->
        Rule.rhsType r = "str" ->
        exists e, evalRule VNull msgNoData "Sheet1" r s0 = (Throw e, s0)).
Proof.
  apply (@null_rows host plain msgNoData VNull "Sheet1" s0).
  reflexivity.
Defined.

End MoreRuns.
